(** * The MikroTik REST client of external-dns-provider-mikrotik

    A shallow embedding of [internal/mikrotik/client.go]: the transport
    ([doRequest]), the flat read ([GetDNSRecordsByName]), the create pipeline
    ([CreateDNSRecords]) and the delete reconciliation loop
    ([DeleteDNSRecords]) with its semantic matcher ([recordsMatch]).

    Go strings are [string]; slices are [list]; a Go function returning
    [(T, error)] returns [result T]; code that talks to the router runs in a
    small monad that threads the remote state and records every HTTP request
    handed to the transport. *)

From Stdlib Require Import String Ascii List ZArith Bool Lia Permutation DecimalString.
Import ListNotations.
Open Scope string_scope.

Set Implicit Arguments.
Set Warnings "-notation-for-abbreviation".

(** ** Errors and results *)

(** A Go [error] is observed through its message; [fmt.Errorf("ctx: %w", err)]
    is the concatenation of the context and the wrapped message. *)
Definition error := string.

Inductive result (A : Type) : Type :=
| Ok (a : A)
| Err (e : error).

Arguments Ok {A} a.
Arguments Err {A} e.

Definition is_ok {A} (r : result A) : bool :=
  match r with Ok _ => true | Err _ => false end.

(** ** Data model *)

Record MikrotikDefaults := {
  DefaultTTL : Z;
  DefaultComment : string
}.

Record MikrotikConnectionConfig := {
  BaseUrl : string;
  Username : string;
  Password : string;
  SkipTLSVerify : bool
}.

(** The [*http.Client] embedded in the Go struct is the remote world the monad
    below threads; [deleteMutex] serialises concurrent callers and has no
    effect on one sequential call. *)
Record MikrotikApiClient := {
  defaults : MikrotikDefaults;
  config : MikrotikConnectionConfig
}.

(** Modelled from the spec: the [DNSRecord] struct is declared in a file of
    the package that is not among the sources; its fields are the ones the
    data model lists for a RemoteRecord, named as [client.go] and the tests
    use them, every one a Go [string]. *)
Record DNSRecord := {
  ID : string;
  Name : string;
  Type_ : string;
  Address : string;
  CName : string;
  Text : string;
  MXPreference : string;
  MXExchange : string;
  SrvPriority : string;
  SrvWeight : string;
  SrvPort : string;
  SrvTarget : string;
  NS : string;
  TTL : string;
  Comment : string;
  Disabled : string;
  AddressList : string
}.

(** [endpoint.Endpoint] of external-dns, with the fields the client reads. *)
Record Endpoint := {
  DNSName : string;
  Targets : list string;
  RecordType : string;
  RecordTTL : Z;
  ProviderSpecific : list (string * string)
}.

Definition set_Comment (comment : string) (r : DNSRecord) : DNSRecord :=
  {| ID := ID r; Name := Name r; Type_ := Type_ r; Address := Address r;
     CName := CName r; Text := Text r; MXPreference := MXPreference r;
     MXExchange := MXExchange r; SrvPriority := SrvPriority r;
     SrvWeight := SrvWeight r; SrvPort := SrvPort r; SrvTarget := SrvTarget r;
     NS := NS r; TTL := TTL r; Comment := comment; Disabled := Disabled r;
     AddressList := AddressList r |}.

Definition set_ID (id : string) (r : DNSRecord) : DNSRecord :=
  {| ID := id; Name := Name r; Type_ := Type_ r; Address := Address r;
     CName := CName r; Text := Text r; MXPreference := MXPreference r;
     MXExchange := MXExchange r; SrvPriority := SrvPriority r;
     SrvWeight := SrvWeight r; SrvPort := SrvPort r; SrvTarget := SrvTarget r;
     NS := NS r; TTL := TTL r; Comment := Comment r; Disabled := Disabled r;
     AddressList := AddressList r |}.

(** A record with the five fields the matcher is claimed not to read
    replaced. *)
Definition with_metadata (id ttl comment disabled addressList : string)
    (r : DNSRecord) : DNSRecord :=
  {| ID := id; Name := Name r; Type_ := Type_ r; Address := Address r;
     CName := CName r; Text := Text r; MXPreference := MXPreference r;
     MXExchange := MXExchange r; SrvPriority := SrvPriority r;
     SrvWeight := SrvWeight r; SrvPort := SrvPort r; SrvTarget := SrvTarget r;
     NS := NS r; TTL := ttl; Comment := comment; Disabled := disabled;
     AddressList := addressList |}.

(** ** Pure helpers of [client.go] *)

(** The record kinds the [switch] statements of [recordsMatch] and
    [getRecordTarget] name, which are also the kinds of the [type] filter. *)
Definition supportedTypes : list string :=
  ["A"; "AAAA"; "CNAME"; "TXT"; "MX"; "SRV"; "NS"].

Definition isSupportedType (t : string) : bool :=
  existsb (String.eqb t) supportedTypes.

(** [getRecordTarget] *)
Definition getRecordTarget (record : DNSRecord) : string :=
  if (Type_ record =? "A") || (Type_ record =? "AAAA") then Address record
  else if Type_ record =? "CNAME" then CName record
  else if Type_ record =? "TXT" then Text record
  else if Type_ record =? "MX" then MXExchange record
  else if Type_ record =? "SRV" then SrvTarget record
  else if Type_ record =? "NS" then NS record
  else EmptyString.

(** [recordsMatch]; the receiver is not read. *)
Definition recordsMatch (record1 record2 : DNSRecord) : bool :=
  if negb (Name record1 =? Name record2) || negb (Type_ record1 =? Type_ record2)
  then false
  else if (Type_ record1 =? "A") || (Type_ record1 =? "AAAA") then
    Address record1 =? Address record2
  else if Type_ record1 =? "CNAME" then CName record1 =? CName record2
  else if Type_ record1 =? "TXT" then Text record1 =? Text record2
  else if Type_ record1 =? "MX" then
    (MXExchange record1 =? MXExchange record2)
    && (MXPreference record1 =? MXPreference record2)
  else if Type_ record1 =? "SRV" then
    (SrvTarget record1 =? SrvTarget record2)
    && (SrvPort record1 =? SrvPort record2)
    && (SrvPriority record1 =? SrvPriority record2)
    && (SrvWeight record1 =? SrvWeight record2)
  else if Type_ record1 =? "NS" then NS record1 =? NS record2
  else Comment record1 =? Comment record2.

(** The fields [recordsMatch] compares for the kind of [record], in the order
    of its [switch]. *)
Definition targetKey (record : DNSRecord) : list string :=
  if (Type_ record =? "A") || (Type_ record =? "AAAA") then [Address record]
  else if Type_ record =? "CNAME" then [CName record]
  else if Type_ record =? "TXT" then [Text record]
  else if Type_ record =? "MX" then [MXExchange record; MXPreference record]
  else if Type_ record =? "SRV" then
    [SrvTarget record; SrvPort record; SrvPriority record; SrvWeight record]
  else if Type_ record =? "NS" then [NS record]
  else [Comment record].

(** What identifies a logical record for the matcher. *)
Definition matchKey (record : DNSRecord) : string * string * list string :=
  (Name record, Type_ record, targetKey record).

(** The number of elements of [l] that satisfy [f]. *)
Definition count {A} (f : A -> bool) (l : list A) : nat := length (filter f l).

(** The body of the first loop of [DeleteDNSRecords]: whether [record] is
    appended to [recordsToDelete]. *)
Definition isDeleteCandidate (c : MikrotikApiClient) (endpoint : Endpoint)
    (record : DNSRecord) : bool :=
  if (Name record =? DNSName endpoint) && (Type_ record =? RecordType endpoint)
  then
    if Comment record =? DefaultComment (defaults c) then
      if (0 <? length (Targets endpoint))%nat then
        let recordTarget := getRecordTarget record in
        if negb (recordTarget =? EmptyString) then
          existsb (fun targetToDelete => recordTarget =? targetToDelete)
                  (Targets endpoint)
        else false
      else true
    else false
  else false.

(** [recordsToDelete] after the first loop: the fetched records that pass the
    test, in fetch order. *)
Definition recordsToDelete (c : MikrotikApiClient) (endpoint : Endpoint)
    (allRecords : list DNSRecord) : list DNSRecord :=
  filter (isDeleteCandidate c endpoint) allRecords.

(** [NewMikrotikClient]; [jar] is what [cookiejar.New] returned. *)
Definition NewMikrotikClient (cfg : MikrotikConnectionConfig)
    (dflt : MikrotikDefaults) (jar : result unit) : result MikrotikApiClient :=
  if DefaultComment dflt =? EmptyString then
    Err "DefaultComment cannot be empty - it's required to identify records managed by external-dns"
  else
    match jar with
    | Err err => Err err
    | Ok _ => Ok {| defaults := dflt; config := cfg |}
    end.

(** ** HTTP messages *)

(** [url.Values] with the one operation the client uses, [Set]. *)
Definition url_Values := list (string * string).

Fixpoint url_Set (key value : string) (q : url_Values) : url_Values :=
  match q with
  | [] => [(key, value)]
  | (k, v) :: q' =>
      if k =? key then (key, value) :: q' else (k, v) :: url_Set key value q'
  end.

Fixpoint url_Get (key : string) (q : url_Values) : string :=
  match q with
  | [] => EmptyString
  | (k, v) :: q' => if k =? key then v else url_Get key q'
  end.

(** A JSON body, by what [encoding/json] makes of it: one record, an array of
    records, or anything else. *)
Inductive Payload :=
| JRecord (r : DNSRecord)
| JRecords (rs : list DNSRecord)
| JOther (raw : string).

(** The request handed to [http.Client.Do].  [URL] is the text before the
    [?]; [Query] stands for the query string [queryParams.Encode()] appended
    to it when there are parameters. *)
Record Request := {
  Method : string;
  URL : string;
  Query : url_Values;
  ReqBody : option Payload;
  BasicAuth : option (string * string)
}.

Record Response := {
  StatusCode : Z;
  Status : string;
  RespBody : Payload
}.

Definition SetBasicAuth (username password : string) (req : Request) : Request :=
  {| Method := Method req; URL := URL req; Query := Query req;
     ReqBody := ReqBody req; BasicAuth := Some (username, password) |}.

(** [json.Marshal] of a record: a struct of strings always encodes. *)
Definition json_Marshal (record : DNSRecord) : result Payload :=
  Ok (JRecord record).

(** [json.NewDecoder(body).Decode(&records)] for [records []DNSRecord]. *)
Definition json_Decode_records (body : Payload) : result (list DNSRecord) :=
  match body with
  | JRecords rs => Ok rs
  | JRecord _ => Err "json: cannot unmarshal object into Go value of type []mikrotik.DNSRecord"
  | JOther _ => Err "json: invalid body"
  end.

(** [json.NewDecoder(body).Decode(&createdRecord)] for one [DNSRecord]. *)
Definition json_Decode_record (body : Payload) : result DNSRecord :=
  match body with
  | JRecord r => Ok r
  | JRecords _ => Err "json: cannot unmarshal array into Go value of type mikrotik.DNSRecord"
  | JOther _ => Err "json: invalid body"
  end.

(** [%d] of [fmt]. *)
Definition itoa (n : nat) : string := NilZero.string_of_uint (Nat.to_uint n).

Definition isDelete (req : Request) : bool := Method req =? "DELETE".
Definition isPut (req : Request) : bool := Method req =? "PUT".
Definition isGet (req : Request) : bool := Method req =? "GET".

(** ** The client against a remote *)

Section Client.

(** The state of everything behind the HTTP client, and one round trip:
    a network-level error or a response, and the state afterwards. *)
Variable World : Type.
Variable Do : Request -> World -> result Response * World.

(** [http.NewRequest] refuses a malformed method or URL. *)
Variable newRequestErr : string -> string -> option error.

(** The Record Codec's encoding of one target of an endpoint
    ([NewDNSRecord], in the absent file of the package). *)
Variable encode : Endpoint -> string -> result DNSRecord.

(** A computation returns its result, the remote state it leaves and the
    requests it handed to [Do], oldest first. *)
Definition M (A : Type) : Type := World -> result A * World * list Request.

Definition ret {A} (a : A) : M A := fun w => (Ok a, w, []).

Definition fail {A} (e : error) : M A := fun w => (Err e, w, []).

Definition bind {A B} (m : M A) (f : A -> M B) : M B :=
  fun w =>
    match m w with
    | (Err e, w1, t1) => (Err e, w1, t1)
    | (Ok a, w1, t1) =>
        match f a w1 with
        | (r, w2, t2) => (r, w2, (t1 ++ t2)%list)
        end
    end.

Definition lift {A} (r : result A) : M A := fun w => (r, w, []).

(** [fmt.Errorf(ctx + "%w", err)] on the error path of [m]. *)
Definition wrap {A} (ctx : string) (m : M A) : M A :=
  fun w =>
    match m w with
    | (Err e, w1, t1) => (Err (ctx ++ e), w1, t1)
    | ok => ok
    end.

Notation "x <- m ;; k" := (bind m (fun x => k))
  (at level 100, m at next level, right associativity).

Definition http_NewRequest (method url : string) (query : url_Values)
    (body : option Payload) : result Request :=
  match newRequestErr method url with
  | Some err => Err err
  | None => Ok {| Method := method; URL := url; Query := query;
                  ReqBody := body; BasicAuth := None |}
  end.

Definition client_Do (req : Request) : M Response :=
  fun w => match Do req w with (r, w') => (r, w', [req]) end.

(** [doRequest] *)
Definition doRequest (c : MikrotikApiClient) (method path : string)
    (queryParams : url_Values) (body : option Payload) : M Response :=
  let baseURL := BaseUrl (config c) ++ "/rest/" ++ path in
  req <- lift (http_NewRequest method baseURL queryParams body) ;;
  let req := SetBasicAuth (Username (config c)) (Password (config c)) req in
  resp <- client_Do req ;;
  if (StatusCode resp <? 200)%Z || (StatusCode resp >? 299)%Z then
    fail ("request failed: " ++ Status resp)
  else ret resp.

(** The query of [GetDNSRecordsByName]. *)
Definition fetchQuery (c : MikrotikApiClient) (name : string) : url_Values :=
  let queryParams := url_Set "type" "A,AAAA,CNAME,TXT,MX,SRV,NS" [] in
  let queryParams := url_Set "comment" (DefaultComment (defaults c)) queryParams in
  if negb (name =? EmptyString) then url_Set "name" name queryParams else queryParams.

(** [GetDNSRecordsByName] *)
Definition GetDNSRecordsByName (c : MikrotikApiClient) (name : string)
    : M (list DNSRecord) :=
  resp <- doRequest c "GET" "ip/dns/static" (fetchQuery c name) None ;;
  lift (json_Decode_records (RespBody resp)).

(** The second loop of [DeleteDNSRecords], at index [i] of
    [recordsToDelete] with [records] still to process. *)
Fixpoint deleteLoop (c : MikrotikApiClient) (endpoint : Endpoint) (i : nat)
    (records : list DNSRecord) : M unit :=
  match records with
  | [] => ret tt
  | record :: rest =>
      if (0 <? i)%nat then
        currentRecords <-
          wrap "failed to re-fetch records during deletion: "
               (GetDNSRecordsByName c (DNSName endpoint)) ;;
        match find (recordsMatch record) currentRecords with
        | None => deleteLoop c endpoint (S i) rest
        | Some updatedRecord =>
            _ <- doRequest c "DELETE" ("ip/dns/static/" ++ ID updatedRecord)
                   [] None ;;
            deleteLoop c endpoint (S i) rest
        end
      else
        _ <- doRequest c "DELETE" ("ip/dns/static/" ++ ID record) [] None ;;
        deleteLoop c endpoint (S i) rest
  end.

(** [DeleteDNSRecords] *)
Definition DeleteDNSRecords (c : MikrotikApiClient) (endpoint : Endpoint)
    : M unit :=
  allRecords <-
    wrap ("failed to get DNS records for " ++ DNSName endpoint ++ ": ")
         (GetDNSRecordsByName c (DNSName endpoint)) ;;
  let toDelete := recordsToDelete c endpoint allRecords in
  if (length toDelete =? 0)%nat then ret tt
  else deleteLoop c endpoint 0 toDelete.

(** [createSingleDNSRecord] *)
Definition createSingleDNSRecord (c : MikrotikApiClient) (record : DNSRecord)
    : M DNSRecord :=
  jsonBody <- lift (json_Marshal record) ;;
  resp <- doRequest c "PUT" "ip/dns/static" [] (Some jsonBody) ;;
  lift (json_Decode_record (RespBody resp)).

(** Modelled from the spec: [NewDNSRecords] is defined in the absent file
    of the package; the Create Pipeline encodes one record for each target
    of the endpoint, in order, with the codec, and an endpoint the codec
    refuses yields no records. *)
Fixpoint encodeTargets (ep : Endpoint) (targets : list string)
    : result (list DNSRecord) :=
  match targets with
  | [] => Ok []
  | target :: rest =>
      match encode ep target with
      | Err e => Err e
      | Ok record =>
          match encodeTargets ep rest with
          | Err e => Err e
          | Ok records => Ok (record :: records)
          end
      end
  end.

(** Modelled from the spec: [NewDNSRecords], of the same absent file, is the
    encoding of the targets of the endpoint. *)
Definition NewDNSRecords (ep : Endpoint) : result (list DNSRecord) :=
  encodeTargets ep (Targets ep).

(** The second loop of [CreateDNSRecords]: [i] is the index of the next
    record and [createdRecords] what was appended so far.  The Go function
    returns the pair (slice, error). *)
Fixpoint createLoop (c : MikrotikApiClient) (i : nat)
    (records createdRecords : list DNSRecord)
    : World -> (list DNSRecord * option error) * World * list Request :=
  fun w =>
    match records with
    | [] => ((createdRecords, None), w, [])
    | record :: rest =>
        match createSingleDNSRecord c record w with
        | (Err err, w1, t1) =>
            ((createdRecords,
              Some ("failed to create record " ++ itoa (i + 1) ++ ": " ++ err)),
             w1, t1)
        | (Ok createdRecord, w1, t1) =>
            match createLoop c (S i) rest (createdRecords ++ [createdRecord])%list w1 with
            | (out, w2, t2) => (out, w2, (t1 ++ t2)%list)
            end
        end
    end.

(** [CreateDNSRecords].  The first loop writes [c.DefaultComment] through
    the pointers of [records], so the second loop sees the stamped
    records. *)
Definition CreateDNSRecords (c : MikrotikApiClient) (ep : Endpoint)
    : World -> (list DNSRecord * option error) * World * list Request :=
  fun w =>
    match NewDNSRecords ep with
    | Err err =>
        (([], Some ("failed to convert endpoint to DNS records: " ++ err)), w, [])
    | Ok records =>
        let records := map (set_Comment (DefaultComment (defaults c))) records in
        createLoop c 0 records [] w
    end.

(** *** Notions the properties are stated with *)

(** The request [doRequest] hands to [Do]. *)
Definition requestOf (c : MikrotikApiClient) (method path : string)
    (queryParams : url_Values) (body : option Payload) : Request :=
  {| Method := method;
     URL := BaseUrl (config c) ++ "/rest/" ++ path;
     Query := queryParams;
     ReqBody := body;
     BasicAuth := Some (Username (config c), Password (config c)) |}.

Definition fetchRequest (c : MikrotikApiClient) (name : string) : Request :=
  requestOf c "GET" "ip/dns/static" (fetchQuery c name) None.

Definition deleteRequest (c : MikrotikApiClient) (id : string) : Request :=
  requestOf c "DELETE" ("ip/dns/static/" ++ id) [] None.

Definition putRequest (c : MikrotikApiClient) (record : DNSRecord) : Request :=
  requestOf c "PUT" "ip/dns/static" [] (Some (JRecord record)).

Definition statusOutside2xx (resp : Response) : Prop :=
  (StatusCode resp < 200 \/ 299 < StatusCode resp)%Z.

Definition status2xx (resp : Response) : Prop :=
  (200 <= StatusCode resp <= 299)%Z.

(** [needle] occurs in [text]. *)
Definition carries (text needle : string) : Prop :=
  exists n, index 0 needle text = Some n.

(** The failure of a request as the transport section of the specification
    words it: the error names the method, the path and the status. *)
Definition failureCarriesContext (c : MikrotikApiClient)
    (method path : string) (queryParams : url_Values)
    (body : option Payload) (w : World) : Prop :=
  forall resp w',
    newRequestErr method (BaseUrl (config c) ++ "/rest/" ++ path) = None ->
    Do (requestOf c method path queryParams body) w = (Ok resp, w') ->
    statusOutside2xx resp ->
    exists e,
      fst (fst (doRequest c method path queryParams body w)) = Err e
      /\ carries e method /\ carries e path /\ carries e (Status resp).

(** The create calls for [records], one after the other, as long as they
    succeed. *)
Fixpoint createAll (c : MikrotikApiClient) (records : list DNSRecord)
    : M (list DNSRecord) :=
  match records with
  | [] => ret []
  | record :: rest =>
      createdRecord <- createSingleDNSRecord c record ;;
      createdRecords <- createAll c rest ;;
      ret (createdRecord :: createdRecords)
  end.

(** A remote that keeps a set of records and answers the client's fetch
    and delete requests the way the REST surface is documented, with no
    other actor changing the records between requests.  [store] is the
    record set of a remote state; identifiers may be reassigned by a
    deletion, so the set after a deletion is given up to identifiers and
    order. *)
Section Remote.

Variable c : MikrotikApiClient.
Variable store : World -> list DNSRecord.
Variable Inv : World -> Prop.

(** What the server-side filter of [GetDNSRecordsByName] lets through. *)
Definition serverFilter (name : string) (record : DNSRecord) : bool :=
  (Comment record =? DefaultComment (defaults c))
  && ((name =? EmptyString) || (Name record =? name))
  && isSupportedType (Type_ record).

Definition eraseID (record : DNSRecord) : DNSRecord :=
  set_ID EmptyString record.

Record HonestRemote : Prop := {
  requests_wellformed : forall method url, newRequestErr method url = None;
  fetch_honest : forall name w, Inv w ->
    exists resp w' fetched,
      Do (fetchRequest c name) w = (Ok resp, w')
      /\ status2xx resp
      /\ RespBody resp = JRecords fetched
      /\ Permutation fetched (filter (serverFilter name) (store w))
      /\ store w' = store w
      /\ Inv w';
  delete_honest : forall id w, Inv w ->
    exists resp w',
      Do (deleteRequest c id) w = (Ok resp, w')
      /\ status2xx resp
      /\ Permutation (map eraseID (store w'))
           (map eraseID (filter (fun r => negb (ID r =? id)) (store w)))
      /\ Inv w'
}.

End Remote.

End Client.

(** A stored record a deletion for [ep] is after: the server-side filter of
    the fetch lets it through and the first loop keeps it. *)
Definition ownedCandidate (c : MikrotikApiClient) (ep : Endpoint)
    (record : DNSRecord) : bool :=
  serverFilter c (DNSName ep) record && isDeleteCandidate c ep record.

(** Every stored record a deletion is after is matched by one of the
    candidates [rest] still to process, counted with multiplicity. *)
Definition accountedFor (c : MikrotikApiClient) (ep : Endpoint)
    (stored rest : list DNSRecord) : Prop :=
  forall z,
    (count (fun x => ownedCandidate c ep x && recordsMatch z x) stored
     <= count (recordsMatch z) rest)%nat.

(** ** Remotes used by the tests of the repository *)

(** [strings.TrimPrefix], as an option: the rest of [s] when [pre] starts it. *)
Fixpoint stripPrefix (pre s : string) : option string :=
  match pre with
  | EmptyString => Some s
  | String a pre' =>
      match s with
      | EmptyString => None
      | String b s' => if Ascii.eqb a b then stripPrefix pre' s' else None
      end
  end.

Definition HasPrefix (s pre : string) : bool :=
  match stripPrefix pre s with Some _ => true | None => false end.

Definition TrimPrefix (s pre : string) : string :=
  match stripPrefix pre s with Some rest => rest | None => s end.

(** [strings.Split(s, ",")] *)
Fixpoint splitComma (s : string) : list string :=
  match s with
  | EmptyString => [EmptyString]
  | String a s' =>
      if Ascii.eqb a ","%char then EmptyString :: splitComma s'
      else match splitComma s' with
           | [] => [String a EmptyString]
           | piece :: pieces => String a piece :: pieces
           end
  end.

Definition isSpace (a : Ascii.ascii) : bool :=
  Ascii.eqb a " "%char || Ascii.eqb a "009"%char || Ascii.eqb a "010"%char || Ascii.eqb a "013"%char.

Fixpoint trimLeft (s : string) : string :=
  match s with
  | String a s' => if isSpace a then trimLeft s' else s
  | EmptyString => EmptyString
  end.

Fixpoint trimRight (s : string) : string :=
  match s with
  | EmptyString => EmptyString
  | String a s' =>
      match trimRight s' with
      | EmptyString => if isSpace a then EmptyString else String a EmptyString
      | rest => String a rest
      end
  end.

(** [strings.TrimSpace], on ASCII white space. *)
Definition TrimSpace (s : string) : string := trimRight (trimLeft s).

(** [http.StatusText] on the codes the tests produce. *)
Definition http_StatusText (code : Z) : string :=
  if (code =? 200)%Z then "OK"
  else if (code =? 400)%Z then "Bad Request"
  else if (code =? 401)%Z then "Unauthorized"
  else if (code =? 404)%Z then "Not Found"
  else if (code =? 500)%Z then "Internal Server Error"
  else if (code =? 503)%Z then "Service Unavailable"
  else EmptyString.

Definition statusLine (code : Z) : string :=
  NilZero.string_of_int (Z.to_int code) ++ " " ++ http_StatusText code.

(** What [http.Error(w, text, code)] and a plain [WriteHeader(code)] send. *)
Definition respond (code : Z) (body : Payload) : Response :=
  {| StatusCode := code; Status := statusLine code; RespBody := body |}.

Definition http_Error (text : string) (code : Z) : Response :=
  respond code (JOther text).

Definition mockUsername : string := "testuser".
Definition mockPassword : string := "testpass".

Definition authorized (req : Request) : bool :=
  match BasicAuth req with
  | Some (username, password) =>
      (username =? mockUsername) && (password =? mockPassword)
  | None => false
  end.

(** A remote that plays back canned round trips, one for each request. *)
Module ScriptedServer.

Definition World : Type := list (result Response).

Definition Do (req : Request) (w : World) : result Response * World :=
  match w with
  | [] => (Err "EOF", [])
  | r :: w' => (r, w')
  end.

End ScriptedServer.

(** The handler of [TestDeleteDNSRecords] in [client_test.go]: every GET of
    the record path answers the fixed [existingRecords], whatever the query,
    and every DELETE below it is counted and answered 200. *)
Module UnitTestServer.

(** [deletedCount] *)
Definition World : Type := nat.

Definition Do (serverURL : string) (existingRecords : list DNSRecord)
    (req : Request) (deletedCount : World) : result Response * World :=
  match stripPrefix serverURL (URL req) with
  | None => (Err "dial tcp: connection refused", deletedCount)
  | Some path =>
      if negb (authorized req) then
        (Ok (http_Error "Unauthorized" 401), deletedCount)
      else if (Method req =? "GET") && (path =? "/rest/ip/dns/static") then
        (Ok (respond 200 (JRecords existingRecords)), deletedCount)
      else if (Method req =? "DELETE")
              && (String.length "/rest/ip/dns/static/" <? String.length path)%nat
              && HasPrefix path "/rest/ip/dns/static/" then
        (Ok (respond 200 (JOther EmptyString)), S deletedCount)
      else (Ok (http_Error "404 page not found" 404), deletedCount)
  end.

End UnitTestServer.

(** [MockMikrotikServer] of [test/integration/integration_test.go].  The Go
    map [records] is keyed by the [ID] each stored record carries; it is a
    list here, whose order is one of the orders the Go map may iterate in.
    The captured [requests] are the request log of the monad. *)
Module MockMikrotikServer.

Record World := {
  records : list DNSRecord;
  nextID : nat;
  returnError : bool;
  errorCode : Z
}.

Definition typeListed (recordType : string) (record : DNSRecord) : bool :=
  existsb (fun t => TrimSpace t =? Type_ record) (splitComma recordType).

(** The filter of [handleGetDNSRecords]: [true] when [record] is kept. *)
Definition keeps (name recordType comment : string) (record : DNSRecord) : bool :=
  if negb (name =? EmptyString) && negb (Name record =? name) then false
  else if negb (comment =? EmptyString) && negb (Comment record =? comment) then false
  else if negb (recordType =? EmptyString) then typeListed recordType record
  else true.

Definition handleGetDNSRecords (req : Request) (m : World)
    : result Response * World :=
  let name := url_Get "name" (Query req) in
  let recordType := url_Get "type" (Query req) in
  let comment := url_Get "comment" (Query req) in
  (Ok (respond 200 (JRecords (filter (keeps name recordType comment) (records m)))), m).

(** [m.records[id] = record] *)
Fixpoint put (id : string) (record : DNSRecord) (rs : list DNSRecord)
    : list DNSRecord :=
  match rs with
  | [] => [record]
  | r :: rs' => if ID r =? id then record :: rs' else r :: put id record rs'
  end.

Definition handleCreateDNSRecord (req : Request) (m : World)
    : result Response * World :=
  match ReqBody req with
  | Some (JRecord record) =>
      let id := "*" ++ itoa (nextID m) in
      let record := set_ID id record in
      (Ok (respond 200 (JRecord record)),
       {| records := put id record (records m); nextID := S (nextID m);
          returnError := returnError m; errorCode := errorCode m |})
  | _ => (Ok (http_Error "Bad Request" 400), m)
  end.

Definition handleDeleteDNSRecord (path : string) (m : World)
    : result Response * World :=
  let id := TrimPrefix path "/rest/ip/dns/static/" in
  (Ok (respond 200 (JOther EmptyString)),
   {| records := filter (fun r => negb (ID r =? id)) (records m);
      nextID := nextID m; returnError := returnError m;
      errorCode := errorCode m |}).

(** [handler] *)
Definition Do (serverURL : string) (req : Request) (m : World)
    : result Response * World :=
  match stripPrefix serverURL (URL req) with
  | None => (Err "dial tcp: connection refused", m)
  | Some path =>
      if negb (authorized req) then (Ok (http_Error "Unauthorized" 401), m)
      else if returnError m then
        (Ok (http_Error (http_StatusText (errorCode m)) (errorCode m)), m)
      else if (Method req =? "GET") && (path =? "/rest/system/resource") then
        (Ok (respond 200 (JOther "systemInfo")), m)
      else if (Method req =? "GET") && (path =? "/rest/ip/dns/static") then
        handleGetDNSRecords req m
      else if (Method req =? "PUT") && (path =? "/rest/ip/dns/static") then
        handleCreateDNSRecord req m
      else if (Method req =? "DELETE") && HasPrefix path "/rest/ip/dns/static/" then
        handleDeleteDNSRecord path m
      else (Ok (http_Error "404 page not found" 404), m)
  end.

End MockMikrotikServer.

(** ** Example data, after the tests of the repository *)

Definition testClient : MikrotikApiClient :=
  {| defaults := {| DefaultTTL := 3600; DefaultComment := "external-dns" |};
     config := {| BaseUrl := "https://127.0.0.1:8443";
                  Username := mockUsername;
                  Password := mockPassword;
                  SkipTLSVerify := true |} |}.

Definition serverURL : string := "https://127.0.0.1:8443".

Definition aRecord (id name address comment : string) : DNSRecord :=
  {| ID := id; Name := name; Type_ := "A"; Address := address;
     CName := EmptyString; Text := EmptyString; MXPreference := EmptyString;
     MXExchange := EmptyString; SrvPriority := EmptyString;
     SrvWeight := EmptyString; SrvPort := EmptyString;
     SrvTarget := EmptyString; NS := EmptyString; TTL := EmptyString;
     Comment := comment; Disabled := EmptyString; AddressList := EmptyString |}.

Definition anEndpoint (name recordType : string) (targets : list string)
    : Endpoint :=
  {| DNSName := name; Targets := targets; RecordType := recordType;
     RecordTTL := 3600; ProviderSpecific := [] |}.

(** A record of a kind outside the supported seven. *)
Definition ptrRecord (id name comment : string) : DNSRecord :=
  {| ID := id; Name := name; Type_ := "PTR"; Address := EmptyString;
     CName := EmptyString; Text := EmptyString; MXPreference := EmptyString;
     MXExchange := EmptyString; SrvPriority := EmptyString;
     SrvWeight := EmptyString; SrvPort := EmptyString;
     SrvTarget := EmptyString; NS := EmptyString; TTL := EmptyString;
     Comment := comment; Disabled := EmptyString; AddressList := EmptyString |}.

Definition noRequestErr (method url : string) : option error := None.

(** A codec for the examples: the target becomes the address, and a
    [comment] provider property of the caller is copied into the record. *)
Definition encodeAddress (ep : Endpoint) (target : string) : result DNSRecord :=
  if target =? EmptyString then Err "empty target"
  else Ok (set_Comment (url_Get "comment" (ProviderSpecific ep))
             (aRecord EmptyString (DNSName ep) target EmptyString)).

(** The store of [testMultiTargetARecords]: two owned A records of one
    name. *)
Definition twoRecordStore : MockMikrotikServer.World :=
  {| MockMikrotikServer.records :=
       [aRecord "*1" "multi.example.com" "1.2.3.4" "external-dns";
        aRecord "*2" "multi.example.com" "5.6.7.8" "external-dns"];
     MockMikrotikServer.nextID := 3;
     MockMikrotikServer.returnError := false;
     MockMikrotikServer.errorCode := 0 |}.

(** Two codecs agree on an endpoint up to the comment they give the
    records. *)
Definition agreeUpToComment (encode encode' : Endpoint -> string -> result DNSRecord)
    (ep : Endpoint) : Prop :=
  forall target,
    match encode ep target, encode' ep target with
    | Ok r, Ok r' => set_Comment EmptyString r = set_Comment EmptyString r'
    | Err e, Err e' => e = e'
    | _, _ => False
    end.

(** [encodeAddress] with the comment of every record replaced. *)
Definition encodeAddressTagged (comment : string) (ep : Endpoint)
    (target : string) : result DNSRecord :=
  match encodeAddress ep target with
  | Ok r => Ok (set_Comment comment r)
  | Err e => Err e
  end.

(** The endpoint of the partial-failure scenario: five targets, and a
    comment property of the caller's. *)
Definition fiveTargets : Endpoint :=
  {| DNSName := "multi.example.com";
     Targets := ["10.0.0.1"; "10.0.0.2"; "10.0.0.3"; "10.0.0.4"; "10.0.0.5"];
     RecordType := "A"; RecordTTL := 3600;
     ProviderSpecific := [("comment", "manual")] |}.

(** The record the remote echoes for a created one. *)
Definition created (id address : string) : DNSRecord :=
  aRecord id "multi.example.com" address "external-dns".

(** Two creations succeed, the third is answered 500. *)
Definition thirdCreateFails : ScriptedServer.World :=
  [Ok (respond 200 (JRecord (created "*1" "10.0.0.1")));
   Ok (respond 200 (JRecord (created "*2" "10.0.0.2")));
   Ok (http_Error "Internal Server Error" 500)].

(** The endpoint and the records of the multi-target deletion tests. *)
Definition twoTargets : Endpoint :=
  anEndpoint "multi.example.com" "A" ["1.2.3.4"; "5.6.7.8"].

Definition twoOwned : list DNSRecord :=
  [aRecord "*1" "multi.example.com" "1.2.3.4" "external-dns";
   aRecord "*2" "multi.example.com" "5.6.7.8" "external-dns"].

(** The second candidate as an earlier fetch captured it, under an
    identifier the remote no longer uses for it. *)
Definition staleCandidate : DNSRecord :=
  aRecord "*7" "multi.example.com" "5.6.7.8" "external-dns".

(** Records of one name where a record entered by hand has the address of an
    owned one, as in the test with mixed comments. *)
Definition manualRecord : DNSRecord :=
  aRecord "*2" "multi.example.com" "5.6.7.8" "manual".

Definition mixedOwnership : list DNSRecord :=
  [aRecord "*1" "multi.example.com" "1.2.3.4" "external-dns";
   manualRecord;
   aRecord "*3" "multi.example.com" "5.6.7.8" "external-dns"].

(** A remote that answers the next request 500. *)
Definition answers500 : ScriptedServer.World :=
  [Ok (http_Error "Internal Server Error" 500)].

(** ** The rest of the client *)

(** [MikrotikSystemInfo] *)
Record MikrotikSystemInfo := {
  ArchitectureName : string;
  BadBlocks : string;
  BoardName : string;
  BuildTime : string;
  CPU : string;
  CPUCount : string;
  CPUFrequency : string;
  CPULoad : string;
  FactorySoftware : string;
  FreeHDDSpace : string;
  FreeMemory : string;
  Platform : string;
  TotalHDDSpace : string;
  TotalMemory : string;
  Uptime : string;
  Version : string;
  WriteSectSinceReboot : string;
  WriteSectTotal : string
}.

Section ClientRest.

Variable World : Type.
Variable Do : Request -> World -> result Response * World.
Variable newRequestErr : string -> string -> option error.

(** [json.NewDecoder(body).Decode(&info)] for a [MikrotikSystemInfo]. *)
Variable json_Decode_info : Payload -> result MikrotikSystemInfo.

(** [GetSystemInfo]; the [nil] query is the empty one. *)
Definition GetSystemInfo (c : MikrotikApiClient) : M World MikrotikSystemInfo :=
  bind (doRequest Do newRequestErr c "GET" "system/resource" [] None)
       (fun resp => lift (json_Decode_info (RespBody resp))).

End ClientRest.

(** The methods of [MockMikrotikServer] the tests call on it directly. *)
Module MockMethods.

(** [AddRecord]: the identifier given and the server afterwards. *)
Definition AddRecord (record : DNSRecord) (m : MockMikrotikServer.World)
    : string * MockMikrotikServer.World :=
  let id := "*" ++ itoa (MockMikrotikServer.nextID m) in
  let record := set_ID id record in
  (id,
   {| MockMikrotikServer.records :=
        MockMikrotikServer.put id record (MockMikrotikServer.records m);
      MockMikrotikServer.nextID := S (MockMikrotikServer.nextID m);
      MockMikrotikServer.returnError := MockMikrotikServer.returnError m;
      MockMikrotikServer.errorCode := MockMikrotikServer.errorCode m |}).

(** [GetRecord]: [m.records[id]] and whether it exists. *)
Definition GetRecord (id : string) (m : MockMikrotikServer.World)
    : option DNSRecord :=
  find (fun r => ID r =? id) (MockMikrotikServer.records m).

(** [DeleteRecord] *)
Definition DeleteRecord (id : string) (m : MockMikrotikServer.World)
    : MockMikrotikServer.World :=
  {| MockMikrotikServer.records :=
       filter (fun r => negb (ID r =? id)) (MockMikrotikServer.records m);
     MockMikrotikServer.nextID := MockMikrotikServer.nextID m;
     MockMikrotikServer.returnError := MockMikrotikServer.returnError m;
     MockMikrotikServer.errorCode := MockMikrotikServer.errorCode m |}.

End MockMethods.

(** The helpers of the real-device suite, [test/real-device/common_test.go].
    [TestDomainPrefix] and [TestComment], read from the environment there,
    are arguments. *)
Module RealDevice.

(** [getRecordTarget] of the suite, which unlike the client's renders MX
    and SRV records with all their fields. *)
Definition getRecordTarget (record : DNSRecord) : string :=
  if (Type_ record =? "A") || (Type_ record =? "AAAA") then Address record
  else if Type_ record =? "CNAME" then CName record
  else if Type_ record =? "TXT" then Text record
  else if Type_ record =? "MX" then
    MXPreference record ++ " " ++ MXExchange record
  else if Type_ record =? "SRV" then
    SrvPriority record ++ " " ++ SrvWeight record ++ " " ++ SrvPort record
    ++ " " ++ SrvTarget record
  else if Type_ record =? "NS" then NS record
  else EmptyString.

(** [strings.Contains] *)
Definition Contains (s substr : string) : bool :=
  match index 0 substr s with Some _ => true | None => false end.

(** [isTestRecord] *)
Definition isTestRecord (TestDomainPrefix name : string) : bool :=
  (String.length TestDomainPrefix <=? String.length name)%nat
  && ((substring 0 (String.length TestDomainPrefix) name =? TestDomainPrefix)
      || Contains name ("." ++ TestDomainPrefix)
      || Contains name TestDomainPrefix).

(** [GenerateTestDomainName] *)
Definition GenerateTestDomainName (TestDomainPrefix suffix : string) : string :=
  TestDomainPrefix ++ suffix ++ ".example.com".

(** The targets [CleanupTestRecords] collects from a group of records. *)
Fixpoint cleanupTargets (records : list DNSRecord) : list string :=
  match records with
  | [] => []
  | record :: rest =>
      let target := getRecordTarget record in
      if negb (target =? EmptyString) then target :: cleanupTargets rest
      else cleanupTargets rest
  end.

(** The endpoint [CleanupTestRecords] deletes a group of records with;
    [None] where the loop goes on to the next group. *)
Definition cleanupEndpoint (records : list DNSRecord) : option Endpoint :=
  match records with
  | [] => None
  | firstRecord :: _ =>
      let targets := cleanupTargets records in
      if (length targets =? 0)%nat then None
      else Some {| DNSName := Name firstRecord;
                   Targets := targets;
                   RecordType := Type_ firstRecord;
                   RecordTTL := 0;
                   ProviderSpecific := [] |}
  end.

(** The loop of [AssertRecordExists] and [AssertRecordNotExists]: whether a
    record of the kind with the target is among [records]. *)
Definition hasRecord (recordType target : string) (records : list DNSRecord)
    : bool :=
  existsb (fun record =>
             (Type_ record =? recordType) && (getRecordTarget record =? target))
          records.

Section Suite.

Variable World : Type.
Variable Do : Request -> World -> result Response * World.
Variable newRequestErr : string -> string -> option error.

(** [GetAllManagedRecords] *)
Definition GetAllManagedRecords (c : MikrotikApiClient)
    : M World (list DNSRecord) :=
  GetDNSRecordsByName Do newRequestErr c EmptyString.

(** [GetTestRecords] *)
Definition GetTestRecords (TestDomainPrefix : string) (c : MikrotikApiClient)
    : M World (list DNSRecord) :=
  bind (GetAllManagedRecords c)
       (fun allRecords =>
          ret (filter (fun record => isTestRecord TestDomainPrefix (Name record))
                      allRecords)).

(** [AssertRecordExists] *)
Definition AssertRecordExists (c : MikrotikApiClient)
    (name recordType target : string) : M World unit :=
  bind (GetDNSRecordsByName Do newRequestErr c name)
       (fun records =>
          if hasRecord recordType target records then ret tt
          else fail ("record not found: " ++ name ++ " " ++ recordType
                     ++ " " ++ target)).

(** [AssertRecordNotExists] *)
Definition AssertRecordNotExists (c : MikrotikApiClient)
    (name recordType target : string) : M World unit :=
  bind (GetDNSRecordsByName Do newRequestErr c name)
       (fun records =>
          if hasRecord recordType target records then
            fail ("record should not exist but found: " ++ name ++ " "
                  ++ recordType ++ " " ++ target)
          else ret tt).

End Suite.

End RealDevice.

(** A blank occurs in [s]. *)
Fixpoint hasSpace (s : string) : bool :=
  match s with
  | EmptyString => false
  | String a s' => Ascii.eqb a " "%char || hasSpace s'
  end.

(** The identifiers of the records a remote holds are pairwise different. *)
Definition UniqueIDs {World : Type} (store : World -> list DNSRecord)
    (Inv : World -> Prop) : Prop :=
  forall w, Inv w -> NoDup (map ID (store w)).

(** An MX record and an SRV record, as the integration tests have them. *)
Definition mxRecord (id name preference exchange comment : string) : DNSRecord :=
  {| ID := id; Name := name; Type_ := "MX"; Address := EmptyString;
     CName := EmptyString; Text := EmptyString; MXPreference := preference;
     MXExchange := exchange; SrvPriority := EmptyString;
     SrvWeight := EmptyString; SrvPort := EmptyString;
     SrvTarget := EmptyString; NS := EmptyString; TTL := EmptyString;
     Comment := comment; Disabled := EmptyString; AddressList := EmptyString |}.

(** A request of a deletion: the fetch by name, or a DELETE of a record
    path. *)
Definition deletionRequest (c : MikrotikApiClient) (ep : Endpoint)
    (req : Request) : Prop :=
  req = fetchRequest c (DNSName ep) \/ exists id, req = deleteRequest c id.

(** The fetch is answered with the two owned records, the delete that
    follows with 500. *)
Definition deleteFails : ScriptedServer.World :=
  [Ok (respond 200 (JRecords twoOwned));
   Ok (http_Error "Internal Server Error" 500)].

(** The endpoint of the partial-target deletion test. *)
Definition oneTarget : Endpoint :=
  anEndpoint "multi.example.com" "A" ["1.2.3.4"].

(** The states of the mock server that inject no error and hold no two
    records under one identifier. *)
Definition mockSound (m : MockMikrotikServer.World) : Prop :=
  MockMikrotikServer.returnError m = false
  /\ NoDup (map ID (MockMikrotikServer.records m)).

(** A client set up for the mock server listening at [url]. *)
Definition mockClient (url : string) (c : MikrotikApiClient) : Prop :=
  BaseUrl (config c) = url
  /\ Username (config c) = mockUsername
  /\ Password (config c) = mockPassword
  /\ DefaultComment (defaults c) <> EmptyString.

(** A client configured with a password the mock server does not expect. *)
Definition wrongPassword : MikrotikApiClient :=
  {| defaults := defaults testClient;
     config := {| BaseUrl := serverURL; Username := mockUsername;
                  Password := "letmein"; SkipTLSVerify := true |} |}.

(** The kinds whose target is one field of the record. *)
Definition singleFieldTypes : list string :=
  ["A"; "AAAA"; "CNAME"; "TXT"; "NS"].

(** The client of the source file whose name is not recorded, a variant of
    [client.go] whose [doRequest] takes no query, which fetches all records
    with [GetAllDNSRecords] and deletes by the identifiers of that one
    fetch. *)
Module Variant.

Section Client.

Variable World : Type.
Variable Do : Request -> World -> result Response * World.
Variable newRequestErr : string -> string -> option error.

(** [doRequest]: the one of [client.go] with no query parameters. *)
Definition doRequest (c : MikrotikApiClient) (method path : string)
    (body : option Payload) : M World Response :=
  doRequest Do newRequestErr c method path [] body.

(** [GetAllDNSRecords]; the source writes the query into the path it
    passes, so it is part of [URL] here and [Query] is empty. *)
Definition GetAllDNSRecords (c : MikrotikApiClient) : M World (list DNSRecord) :=
  bind (doRequest c "GET" "ip/dns/static?type=A,AAAA,CNAME,TXT,MX,SRV,NS" None)
       (fun resp => lift (json_Decode_records (RespBody resp))).

(** The test of the first loop of [DeleteDNSRecords]. *)
Definition isDeleteCandidate (c : MikrotikApiClient) (endpoint : Endpoint)
    (record : DNSRecord) : bool :=
  if (Name record =? DNSName endpoint) && (Type_ record =? RecordType endpoint)
  then
    if Comment record =? DefaultComment (defaults c) then true else false
  else false.

(** The second loop of [DeleteDNSRecords]. *)
Fixpoint deleteAll (c : MikrotikApiClient) (records : list DNSRecord)
    : M World unit :=
  match records with
  | [] => ret tt
  | record :: rest =>
      bind (doRequest c "DELETE" ("ip/dns/static/" ++ ID record) None)
           (fun _ => deleteAll c rest)
  end.

(** [DeleteDNSRecords] *)
Definition DeleteDNSRecords (c : MikrotikApiClient) (endpoint : Endpoint)
    : M World unit :=
  bind (wrap "failed to get all DNS records: " (GetAllDNSRecords c))
       (fun allRecords =>
          let recordsToDelete := filter (isDeleteCandidate c endpoint) allRecords in
          if (length recordsToDelete =? 0)%nat then ret tt
          else deleteAll c recordsToDelete).

(** [DeleteDNSRecordByID] *)
Definition DeleteDNSRecordByID (c : MikrotikApiClient) (recordID : string)
    : M World unit :=
  bind (wrap ("failed to delete record " ++ recordID ++ ": ")
             (doRequest c "DELETE" ("ip/dns/static/" ++ recordID) None))
       (fun _ => ret tt).

End Client.

End Variant.

(** The fetch is answered with the two owned records and both deletes
    succeed. *)
Definition allSucceed : ScriptedServer.World :=
  [Ok (respond 200 (JRecords twoOwned));
   Ok (respond 200 (JOther EmptyString));
   Ok (respond 200 (JOther EmptyString))].

(** * Properties *)

Unset Implicit Arguments.

(** ** Strings *)

Lemma eqb_true (a b : string) : (a =? b) = true -> a = b.
Proof. apply String.eqb_eq. Qed.

Lemma eqb_false (a b : string) : (a =? b) = false -> a <> b.
Proof. apply String.eqb_neq. Qed.

Lemma stripPrefix_app (pre s : string) : stripPrefix pre (pre ++ s) = Some s.
Proof.
  induction pre as [|a pre IH]; simpl.
  - reflexivity.
  - rewrite Ascii.eqb_refl. exact IH.
Qed.

(** ** The semantic matcher *)

Ltac split_type r :=
  destruct (Type_ r =? "A") eqn:?HA;
  destruct (Type_ r =? "AAAA") eqn:?HAAAA;
  destruct (Type_ r =? "CNAME") eqn:?HCNAME;
  destruct (Type_ r =? "TXT") eqn:?HTXT;
  destruct (Type_ r =? "MX") eqn:?HMX;
  destruct (Type_ r =? "SRV") eqn:?HSRV;
  destruct (Type_ r =? "NS") eqn:?HNS.

Lemma recordsMatch_metadata (r1 r2 : DNSRecord)
    (id1 ttl1 comment1 disabled1 list1 id2 ttl2 comment2 disabled2 list2 : string) :
  isSupportedType (Type_ r1) = true ->
  recordsMatch (with_metadata id1 ttl1 comment1 disabled1 list1 r1)
               (with_metadata id2 ttl2 comment2 disabled2 list2 r2)
  = recordsMatch r1 r2.
Proof.
  unfold isSupportedType, recordsMatch, with_metadata; simpl.
  intros H.
  split_type r1; simpl in *; try reflexivity; discriminate H.
Qed.

Lemma recordsMatch_refl (r : DNSRecord) : recordsMatch r r = true.
Proof.
  unfold recordsMatch.
  rewrite !String.eqb_refl; simpl.
  repeat match goal with |- context [if ?b then _ else _] => destruct b end;
    reflexivity.
Qed.

Lemma with_metadata_self (r : DNSRecord) :
  with_metadata (ID r) (TTL r) (Comment r) (Disabled r) (AddressList r) r = r.
Proof. destruct r; reflexivity. Qed.

Lemma set_Comment_metadata (comment : string) (r : DNSRecord) :
  set_Comment comment r
  = with_metadata (ID r) (TTL r) comment (Disabled r) (AddressList r) r.
Proof. reflexivity. Qed.

(** C10: on the seven supported kinds the matcher reads only the name, the
    kind and the kind-specific target fields: replacing the ID, TTL, comment,
    disabled flag and address list of either record leaves its verdict
    unchanged, a record and a copy differing only in those five fields are
    judged the same, and a change of the comments changes the verdict only
    for a kind outside the seven, where it can. *)
Theorem recordsMatch_reads_only_name_kind_target :
  (forall r1 r2 id1 ttl1 comment1 disabled1 list1 id2 ttl2 comment2 disabled2 list2,
      isSupportedType (Type_ r1) = true ->
      recordsMatch (with_metadata id1 ttl1 comment1 disabled1 list1 r1)
                   (with_metadata id2 ttl2 comment2 disabled2 list2 r2)
      = recordsMatch r1 r2)
  /\ (forall r id ttl comment disabled addressList,
      isSupportedType (Type_ r) = true ->
      recordsMatch r (with_metadata id ttl comment disabled addressList r) = true)
  /\ (forall r1 r2 comment1 comment2,
      recordsMatch (set_Comment comment1 r1) (set_Comment comment2 r2)
      <> recordsMatch r1 r2 ->
      isSupportedType (Type_ r1) = false)
  /\ (exists r1 r2 comment2,
      isSupportedType (Type_ r1) = false
      /\ recordsMatch r1 r2 = true
      /\ recordsMatch r1 (set_Comment comment2 r2) = false).
Proof.
  split; [|split; [|split]].
  - intros. now apply recordsMatch_metadata.
  - intros r id ttl comment disabled addressList H.
    transitivity
      (recordsMatch
         (with_metadata (ID r) (TTL r) (Comment r) (Disabled r) (AddressList r) r)
         (with_metadata id ttl comment disabled addressList r)).
    + now rewrite with_metadata_self.
    + rewrite recordsMatch_metadata by exact H. apply recordsMatch_refl.
  - intros r1 r2 comment1 comment2 Hne.
    destruct (isSupportedType (Type_ r1)) eqn:Hs; [|reflexivity].
    exfalso; apply Hne.
    rewrite !set_Comment_metadata.
    now apply recordsMatch_metadata.
  - exists (ptrRecord "*1" "4.3.2.1.in-addr.arpa" "external-dns").
    exists (ptrRecord "*2" "4.3.2.1.in-addr.arpa" "external-dns").
    exists "manual".
    repeat split; reflexivity.
Qed.

Lemma recordsMatch_reads_only_name_kind_target_witness :
  recordsMatch
    (with_metadata "*7" "1d" "manual" "true" "lan"
       (aRecord "*1" "host.example.com" "10.0.0.1" "external-dns"))
    (with_metadata "*9" "30m" "other" "false" "wan"
       (aRecord "*2" "host.example.com" "10.0.0.1" "external-dns"))
  = recordsMatch (aRecord "*1" "host.example.com" "10.0.0.1" "external-dns")
                 (aRecord "*2" "host.example.com" "10.0.0.1" "external-dns").
Proof.
  apply (proj1 recordsMatch_reads_only_name_kind_target).
  reflexivity.
Defined.

(** ** The candidates of a deletion *)

Lemma isDeleteCandidate_true (c : MikrotikApiClient) (ep : Endpoint)
    (r : DNSRecord) :
  isDeleteCandidate c ep r = true <->
  Name r = DNSName ep
  /\ Type_ r = RecordType ep
  /\ Comment r = DefaultComment (defaults c)
  /\ (Targets ep = []
      \/ (getRecordTarget r <> EmptyString
          /\ In (getRecordTarget r) (Targets ep))).
Proof.
  unfold isDeleteCandidate.
  destruct (String.eqb_spec (Name r) (DNSName ep)) as [Hn|Hn]; simpl;
    [|split; [discriminate | tauto]].
  destruct (String.eqb_spec (Type_ r) (RecordType ep)) as [Ht|Ht]; simpl;
    [|split; [discriminate | tauto]].
  destruct (String.eqb_spec (Comment r) (DefaultComment (defaults c)))
    as [Hc|Hc]; [|split; [discriminate | tauto]].
  destruct (Targets ep) as [|t ts] eqn:Hts; simpl Nat.ltb; cbv iota.
  - split; [intros _|reflexivity]. repeat split; auto.
  - change (0 <? S (length ts))%nat with true; cbv iota.
    destruct (String.eqb_spec (getRecordTarget r) EmptyString) as [He|He];
      cbv [negb].
    + split; [discriminate|].
      intros (_ & _ & _ & [Hnil | [Hne _]]); [discriminate | contradiction].
    + rewrite existsb_exists. split.
      * intros (x & Hin & Hx). apply eqb_true in Hx. subst x.
        repeat split; auto.
      * intros (_ & _ & _ & [Hnil | [_ Hin]]); [discriminate|].
        exists (getRecordTarget r). split; [exact Hin | apply String.eqb_refl].
Qed.

(** C5: with explicit targets a fetched record is a delete candidate exactly
    when its name, kind and comment match and its decoded target is
    non-empty and among the targets, so a record with an empty decoded
    target is never one; with no targets, exactly the fetched records
    matching on name, kind and comment are candidates. *)
Theorem recordsToDelete_candidates :
  forall (c : MikrotikApiClient) (ep : Endpoint) (allRecords : list DNSRecord)
         (r : DNSRecord),
    (Targets ep <> [] ->
       (In r (recordsToDelete c ep allRecords) <->
        In r allRecords
        /\ Name r = DNSName ep /\ Type_ r = RecordType ep
        /\ Comment r = DefaultComment (defaults c)
        /\ getRecordTarget r <> EmptyString
        /\ In (getRecordTarget r) (Targets ep)))
    /\ (Targets ep <> [] -> getRecordTarget r = EmptyString ->
        ~ In r (recordsToDelete c ep allRecords))
    /\ (Targets ep = [] ->
        (In r (recordsToDelete c ep allRecords) <->
         In r allRecords
         /\ Name r = DNSName ep /\ Type_ r = RecordType ep
         /\ Comment r = DefaultComment (defaults c))).
Proof.
  intros c ep allRecords r.
  unfold recordsToDelete.
  rewrite filter_In, isDeleteCandidate_true.
  split; [|split].
  - intros Hts. split.
    + intros (Hin & Hn & Ht & Hc & [Hnil | [Hne Hmem]]); [contradiction|].
      repeat split; assumption.
    + intros (Hin & Hn & Ht & Hc & Hne & Hmem). repeat split; auto.
  - intros Hts He (Hin & Hn & Ht & Hc & [Hnil | [Hne Hmem]]);
      [contradiction | apply Hne; exact He].
  - intros Hts. split.
    + intros (Hin & Hn & Ht & Hc & _). repeat split; assumption.
    + intros (Hin & Hn & Ht & Hc). repeat split; auto.
Qed.

Lemma recordsToDelete_candidates_witness :
  In (aRecord "*2" "multi.example.com" "5.6.7.8" "external-dns")
     (recordsToDelete testClient
        (anEndpoint "multi.example.com" "A" ["5.6.7.8"])
        [aRecord "*1" "multi.example.com" "1.2.3.4" "external-dns";
         aRecord "*2" "multi.example.com" "5.6.7.8" "external-dns"])
  /\ ~ In (aRecord "*1" "multi.example.com" EmptyString "external-dns")
       (recordsToDelete testClient
          (anEndpoint "multi.example.com" "A" ["5.6.7.8"; EmptyString])
          [aRecord "*1" "multi.example.com" EmptyString "external-dns"]).
Proof.
  split.
  - apply (proj1 (recordsToDelete_candidates testClient
                    (anEndpoint "multi.example.com" "A" ["5.6.7.8"]) _ _)).
    + discriminate.
    + simpl. repeat split; auto; discriminate.
  - apply (proj1 (proj2 (recordsToDelete_candidates testClient
                    (anEndpoint "multi.example.com" "A" ["5.6.7.8"; EmptyString])
                    _ _))).
    + discriminate.
    + reflexivity.
Defined.

(** ** Construction of the client *)

(** C9: with an empty [DefaultComment] construction returns an error and no
    client; with a non-empty one it returns the client unless the cookie jar
    could not be made, and then the error is the jar's. *)
Theorem NewMikrotikClient_requires_comment :
  forall (cfg : MikrotikConnectionConfig) (dflt : MikrotikDefaults),
    (DefaultComment dflt = EmptyString ->
       forall jar, exists e, NewMikrotikClient cfg dflt jar = Err e)
    /\ (DefaultComment dflt <> EmptyString ->
        NewMikrotikClient cfg dflt (Ok tt)
        = Ok {| defaults := dflt; config := cfg |}
        /\ forall e, NewMikrotikClient cfg dflt (Err e) = Err e).
Proof.
  intros cfg dflt. unfold NewMikrotikClient. split.
  - intros H jar. rewrite H. simpl. eexists; reflexivity.
  - intros H. apply String.eqb_neq in H. rewrite H. split; reflexivity.
Qed.

Lemma NewMikrotikClient_requires_comment_witness :
  (exists e,
      NewMikrotikClient (config testClient)
        {| DefaultTTL := 3600; DefaultComment := EmptyString |} (Ok tt) = Err e)
  /\ NewMikrotikClient (config testClient) (defaults testClient) (Ok tt)
     = Ok testClient.
Proof.
  split.
  - apply (proj1 (NewMikrotikClient_requires_comment (config testClient)
                    {| DefaultTTL := 3600; DefaultComment := EmptyString |}));
      reflexivity.
  - apply (proj2 (NewMikrotikClient_requires_comment (config testClient)
                    (defaults testClient))).
    discriminate.
Defined.

(** ** The transport *)

Lemma substring_all (s : string) : substring 0 (String.length s) s = s.
Proof. induction s as [|a s IH]; simpl; [reflexivity | now rewrite IH]. Qed.

Lemma substring_app (pre s : string) :
  substring (String.length pre) (String.length s) (pre ++ s) = s.
Proof. induction pre as [|a pre IH]; simpl; [apply substring_all | exact IH]. Qed.

Lemma carries_suffix (pre s : string) : carries (pre ++ s) s.
Proof.
  unfold carries.
  destruct (index 0 s (pre ++ s)) as [n|] eqn:Hi; [now exists n|].
  exfalso.
  destruct s as [|a s].
  - apply index_correct4 in Hi. lia.
  - apply (index_correct3 0 (String.length pre) (String a s) (pre ++ String a s) Hi);
      [discriminate | lia | apply substring_app].
Qed.

Section ClientFacts.

Variable World : Type.
Variable Do : Request -> World -> result Response * World.
Variable newRequestErr : string -> string -> option error.

Local Notation doRequest' := (doRequest Do newRequestErr).
Local Notation GetDNSRecordsByName' := (GetDNSRecordsByName Do newRequestErr).
Local Notation deleteLoop' := (deleteLoop Do newRequestErr).
Local Notation DeleteDNSRecords' := (DeleteDNSRecords Do newRequestErr).
Local Notation createSingleDNSRecord' := (createSingleDNSRecord Do newRequestErr).

(** What [doRequest] does, by cases on the request and the round trip. *)
Lemma doRequest_cases (c : MikrotikApiClient) (method path : string)
    (queryParams : url_Values) (body : option Payload) (w : World) :
  doRequest' c method path queryParams body w =
  match newRequestErr method (BaseUrl (config c) ++ "/rest/" ++ path) with
  | Some err => (Err err, w, [])
  | None =>
      let req := requestOf c method path queryParams body in
      match Do req w with
      | (Err err, w') => (Err err, w', [req])
      | (Ok resp, w') =>
          if (StatusCode resp <? 200)%Z || (StatusCode resp >? 299)%Z
          then (Err ("request failed: " ++ Status resp), w', [req])
          else (Ok resp, w', [req])
      end
  end.
Proof.
  unfold doRequest, bind, lift, http_NewRequest, client_Do, fail, ret.
  destruct (newRequestErr method (BaseUrl (config c) ++ "/rest/" ++ path));
    [reflexivity|].
  unfold SetBasicAuth, requestOf; simpl.
  destruct (Do _ w) as [[resp|err] w']; [|reflexivity].
  destruct ((StatusCode resp <? 200)%Z || (StatusCode resp >? 299)%Z);
    reflexivity.
Qed.

Lemma outside2xx_test (resp : Response) :
  statusOutside2xx resp <->
  (StatusCode resp <? 200)%Z || (StatusCode resp >? 299)%Z = true.
Proof.
  unfold statusOutside2xx.
  rewrite orb_true_iff, Z.ltb_lt, Z.gtb_ltb, Z.ltb_lt. tauto.
Qed.

Lemma inside2xx_test (resp : Response) :
  status2xx resp ->
  (StatusCode resp <? 200)%Z || (StatusCode resp >? 299)%Z = false.
Proof.
  unfold status2xx. intros H.
  rewrite orb_false_iff, Z.ltb_ge, Z.gtb_ltb, Z.ltb_ge. lia.
Qed.

(** The requests of one [doRequest]: none, or the one request built from
    its arguments; a successful one made exactly that request. *)
Lemma doRequest_calls (c : MikrotikApiClient) (method path : string)
    (queryParams : url_Values) (body : option Payload) (w : World) :
  forall r w' t,
    doRequest' c method path queryParams body w = (r, w', t) ->
    (t = [] \/ t = [requestOf c method path queryParams body])
    /\ (is_ok r = true -> t = [requestOf c method path queryParams body]).
Proof.
  intros r w' t. rewrite doRequest_cases.
  destruct (newRequestErr _ _).
  - intros E; inversion E; subst. split; [now left | discriminate].
  - cbv zeta. destruct (Do _ w) as [[resp|err] w1].
    + destruct (_ || _); intros E; inversion E; subst; split; auto.
    + intros E; inversion E; subst. split; auto.
Qed.

(** C7, as the code has it: a response with a status outside [200,299]
    makes [doRequest] fail, returning no response, with the error
    [request failed: ] followed by the status line of the response, which
    the error therefore carries; the error is the same whatever the method
    and the path of the request. *)
Theorem doRequest_failure_carries_status :
  forall (c : MikrotikApiClient) (method path : string)
         (queryParams : url_Values) (body : option Payload) (w w' : World)
         (resp : Response),
    newRequestErr method (BaseUrl (config c) ++ "/rest/" ++ path) = None ->
    Do (requestOf c method path queryParams body) w = (Ok resp, w') ->
    statusOutside2xx resp ->
    doRequest' c method path queryParams body w
    = (Err ("request failed: " ++ Status resp), w',
       [requestOf c method path queryParams body])
    /\ carries ("request failed: " ++ Status resp) (Status resp).
Proof.
  intros c method path queryParams body w w' resp Hreq Hdo Hout.
  split; [|apply carries_suffix].
  rewrite doRequest_cases, Hreq. cbv zeta. rewrite Hdo.
  apply outside2xx_test in Hout. now rewrite Hout.
Qed.

(** ** The flat read *)

Lemma GetDNSRecordsByName_cases (c : MikrotikApiClient) (name : string)
    (w : World) :
  GetDNSRecordsByName' c name w =
  match doRequest' c "GET" "ip/dns/static" (fetchQuery c name) None w with
  | (Err err, w', t) => (Err err, w', t)
  | (Ok resp, w', t) => (json_Decode_records (RespBody resp), w', t)
  end.
Proof.
  unfold GetDNSRecordsByName, bind, lift.
  destruct (doRequest' c "GET" "ip/dns/static" (fetchQuery c name) None w)
    as [[[resp|err] w'] t]; [|reflexivity].
  now rewrite app_nil_r.
Qed.

(** The requests of one fetch: none, or the filtered GET; a successful
    fetch made exactly that request. *)
Lemma GetDNSRecordsByName_calls (c : MikrotikApiClient) (name : string)
    (w : World) :
  forall r w' t,
    GetDNSRecordsByName' c name w = (r, w', t) ->
    (t = [] \/ t = [fetchRequest c name])
    /\ (is_ok r = true -> t = [fetchRequest c name]).
Proof.
  intros r w' t. rewrite GetDNSRecordsByName_cases.
  destruct (doRequest' c "GET" "ip/dns/static" (fetchQuery c name) None w)
    as [[[resp|err] w1] t1] eqn:E;
    apply doRequest_calls in E; destruct E as [E1 E2];
    intros H; inversion H; subst.
  - split; [exact E1 | intros _; now apply E2].
  - split; [exact E1 | discriminate].
Qed.

(** A fetch the remote answers with a 2xx array of records. *)
Lemma GetDNSRecordsByName_ok (c : MikrotikApiClient) (name : string)
    (w w' : World) (resp : Response) (fetched : list DNSRecord) :
  newRequestErr "GET" (BaseUrl (config c) ++ "/rest/" ++ "ip/dns/static") = None ->
  Do (fetchRequest c name) w = (Ok resp, w') ->
  status2xx resp ->
  RespBody resp = JRecords fetched ->
  GetDNSRecordsByName' c name w = (Ok fetched, w', [fetchRequest c name]).
Proof.
  intros Hreq Hdo H2xx Hbody.
  rewrite GetDNSRecordsByName_cases, doRequest_cases, Hreq. cbv zeta.
  unfold fetchRequest in Hdo. rewrite Hdo, (inside2xx_test _ H2xx), Hbody.
  reflexivity.
Qed.

(** ** The delete loop, step by step *)

Lemma deleteLoop_nil (c : MikrotikApiClient) (ep : Endpoint) (i : nat)
    (w : World) :
  deleteLoop' c ep i [] w = (Ok tt, w, []).
Proof. reflexivity. Qed.

Lemma deleteLoop_first (c : MikrotikApiClient) (ep : Endpoint)
    (record : DNSRecord) (rest : list DNSRecord) (w : World) :
  deleteLoop' c ep 0 (record :: rest) w =
  match doRequest' c "DELETE" ("ip/dns/static/" ++ ID record) [] None w with
  | (Err err, w2, t2) => (Err err, w2, t2)
  | (Ok _, w2, t2) =>
      match deleteLoop' c ep 1 rest w2 with
      | (r3, w3, t3) => (r3, w3, (t2 ++ t3)%list)
      end
  end.
Proof.
  cbn [deleteLoop Nat.ltb Nat.leb]. unfold bind.
  destruct (doRequest' c "DELETE" ("ip/dns/static/" ++ ID record) [] None w)
    as [[[resp|err] w2] t2]; reflexivity.
Qed.

Lemma deleteLoop_later (c : MikrotikApiClient) (ep : Endpoint) (i : nat)
    (record : DNSRecord) (rest : list DNSRecord) (w : World) :
  deleteLoop' c ep (S i) (record :: rest) w =
  match GetDNSRecordsByName' c (DNSName ep) w with
  | (Err err, w1, t1) =>
      (Err ("failed to re-fetch records during deletion: " ++ err), w1, t1)
  | (Ok currentRecords, w1, t1) =>
      match find (recordsMatch record) currentRecords with
      | None =>
          match deleteLoop' c ep (S (S i)) rest w1 with
          | (r3, w3, t3) => (r3, w3, (t1 ++ t3)%list)
          end
      | Some updatedRecord =>
          match doRequest' c "DELETE" ("ip/dns/static/" ++ ID updatedRecord)
                  [] None w1 with
          | (Err err, w2, t2) => (Err err, w2, (t1 ++ t2)%list)
          | (Ok _, w2, t2) =>
              match deleteLoop' c ep (S (S i)) rest w2 with
              | (r3, w3, t3) => (r3, w3, (t1 ++ t2 ++ t3)%list)
              end
          end
      end
  end.
Proof.
  cbn [deleteLoop Nat.ltb Nat.leb]. unfold bind, wrap.
  destruct (GetDNSRecordsByName' c (DNSName ep) w)
    as [[[currentRecords|err] w1] t1]; [|reflexivity].
  destruct (find (recordsMatch record) currentRecords) as [updatedRecord|].
  - destruct (doRequest' c "DELETE" ("ip/dns/static/" ++ ID updatedRecord)
                [] None w1) as [[[resp|err] w2] t2]; [|reflexivity].
    destruct (deleteLoop' c ep (S (S i)) rest w2) as [[r3 w3] t3]. reflexivity.
  - destruct (deleteLoop' c ep (S (S i)) rest w1) as [[r3 w3] t3]. reflexivity.
Qed.

(** C1: for a candidate after the first ([0 < i]) the loop first re-fetches
    the records by name; when the matcher finds a fetched record equal to
    the captured candidate, the delete request that follows names the ID
    of that fetched record, and the loop goes on after it; when it finds
    none, the loop goes on with the next candidate with no delete request
    and no error for this one; a failed re-fetch ends the loop. *)
Theorem deleteLoop_reverifies_before_delete :
  forall (c : MikrotikApiClient) (ep : Endpoint) (i : nat)
         (record : DNSRecord) (rest : list DNSRecord) (w w1 : World)
         (r1 : result (list DNSRecord)) (t1 : list Request),
    (0 < i)%nat ->
    GetDNSRecordsByName' c (DNSName ep) w = (r1, w1, t1) ->
    (t1 = [] \/ t1 = [fetchRequest c (DNSName ep)])
    /\ match r1 with
       | Err err =>
           deleteLoop' c ep i (record :: rest) w
           = (Err ("failed to re-fetch records during deletion: " ++ err), w1, t1)
       | Ok currentRecords =>
           match find (recordsMatch record) currentRecords with
           | Some updatedRecord =>
               In updatedRecord currentRecords
               /\ recordsMatch record updatedRecord = true
               /\ forall r2 w2 t2,
                   doRequest' c "DELETE" ("ip/dns/static/" ++ ID updatedRecord)
                     [] None w1 = (r2, w2, t2) ->
                   (t2 = [] \/ t2 = [deleteRequest c (ID updatedRecord)])
                   /\ match r2 with
                      | Err err =>
                          deleteLoop' c ep i (record :: rest) w
                          = (Err err, w2, (t1 ++ t2)%list)
                      | Ok _ =>
                          forall r3 w3 t3,
                            deleteLoop' c ep (S i) rest w2 = (r3, w3, t3) ->
                            deleteLoop' c ep i (record :: rest) w
                            = (r3, w3, (t1 ++ t2 ++ t3)%list)
                      end
           | None =>
               forall r3 w3 t3,
                 deleteLoop' c ep (S i) rest w1 = (r3, w3, t3) ->
                 deleteLoop' c ep i (record :: rest) w
                 = (r3, w3, (t1 ++ t3)%list)
           end
       end.
Proof.
  intros c ep i record rest w w1 r1 t1 Hi Hget.
  destruct i as [|i]; [lia|].
  split; [exact (proj1 (GetDNSRecordsByName_calls _ _ _ _ _ _ Hget))|].
  rewrite deleteLoop_later, Hget.
  destruct r1 as [currentRecords|err]; [|reflexivity].
  destruct (find (recordsMatch record) currentRecords) as [updatedRecord|] eqn:Hfind.
  - apply find_some in Hfind. destruct Hfind as [Hin Hmatch].
    split; [exact Hin|]. split; [exact Hmatch|].
    intros r2 w2 t2 Hdel. rewrite Hdel.
    split; [exact (proj1 (doRequest_calls _ _ _ _ _ _ _ _ _ Hdel))|].
    destruct r2 as [resp|err]; [|reflexivity].
    intros r3 w3 t3 Hrest. now rewrite Hrest.
  - intros r3 w3 t3 Hrest. now rewrite Hrest.
Qed.

(** ** The whole deletion *)

Lemma DeleteDNSRecords_cases (c : MikrotikApiClient) (ep : Endpoint)
    (w : World) :
  DeleteDNSRecords' c ep w =
  match GetDNSRecordsByName' c (DNSName ep) w with
  | (Err err, w1, t1) =>
      (Err (("failed to get DNS records for " ++ DNSName ep ++ ": ") ++ err),
       w1, t1)
  | (Ok allRecords, w1, t1) =>
      match recordsToDelete c ep allRecords with
      | [] => (Ok tt, w1, t1)
      | toDelete =>
          match deleteLoop' c ep 0 toDelete w1 with
          | (r, w2, t2) => (r, w2, (t1 ++ t2)%list)
          end
      end
  end.
Proof.
  unfold DeleteDNSRecords, bind, wrap.
  destruct (GetDNSRecordsByName' c (DNSName ep) w)
    as [[[allRecords|err] w1] t1]; [|reflexivity].
  destruct (recordsToDelete c ep allRecords) as [|record rest].
  - cbn [length Nat.eqb]. unfold ret. now rewrite app_nil_r.
  - cbn [length Nat.eqb]. reflexivity.
Qed.

(** ** Counting the requests of a deletion *)

Lemma isDelete_deleteRequest (c : MikrotikApiClient) (id : string) :
  isDelete (deleteRequest c id) = true.
Proof. reflexivity. Qed.

Lemma isDelete_fetchRequest (c : MikrotikApiClient) (name : string) :
  isDelete (fetchRequest c name) = false.
Proof. reflexivity. Qed.

Lemma filter_isDelete_fetch (c : MikrotikApiClient) (name : string)
    (t : list Request) :
  filter isDelete (fetchRequest c name :: t) = filter isDelete t.
Proof. reflexivity. Qed.

Lemma filter_isDelete_delete (c : MikrotikApiClient) (path : string)
    (t : list Request) :
  filter isDelete (requestOf c "DELETE" path [] None :: t)
  = requestOf c "DELETE" path [] None :: filter isDelete t.
Proof. reflexivity. Qed.

Ltac count_requests :=
  cbn [app];
  rewrite ?filter_isDelete_fetch, ?filter_isDelete_delete,
          ?filter_isDelete_fetch;
  cbn [length filter].

(** Past the first candidate every candidate costs at most a fetch and a
    delete, and in a run without error exactly a fetch, and a delete unless
    it was skipped. *)
Lemma deleteLoop_later_calls (c : MikrotikApiClient) (ep : Endpoint) :
  forall (records : list DNSRecord) (i : nat) (w w' : World)
         (r : result unit) (t : list Request),
    deleteLoop' c ep (S i) records w = (r, w', t) ->
    (length t <= 2 * length records)%nat
    /\ (length (filter isDelete t) <= length records)%nat
    /\ (is_ok r = true ->
        length t = (length records + length (filter isDelete t))%nat).
Proof.
  induction records as [|record rest IH]; intros i w w' r t H.
  - rewrite deleteLoop_nil in H. inversion H; subst. simpl. auto.
  - rewrite deleteLoop_later in H.
    destruct (GetDNSRecordsByName' c (DNSName ep) w)
      as [[[currentRecords|err] w1] t1] eqn:Hget.
    + destruct (GetDNSRecordsByName_calls _ _ _ _ _ _ Hget) as [_ Ht1].
      specialize (Ht1 eq_refl). subst t1.
      destruct (find (recordsMatch record) currentRecords) as [updatedRecord|].
      * destruct (doRequest' c "DELETE" ("ip/dns/static/" ++ ID updatedRecord)
                    [] None w1) as [[[resp|err] w2] t2] eqn:Hdel.
        -- destruct (doRequest_calls _ _ _ _ _ _ _ _ _ Hdel) as [_ Ht2].
           specialize (Ht2 eq_refl). subst t2.
           destruct (deleteLoop' c ep (S (S i)) rest w2) as [[r3 w3] t3] eqn:Hrest.
           apply IH in Hrest. destruct Hrest as (B1 & B2 & B3).
           inversion H; subst. count_requests.
           split; [lia|]. split; [lia|].
           intros Hok. specialize (B3 Hok). lia.
        -- destruct (doRequest_calls _ _ _ _ _ _ _ _ _ Hdel) as [[Ht2|Ht2] _];
             subst t2; inversion H; subst; count_requests;
             (split; [lia|]; split; [lia|]; discriminate).
      * destruct (deleteLoop' c ep (S (S i)) rest w1) as [[r3 w3] t3] eqn:Hrest.
        apply IH in Hrest. destruct Hrest as (B1 & B2 & B3).
        inversion H; subst. count_requests.
        split; [lia|]. split; [lia|].
        intros Hok. specialize (B3 Hok). lia.
    + destruct (GetDNSRecordsByName_calls _ _ _ _ _ _ Hget) as [[Ht1|Ht1] _];
        subst t1; inversion H; subst; count_requests;
        (split; [lia|]; split; [lia|]; discriminate).
Qed.

(** The first candidate costs its delete alone. *)
Lemma deleteLoop_first_calls (c : MikrotikApiClient) (ep : Endpoint) :
  forall (record : DNSRecord) (rest : list DNSRecord) (w w' : World)
         (r : result unit) (t : list Request),
    deleteLoop' c ep 0 (record :: rest) w = (r, w', t) ->
    (length t <= 1 + 2 * length rest)%nat
    /\ (is_ok r = true ->
        length t = (length rest + length (filter isDelete t))%nat).
Proof.
  intros record rest w w' r t H.
  rewrite deleteLoop_first in H.
  destruct (doRequest' c "DELETE" ("ip/dns/static/" ++ ID record) [] None w)
    as [[[resp|err] w2] t2] eqn:Hdel.
  - destruct (doRequest_calls _ _ _ _ _ _ _ _ _ Hdel) as [_ Ht2].
    specialize (Ht2 eq_refl). subst t2.
    destruct (deleteLoop' c ep 1 rest w2) as [[r3 w3] t3] eqn:Hrest.
    apply deleteLoop_later_calls in Hrest. destruct Hrest as (B1 & B2 & B3).
    inversion H; subst. count_requests.
    split; [lia|]. intros Hok. specialize (B3 Hok). lia.
  - destruct (doRequest_calls _ _ _ _ _ _ _ _ _ Hdel) as [[Ht2|Ht2] _];
      subst t2; inversion H; subst; count_requests;
      (split; [lia | discriminate]).
Qed.

(** C8: with [N >= 1] candidates a deletion hands at most [1 + (2 * N - 1)]
    requests to the transport, and exactly that many when it ends without
    error having issued [N] delete requests, that is with no call failed
    and no candidate skipped. *)
Theorem DeleteDNSRecords_request_count :
  forall (c : MikrotikApiClient) (ep : Endpoint) (w w1 w' : World)
         (allRecords : list DNSRecord) (t1 t : list Request)
         (r : result unit),
    GetDNSRecordsByName' c (DNSName ep) w = (Ok allRecords, w1, t1) ->
    (1 <= length (recordsToDelete c ep allRecords))%nat ->
    DeleteDNSRecords' c ep w = (r, w', t) ->
    (length t <= 1 + (2 * length (recordsToDelete c ep allRecords) - 1))%nat
    /\ (is_ok r = true ->
        length (filter isDelete t) = length (recordsToDelete c ep allRecords) ->
        length t
        = (1 + (2 * length (recordsToDelete c ep allRecords) - 1))%nat).
Proof.
  intros c ep w w1 w' allRecords t1 t r Hget HN H.
  rewrite DeleteDNSRecords_cases, Hget in H.
  destruct (GetDNSRecordsByName_calls _ _ _ _ _ _ Hget) as [_ Ht1].
  specialize (Ht1 eq_refl). subst t1.
  destruct (recordsToDelete c ep allRecords) as [|record rest];
    [cbn [length] in HN; lia|].
  destruct (deleteLoop' c ep 0 (record :: rest) w1) as [[r2 w2] t2] eqn:Hloop.
  apply deleteLoop_first_calls in Hloop. destruct Hloop as [B1 B2].
  inversion H; subst. count_requests.
  split; [lia|]. intros Hok HN'. specialize (B2 Hok). lia.
Qed.

End ClientFacts.

(** ** Counting in lists *)

Lemma count_cons {A} (f : A -> bool) (x : A) (l : list A) :
  count f (x :: l) = ((if f x then 1 else 0) + count f l)%nat.
Proof. unfold count; simpl. now destruct (f x). Qed.

Lemma count_ext {A} (f g : A -> bool) (l : list A) :
  (forall x, In x l -> f x = g x) -> count f l = count g l.
Proof.
  induction l as [|x l IH]; intros H; [reflexivity|].
  rewrite !count_cons, (H x (or_introl eq_refl)), IH; [reflexivity|].
  intros y Hy. apply H. now right.
Qed.

Lemma count_Permutation {A} (f : A -> bool) (l l' : list A) :
  Permutation l l' -> count f l = count f l'.
Proof.
  induction 1 as [|x l l' _ IH|x y l|l l' l'' _ IH1 _ IH2];
    rewrite ?count_cons; lia.
Qed.

Lemma count_map {A B} (f : B -> bool) (g : A -> B) (l : list A) :
  count f (map g l) = count (fun x => f (g x)) l.
Proof.
  induction l as [|x l IH]; [reflexivity|].
  cbn [map]. now rewrite !count_cons, IH.
Qed.

Lemma count_filter {A} (f g : A -> bool) (l : list A) :
  count f (filter g l) = count (fun x => g x && f x) l.
Proof.
  induction l as [|x l IH]; [reflexivity|].
  cbn [filter]. rewrite count_cons.
  destruct (g x); cbn [andb]; [rewrite count_cons|]; rewrite IH; reflexivity.
Qed.

Lemma count_filter_le {A} (f g : A -> bool) (l : list A) :
  (count f (filter g l) <= count f l)%nat.
Proof.
  induction l as [|x l IH]; [apply Nat.le_refl|].
  cbn [filter]. destruct (g x); rewrite !count_cons; lia.
Qed.

(** Filtering out an element that was counted lowers the count. *)
Lemma count_filter_lt {A} (f g : A -> bool) (l : list A) (u : A) :
  In u l -> g u = false -> f u = true ->
  (S (count f (filter g l)) <= count f l)%nat.
Proof.
  induction l as [|x l IH]; intros Hin Hg Hf; [contradiction|].
  destruct Hin as [->|Hin].
  - cbn [filter]. rewrite Hg, count_cons, Hf.
    pose proof (count_filter_le f g l). lia.
  - specialize (IH Hin Hg Hf). cbn [filter].
    destruct (g x); rewrite !count_cons; lia.
Qed.

Lemma count_zero {A} (f : A -> bool) (l : list A) :
  (forall x, In x l -> f x = false) -> count f l = 0%nat.
Proof.
  induction l as [|x l IH]; intros H; [reflexivity|].
  rewrite count_cons, (H x (or_introl eq_refl)), IH; [reflexivity|].
  intros y Hy. apply H. now right.
Qed.

Lemma count_pos {A} (f : A -> bool) (l : list A) (x : A) :
  In x l -> f x = true -> (1 <= count f l)%nat.
Proof.
  induction l as [|y l IH]; intros Hin Hf; [contradiction|].
  rewrite count_cons. destruct Hin as [->|Hin].
  - rewrite Hf. lia.
  - specialize (IH Hin Hf). lia.
Qed.

Lemma filter_nil_of_count {A} (f : A -> bool) (l : list A) :
  count f l = 0%nat -> filter f l = [].
Proof. unfold count. now intros H%length_zero_iff_nil. Qed.

(** ** The matcher as equality of keys *)

Lemma recordsMatch_key (r1 r2 : DNSRecord) :
  recordsMatch r1 r2 = true <-> matchKey r1 = matchKey r2.
Proof.
  unfold recordsMatch, matchKey, targetKey.
  destruct (String.eqb_spec (Name r1) (Name r2)) as [Hn|Hn];
    [|split; [discriminate | intros H; injection H; intros; contradiction]].
  destruct (String.eqb_spec (Type_ r1) (Type_ r2)) as [Ht|Ht];
    [|split; [discriminate | intros H; injection H; intros; contradiction]].
  cbn [negb orb]. rewrite <- Ht, <- Hn.
  split_type r1; cbn [orb];
    rewrite ?andb_true_iff, ?String.eqb_eq;
    intuition congruence.
Qed.

Lemma recordsMatch_congr (z r u : DNSRecord) :
  recordsMatch r u = true -> recordsMatch z r = recordsMatch z u.
Proof.
  intros H. apply recordsMatch_key in H.
  destruct (recordsMatch z r) eqn:E1; destruct (recordsMatch z u) eqn:E2;
    try reflexivity.
  - apply recordsMatch_key in E1.
    assert (E : recordsMatch z u = true)
      by (apply recordsMatch_key; congruence).
    congruence.
  - apply recordsMatch_key in E2.
    assert (E : recordsMatch z r = true)
      by (apply recordsMatch_key; congruence).
    congruence.
Qed.

(** Records the matcher identifies decode to the same target. *)
Lemma recordsMatch_target (r u : DNSRecord) :
  recordsMatch r u = true -> getRecordTarget r = getRecordTarget u.
Proof.
  intros H. apply recordsMatch_key in H.
  unfold matchKey, targetKey in H. injection H as Hn Ht Hk.
  unfold getRecordTarget. rewrite <- Ht in *.
  split_type r; cbn [orb] in *; try (injection Hk; auto); reflexivity.
Qed.

(** A record the matcher identifies with a candidate and that carries the
    ownership tag is itself a candidate. *)
Lemma isDeleteCandidate_match (c : MikrotikApiClient) (ep : Endpoint)
    (r u : DNSRecord) :
  recordsMatch r u = true ->
  Comment u = DefaultComment (defaults c) ->
  isDeleteCandidate c ep r = true ->
  isDeleteCandidate c ep u = true.
Proof.
  intros Hm Hc Hr.
  pose proof (recordsMatch_target _ _ Hm) as Htarget.
  apply recordsMatch_key in Hm. injection Hm as Hn Ht _.
  apply isDeleteCandidate_true in Hr. apply isDeleteCandidate_true.
  rewrite <- Hn, <- Ht, <- Htarget. tauto.
Qed.

Lemma serverFilter_comment (c : MikrotikApiClient) (name : string)
    (r : DNSRecord) :
  serverFilter c name r = true -> Comment r = DefaultComment (defaults c).
Proof.
  unfold serverFilter. rewrite !andb_true_iff.
  intros [[H _] _]. now apply String.eqb_eq.
Qed.

Lemma ownedCandidate_eraseID (c : MikrotikApiClient) (ep : Endpoint)
    (r : DNSRecord) :
  ownedCandidate c ep (eraseID r) = ownedCandidate c ep r.
Proof. reflexivity. Qed.

Lemma recordsMatch_eraseID (z r : DNSRecord) :
  recordsMatch z (eraseID r) = recordsMatch z r.
Proof. reflexivity. Qed.

(** ** Deleting against an honest remote *)

Section HonestFacts.

Variable World : Type.
Variable Do : Request -> World -> result Response * World.
Variable newRequestErr : string -> string -> option error.
Variable c : MikrotikApiClient.
Variable ep : Endpoint.
Variable store : World -> list DNSRecord.
Variable Inv : World -> Prop.

Hypothesis honest : HonestRemote Do newRequestErr c store Inv.

Local Notation doRequest' := (doRequest Do newRequestErr).
Local Notation GetDNSRecordsByName' := (GetDNSRecordsByName Do newRequestErr).
Local Notation deleteLoop' := (deleteLoop Do newRequestErr).
Local Notation DeleteDNSRecords' := (DeleteDNSRecords Do newRequestErr).

Lemma honest_fetch_run (name : string) (w : World) :
  Inv w ->
  exists w' fetched,
    GetDNSRecordsByName' c name w = (Ok fetched, w', [fetchRequest c name])
    /\ Permutation fetched (filter (serverFilter c name) (store w))
    /\ store w' = store w
    /\ Inv w'.
Proof.
  intros HInv. destruct honest as [Hwf Hfetch _].
  destruct (Hfetch name w HInv)
    as (resp & w' & fetched & Hdo & H2xx & Hbody & Hperm & Hstore & HInv').
  exists w', fetched. split; [|auto].
  now apply GetDNSRecordsByName_ok with (resp := resp).
Qed.

Lemma honest_delete_run (id : string) (w : World) :
  Inv w ->
  exists resp w',
    doRequest' c "DELETE" ("ip/dns/static/" ++ id) [] None w
    = (Ok resp, w', [deleteRequest c id])
    /\ Permutation (map eraseID (store w'))
         (map eraseID (filter (fun r => negb (ID r =? id)) (store w)))
    /\ Inv w'.
Proof.
  intros HInv. destruct honest as [Hwf _ Hdelete].
  destruct (Hdelete id w HInv) as (resp & w' & Hdo & H2xx & Hperm & HInv').
  exists resp, w'. split; [|auto].
  rewrite doRequest_cases, Hwf. cbv zeta.
  unfold deleteRequest in Hdo. rewrite Hdo, (inside2xx_test _ H2xx).
  reflexivity.
Qed.

Lemma count_eraseID (z : DNSRecord) (l : list DNSRecord) :
  count (fun x => ownedCandidate c ep x && recordsMatch z x) (map eraseID l)
  = count (fun x => ownedCandidate c ep x && recordsMatch z x) l.
Proof. rewrite count_map. apply count_ext. reflexivity. Qed.

(** The candidates of a fetch account for the store it was made from. *)
Lemma accountedFor_fetched (stored fetched : list DNSRecord) :
  Permutation fetched (filter (serverFilter c (DNSName ep)) stored) ->
  accountedFor c ep stored (recordsToDelete c ep fetched).
Proof.
  intros Hperm z. unfold recordsToDelete.
  rewrite count_filter, (count_Permutation _ _ _ Hperm), count_filter.
  apply Nat.eq_le_incl, count_ext.
  intros x _. unfold ownedCandidate. now rewrite andb_assoc.
Qed.

(** Deleting a stored record that the candidate [r] stands for leaves a
    store the remaining candidates account for. *)
Lemma accountedFor_deleted (r u : DNSRecord) (rest stored stored' : list DNSRecord) :
  In u stored ->
  ownedCandidate c ep u = true ->
  recordsMatch r u = true ->
  accountedFor c ep stored (r :: rest) ->
  Permutation (map eraseID stored')
    (map eraseID (filter (fun x => negb (ID x =? ID u)) stored)) ->
  accountedFor c ep stored' rest.
Proof.
  intros Hin Howned Hmatch Hacc Hperm z.
  specialize (Hacc z). rewrite count_cons in Hacc.
  rewrite <- count_eraseID, (count_Permutation _ _ _ Hperm), count_eraseID.
  destruct (recordsMatch z r) eqn:Hz.
  - assert (Hu : ownedCandidate c ep u && recordsMatch z u = true).
    { rewrite Howned, <- (recordsMatch_congr z r u Hmatch), Hz. reflexivity. }
    pose proof (count_filter_lt
                  (fun x => ownedCandidate c ep x && recordsMatch z x)
                  (fun x => negb (ID x =? ID u)) stored u Hin) as Hlt.
    cbv beta in Hlt. rewrite String.eqb_refl in Hlt.
    specialize (Hlt eq_refl Hu). lia.
  - pose proof (count_filter_le
                  (fun x => ownedCandidate c ep x && recordsMatch z x)
                  (fun x => negb (ID x =? ID u)) stored). lia.
Qed.

(** A candidate no fetched record matches stands for nothing stored. *)
Lemma accountedFor_skipped (r : DNSRecord) (rest stored fetched : list DNSRecord) :
  Permutation fetched (filter (serverFilter c (DNSName ep)) stored) ->
  find (recordsMatch r) fetched = None ->
  accountedFor c ep stored (r :: rest) ->
  accountedFor c ep stored rest.
Proof.
  intros Hperm Hfind Hacc z.
  specialize (Hacc z). rewrite count_cons in Hacc.
  destruct (recordsMatch z r) eqn:Hz; [|exact Hacc].
  rewrite count_zero; [lia|].
  intros x Hx.
  destruct (ownedCandidate c ep x && recordsMatch z x) eqn:Hg; [|reflexivity].
  exfalso. apply andb_true_iff in Hg. destruct Hg as [Howned Hzx].
  unfold ownedCandidate in Howned. apply andb_true_iff in Howned.
  destruct Howned as [Hsf _].
  assert (Hfetched : In x fetched).
  { apply (Permutation_in x (Permutation_sym Hperm)).
    apply filter_In. now split. }
  pose proof (find_none _ _ Hfind x Hfetched) as Hrx.
  apply recordsMatch_key in Hz. apply recordsMatch_key in Hzx.
  assert (E : recordsMatch r x = true)
    by (apply recordsMatch_key; congruence).
  congruence.
Qed.

Lemma nothing_owned_left (stored : list DNSRecord) :
  accountedFor c ep stored [] -> filter (ownedCandidate c ep) stored = [].
Proof.
  intros Hacc.
  destruct (filter (ownedCandidate c ep) stored) as [|x l] eqn:E;
    [reflexivity|exfalso].
  assert (Hx : In x (filter (ownedCandidate c ep) stored))
    by (rewrite E; now left).
  apply filter_In in Hx. destruct Hx as [Hin Howned].
  specialize (Hacc x).
  pose proof (count_pos
                (fun y => ownedCandidate c ep y && recordsMatch x y)
                stored x Hin) as Hpos.
  cbv beta in Hpos. rewrite Howned, recordsMatch_refl in Hpos.
  specialize (Hpos eq_refl). unfold count at 2 in Hacc.
  cbn [filter length] in Hacc. lia.
Qed.

Lemma ownedCandidate_fetched (fetched stored : list DNSRecord)
    (r u : DNSRecord) :
  Permutation fetched (filter (serverFilter c (DNSName ep)) stored) ->
  isDeleteCandidate c ep r = true ->
  In u fetched ->
  recordsMatch r u = true ->
  In u stored /\ ownedCandidate c ep u = true.
Proof.
  intros Hperm Hr Hin Hmatch.
  apply (Permutation_in u Hperm), filter_In in Hin.
  destruct Hin as [Hin Hsf]. split; [exact Hin|].
  unfold ownedCandidate. rewrite Hsf. cbn [andb].
  apply isDeleteCandidate_match with (r := r); auto.
  now apply serverFilter_comment with (name := DNSName ep).
Qed.

(** Past the first candidate the loop ends without error and leaves no
    record a deletion is after. *)
Lemma honest_deleteLoop_later :
  forall (rest : list DNSRecord) (i : nat) (w : World),
    Inv w ->
    Forall (fun r => isDeleteCandidate c ep r = true) rest ->
    accountedFor c ep (store w) rest ->
    exists w' t,
      deleteLoop' c ep (S i) rest w = (Ok tt, w', t)
      /\ Inv w'
      /\ filter (ownedCandidate c ep) (store w') = [].
Proof.
  induction rest as [|r rest IH]; intros i w HInv Hcand Hacc.
  - exists w, []. rewrite deleteLoop_nil.
    split; [reflexivity|]. split; [exact HInv|].
    now apply nothing_owned_left.
  - inversion Hcand as [|r' rest' Hr Hrest]; subst.
    destruct (honest_fetch_run (DNSName ep) w HInv)
      as (w1 & fetched & Hget & Hperm & Hstore & HInv1).
    rewrite deleteLoop_later, Hget.
    destruct (find (recordsMatch r) fetched) as [u|] eqn:Hfind.
    + pose proof (find_some _ _ Hfind) as [Hin Hmatch].
      destruct (ownedCandidate_fetched fetched (store w) r u Hperm Hr Hin Hmatch)
        as [Hstored Howned].
      destruct (honest_delete_run (ID u) w1 HInv1)
        as (resp & w2 & Hdel & Hperm2 & HInv2).
      rewrite Hdel. rewrite Hstore in Hperm2.
      pose proof (accountedFor_deleted r u rest (store w) (store w2)
                    Hstored Howned Hmatch Hacc Hperm2) as Hacc2.
      destruct (IH (S i) w2 HInv2 Hrest Hacc2) as (w' & t & Hloop & HInv' & Hnone).
      rewrite Hloop. eexists _, _. split; [reflexivity|]. auto.
    + pose proof (accountedFor_skipped r rest (store w) fetched
                    Hperm Hfind Hacc) as Hacc1.
      rewrite <- Hstore in Hacc1.
      destruct (IH (S i) w1 HInv1 Hrest Hacc1) as (w' & t & Hloop & HInv' & Hnone).
      rewrite Hloop. eexists _, _. split; [reflexivity|]. auto.
Qed.

(** A deletion ends without error and leaves no record it is after. *)
Lemma honest_DeleteDNSRecords (w : World) :
  Inv w ->
  exists w' t,
    DeleteDNSRecords Do newRequestErr c ep w = (Ok tt, w', t)
    /\ Inv w'
    /\ filter (ownedCandidate c ep) (store w') = [].
Proof.
  intros HInv.
  destruct (honest_fetch_run (DNSName ep) w HInv)
    as (w1 & fetched & Hget & Hperm & Hstore & HInv1).
  rewrite DeleteDNSRecords_cases, Hget.
  pose proof (accountedFor_fetched (store w) fetched Hperm) as Hacc.
  assert (Hcand : Forall (fun r => isDeleteCandidate c ep r = true)
                    (recordsToDelete c ep fetched)).
  { apply Forall_forall. intros x Hx. now apply filter_In in Hx. }
  assert (Hsub : forall x, In x (recordsToDelete c ep fetched) -> In x fetched).
  { intros x Hx. now apply filter_In in Hx. }
  destruct (recordsToDelete c ep fetched) as [|r rest].
  - exists w1, [fetchRequest c (DNSName ep)].
    split; [reflexivity|]. split; [exact HInv1|].
    rewrite Hstore. now apply nothing_owned_left.
  - inversion Hcand as [|r' rest' Hr Hrest]; subst.
    destruct (ownedCandidate_fetched fetched (store w) r r Hperm Hr
                (Hsub r (or_introl eq_refl)) (recordsMatch_refl r))
      as [Hstored Howned].
    destruct (honest_delete_run (ID r) w1 HInv1)
      as (resp & w2 & Hdel & Hperm2 & HInv2).
    rewrite deleteLoop_first, Hdel. rewrite Hstore in Hperm2.
    pose proof (accountedFor_deleted r r rest (store w) (store w2)
                  Hstored Howned (recordsMatch_refl r) Hacc Hperm2) as Hacc2.
    destruct (honest_deleteLoop_later rest 0 w2 HInv2 Hrest Hacc2)
      as (w' & t & Hloop & HInv' & Hnone).
    rewrite Hloop. eexists _, _. split; [reflexivity|]. auto.
Qed.

(** With no record left that a deletion is after, it fetches once and
    returns. *)
Lemma honest_nothing_to_delete (w : World) :
  Inv w ->
  filter (ownedCandidate c ep) (store w) = [] ->
  exists w',
    DeleteDNSRecords Do newRequestErr c ep w
    = (Ok tt, w', [fetchRequest c (DNSName ep)])
    /\ store w' = store w
    /\ Inv w'.
Proof.
  intros HInv Hnone.
  destruct (honest_fetch_run (DNSName ep) w HInv)
    as (w1 & fetched & Hget & Hperm & Hstore & HInv1).
  rewrite DeleteDNSRecords_cases, Hget.
  assert (E : recordsToDelete c ep fetched = []).
  { apply filter_nil_of_count.
    rewrite (count_Permutation _ _ _ Hperm), count_filter.
    fold (ownedCandidate c ep).
    change (count (fun x => serverFilter c (DNSName ep) x
                            && isDeleteCandidate c ep x) (store w))
      with (count (ownedCandidate c ep) (store w)).
    unfold count. now rewrite Hnone. }
  rewrite E. exists w1. auto.
Qed.

End HonestFacts.

(** C4: a deletion whose initial fetch yields no candidate returns without
    error having made the fetch and no delete request; consequently, against
    a remote that honours the fetch filters and the delete requests, with no
    other actor changing the records, a deletion succeeds and a second one
    right after it only fetches, returns without error and leaves the stored
    records as they were. *)
Theorem DeleteDNSRecords_nothing_to_delete :
  forall (World : Type) (Do : Request -> World -> result Response * World)
         (newRequestErr : string -> string -> option error)
         (c : MikrotikApiClient) (ep : Endpoint),
    (forall (w w1 : World) (allRecords : list DNSRecord) (t1 : list Request),
        GetDNSRecordsByName Do newRequestErr c (DNSName ep) w
        = (Ok allRecords, w1, t1) ->
        recordsToDelete c ep allRecords = [] ->
        DeleteDNSRecords Do newRequestErr c ep w = (Ok tt, w1, t1)
        /\ t1 = [fetchRequest c (DNSName ep)]
        /\ filter isDelete t1 = [])
    /\ (forall (store : World -> list DNSRecord) (Inv : World -> Prop),
        HonestRemote Do newRequestErr c store Inv ->
        forall w : World, Inv w ->
        exists (w1 : World) (t1 : list Request) (w2 : World),
          DeleteDNSRecords Do newRequestErr c ep w = (Ok tt, w1, t1)
          /\ DeleteDNSRecords Do newRequestErr c ep w1
             = (Ok tt, w2, [fetchRequest c (DNSName ep)])
          /\ store w2 = store w1).
Proof.
  intros World Do newRequestErr c ep. split.
  - intros w w1 allRecords t1 Hget Hnone.
    rewrite DeleteDNSRecords_cases, Hget, Hnone.
    destruct (GetDNSRecordsByName_calls _ _ _ _ _ _ _ _ _ Hget) as [_ Ht1].
    specialize (Ht1 eq_refl). subst t1. auto.
  - intros store Inv honest w HInv.
    destruct (honest_DeleteDNSRecords _ _ _ c ep store Inv honest w HInv)
      as (w1 & t1 & Hfirst & HInv1 & Hnone).
    destruct (honest_nothing_to_delete _ _ _ c ep store Inv honest w1 HInv1 Hnone)
      as (w2 & Hsecond & Hstore & _).
    exists w1, t1, w2. auto.
Qed.

(** ** The mock server of the integration tests is an honest remote *)

Lemma splitComma_supportedTypes :
  splitComma "A,AAAA,CNAME,TXT,MX,SRV,NS" = supportedTypes.
Proof. vm_compute. reflexivity. Qed.

Lemma TrimSpace_supportedTypes :
  map TrimSpace supportedTypes = supportedTypes.
Proof. vm_compute. reflexivity. Qed.

Lemma typeListed_supported (record : DNSRecord) :
  MockMikrotikServer.typeListed "A,AAAA,CNAME,TXT,MX,SRV,NS" record
  = isSupportedType (Type_ record).
Proof.
  unfold MockMikrotikServer.typeListed, isSupportedType.
  rewrite splitComma_supportedTypes.
  rewrite <- TrimSpace_supportedTypes at 2.
  induction supportedTypes as [|t ts IH]; [reflexivity|].
  cbn [map existsb]. now rewrite IH, String.eqb_sym.
Qed.

Lemma mock_keeps_serverFilter (name : string) (record : DNSRecord) :
  MockMikrotikServer.keeps name "A,AAAA,CNAME,TXT,MX,SRV,NS" "external-dns" record
  = serverFilter testClient name record.
Proof.
  unfold MockMikrotikServer.keeps, serverFilter.
  rewrite typeListed_supported.
  change (DefaultComment (defaults testClient)) with "external-dns".
  change ("external-dns" =? EmptyString) with false.
  change ("A,AAAA,CNAME,TXT,MX,SRV,NS" =? EmptyString) with false.
  destruct (name =? EmptyString), (Name record =? name),
    (Comment record =? "external-dns"), (isSupportedType (Type_ record));
    reflexivity.
Qed.

Lemma mock_fetchQuery (name : string) :
  url_Get "name" (fetchQuery testClient name) = name
  /\ url_Get "type" (fetchQuery testClient name) = "A,AAAA,CNAME,TXT,MX,SRV,NS"
  /\ url_Get "comment" (fetchQuery testClient name) = "external-dns".
Proof.
  unfold fetchQuery.
  destruct (String.eqb_spec name EmptyString) as [->|Hne]; cbn.
  - auto.
  - auto.
Qed.

Lemma mock_fetch (name : string) (m : MockMikrotikServer.World) :
  MockMikrotikServer.returnError m = false ->
  MockMikrotikServer.Do serverURL (fetchRequest testClient name) m
  = (Ok (respond 200
           (JRecords (filter (serverFilter testClient name)
                        (MockMikrotikServer.records m)))), m).
Proof.
  intros Hinv.
  unfold MockMikrotikServer.Do.
  change (stripPrefix serverURL (URL (fetchRequest testClient name)))
    with (Some "/rest/ip/dns/static").
  change (authorized (fetchRequest testClient name)) with true.
  rewrite Hinv.
  change (Method (fetchRequest testClient name)) with "GET".
  cbn [negb andb]. 
  change ("GET" =? "GET") with true.
  change ("/rest/ip/dns/static" =? "/rest/system/resource") with false.
  change ("/rest/ip/dns/static" =? "/rest/ip/dns/static") with true.
  cbn [andb].
  unfold MockMikrotikServer.handleGetDNSRecords.
  change (Query (fetchRequest testClient name)) with (fetchQuery testClient name).
  destruct (mock_fetchQuery name) as (-> & -> & ->).
  do 4 f_equal. apply filter_ext. intros r. apply mock_keeps_serverFilter.
Qed.

Lemma mock_delete (id : string) (m : MockMikrotikServer.World) :
  MockMikrotikServer.returnError m = false ->
  MockMikrotikServer.Do serverURL (deleteRequest testClient id) m
  = (Ok (respond 200 (JOther EmptyString)),
     {| MockMikrotikServer.records :=
          filter (fun r => negb (ID r =? id)) (MockMikrotikServer.records m);
        MockMikrotikServer.nextID := MockMikrotikServer.nextID m;
        MockMikrotikServer.returnError := MockMikrotikServer.returnError m;
        MockMikrotikServer.errorCode := MockMikrotikServer.errorCode m |}).
Proof.
  intros Hinv.
  unfold MockMikrotikServer.Do.
  change (URL (deleteRequest testClient id))
    with (serverURL ++ "/rest/ip/dns/static/" ++ id).
  rewrite stripPrefix_app.
  change (authorized (deleteRequest testClient id)) with true.
  rewrite Hinv.
  change (Method (deleteRequest testClient id)) with "DELETE".
  change ("DELETE" =? "GET") with false.
  change ("DELETE" =? "PUT") with false.
  change ("DELETE" =? "DELETE") with true.
  cbn [negb andb].
  unfold HasPrefix, MockMikrotikServer.handleDeleteDNSRecord, TrimPrefix.
  rewrite stripPrefix_app, ?Hinv. reflexivity.
Qed.

Lemma mock_honest :
  HonestRemote (MockMikrotikServer.Do serverURL) noRequestErr testClient
    MockMikrotikServer.records
    (fun m => MockMikrotikServer.returnError m = false).
Proof.
  constructor.
  - reflexivity.
  - intros name m Hinv.
    eexists _, m, _. rewrite (mock_fetch name m Hinv).
    split; [reflexivity|]. split; [unfold status2xx; cbn; lia|].
    split; [reflexivity|]. auto.
  - intros id m Hinv.
    eexists _, _. rewrite (mock_delete id m Hinv).
    split; [reflexivity|]. split; [unfold status2xx; cbn; lia|].
    split; [apply Permutation_refl | exact Hinv].
Qed.

Lemma DeleteDNSRecords_nothing_to_delete_witness :
  exists w1 t1 w2,
    DeleteDNSRecords (MockMikrotikServer.Do serverURL) noRequestErr testClient
      (anEndpoint "multi.example.com" "A" ["1.2.3.4"; "5.6.7.8"]) twoRecordStore
    = (Ok tt, w1, t1)
    /\ DeleteDNSRecords (MockMikrotikServer.Do serverURL) noRequestErr testClient
         (anEndpoint "multi.example.com" "A" ["1.2.3.4"; "5.6.7.8"]) w1
       = (Ok tt, w2, [fetchRequest testClient "multi.example.com"])
    /\ MockMikrotikServer.records w2 = MockMikrotikServer.records w1.
Proof.
  apply (proj2 (DeleteDNSRecords_nothing_to_delete
                  MockMikrotikServer.World (MockMikrotikServer.Do serverURL)
                  noRequestErr testClient
                  (anEndpoint "multi.example.com" "A" ["1.2.3.4"; "5.6.7.8"]))
           MockMikrotikServer.records
           (fun m => MockMikrotikServer.returnError m = false)
           mock_honest twoRecordStore).
  reflexivity.
Defined.

(** ** The create pipeline *)

Section CreateFacts.

Variable World : Type.
Variable Do : Request -> World -> result Response * World.
Variable newRequestErr : string -> string -> option error.
Variable encode : Endpoint -> string -> result DNSRecord.

Local Notation doRequest' := (doRequest Do newRequestErr).
Local Notation createSingleDNSRecord' := (createSingleDNSRecord Do newRequestErr).
Local Notation createAll' := (createAll Do newRequestErr).
Local Notation createLoop' := (createLoop Do newRequestErr).
Local Notation CreateDNSRecords' := (CreateDNSRecords Do newRequestErr).

Lemma createSingleDNSRecord_cases (c : MikrotikApiClient) (record : DNSRecord)
    (w : World) :
  createSingleDNSRecord' c record w =
  match doRequest' c "PUT" "ip/dns/static" [] (Some (JRecord record)) w with
  | (Err err, w', t) => (Err err, w', t)
  | (Ok resp, w', t) => (json_Decode_record (RespBody resp), w', t)
  end.
Proof.
  unfold createSingleDNSRecord, bind, lift, json_Marshal. cbn [app].
  destruct (doRequest' c "PUT" "ip/dns/static" [] (Some (JRecord record)) w)
    as [[[resp|err] w'] t]; [|reflexivity].
  now rewrite app_nil_r.
Qed.

(** One create call hands the transport no request or the PUT of its
    record; a successful one made exactly that PUT. *)
Lemma createSingleDNSRecord_calls (c : MikrotikApiClient) (record : DNSRecord)
    (w : World) :
  forall r w' t,
    createSingleDNSRecord' c record w = (r, w', t) ->
    (t = [] \/ t = [putRequest c record])
    /\ (is_ok r = true -> t = [putRequest c record]).
Proof.
  intros r w' t. rewrite createSingleDNSRecord_cases.
  destruct (doRequest' c "PUT" "ip/dns/static" [] (Some (JRecord record)) w)
    as [[[resp|err] w1] t1] eqn:E;
    apply doRequest_calls in E; destruct E as [E1 E2];
    intros H; inversion H; subst.
  - split; [exact E1 | intros _; now apply E2].
  - split; [exact E1 | discriminate].
Qed.

Lemma createAll_cons (c : MikrotikApiClient) (record : DNSRecord)
    (rest : list DNSRecord) (w : World) :
  createAll' c (record :: rest) w =
  match createSingleDNSRecord' c record w with
  | (Err err, w1, t1) => (Err err, w1, t1)
  | (Ok createdRecord, w1, t1) =>
      match createAll' c rest w1 with
      | (Err err, w2, t2) => (Err err, w2, (t1 ++ t2)%list)
      | (Ok createdRecords, w2, t2) =>
          (Ok (createdRecord :: createdRecords), w2, (t1 ++ t2)%list)
      end
  end.
Proof.
  cbn [createAll]. unfold bind, ret.
  destruct (createSingleDNSRecord' c record w) as [[[cr|err] w1] t1];
    [|reflexivity].
  destruct (createAll' c rest w1) as [[[crs|err] w2] t2]; [|reflexivity].
  now rewrite app_nil_r.
Qed.

(** Creations that all succeed made the PUT of each record, in order. *)
Lemma createAll_calls (c : MikrotikApiClient) :
  forall (records createdRecords : list DNSRecord) (w w' : World)
         (t : list Request),
    createAll' c records w = (Ok createdRecords, w', t) ->
    t = map (putRequest c) records
    /\ length createdRecords = length records.
Proof.
  induction records as [|record rest IH]; intros createdRecords w w' t H.
  - inversion H; subst. auto.
  - rewrite createAll_cons in H.
    destruct (createSingleDNSRecord' c record w) as [[[cr|err] w1] t1] eqn:E1;
      [|discriminate].
    destruct (createSingleDNSRecord_calls _ _ _ _ _ _ E1) as [_ Ht1].
    specialize (Ht1 eq_refl). subst t1.
    destruct (createAll' c rest w1) as [[[crs|err] w2] t2] eqn:E2;
      [|discriminate].
    destruct (IH _ _ _ _ E2) as [-> Hlen].
    inversion H; subst. cbn [map app length]. auto.
Qed.

(** The loop stops at the first create call that fails. *)
Lemma createLoop_stops (c : MikrotikApiClient) :
  forall (done : list DNSRecord) (failing : DNSRecord)
         (rest createdRecords createdNow : list DNSRecord) (i : nat)
         (w w1 w2 : World) (t1 t2 : list Request) (err : error),
    createAll' c done w = (Ok createdNow, w1, t1) ->
    createSingleDNSRecord' c failing w1 = (Err err, w2, t2) ->
    createLoop' c i (done ++ failing :: rest) createdRecords w
    = (((createdRecords ++ createdNow)%list,
        Some ("failed to create record "
              ++ itoa (i + length done + 1) ++ ": " ++ err)),
       w2, (t1 ++ t2)%list).
Proof.
  induction done as [|record done IH];
    intros failing rest createdRecords createdNow i w w1 w2 t1 t2 err Hall Hfail.
  - inversion Hall; subst. cbn [app createLoop length]. rewrite Hfail.
    now rewrite app_nil_r, Nat.add_0_r.
  - rewrite createAll_cons in Hall.
    destruct (createSingleDNSRecord' c record w) as [[[cr|e] w0] t0] eqn:E1;
      [|discriminate].
    destruct (createAll' c done w0) as [[[crs|e] w0'] t0'] eqn:E2;
      [|discriminate].
    inversion Hall; subst.
    cbn [app createLoop length]. rewrite E1.
    rewrite (IH failing rest (createdRecords ++ [cr])%list crs (S i)
               w0 w1 w2 t0' t2 err E2 Hfail).
    rewrite <- !app_assoc. cbn [app].
    now replace (S i + length done + 1)%nat with (i + S (length done) + 1)%nat
      by lia.
Qed.

(** The codec is asked for each target in turn. *)
Lemma encodeTargets_Forall2 (ep : Endpoint) :
  forall (targets : list string) (records : list DNSRecord),
    encodeTargets encode ep targets = Ok records ->
    Forall2 (fun target record => encode ep target = Ok record) targets records.
Proof.
  induction targets as [|target rest IH]; intros records H; cbn in H.
  - inversion H. constructor.
  - destruct (encode ep target) as [record|e] eqn:E; [|discriminate].
    destruct (encodeTargets encode ep rest) as [records'|e]; [|discriminate].
    inversion H; subst. constructor; auto.
Qed.

(** C3: when the records of an endpoint, one for each target in target
    order, split into [done], whose create calls succeed one after the
    other, and [failing], whose create call fails, [CreateDNSRecords]
    returns exactly the records created for [done] together with an error
    naming the failing position; the requests it made are the PUTs of
    [done] in order and at most the PUT of [failing]: none for the records
    after it and no DELETE. *)
Theorem CreateDNSRecords_stops_at_first_failure :
  forall (c : MikrotikApiClient) (ep : Endpoint)
         (records done rest createdRecords : list DNSRecord)
         (failing : DNSRecord) (w w1 w2 : World) (t1 t2 : list Request)
         (err : error),
    NewDNSRecords encode ep = Ok records ->
    map (set_Comment (DefaultComment (defaults c))) records
    = (done ++ failing :: rest)%list ->
    createAll' c done w = (Ok createdRecords, w1, t1) ->
    createSingleDNSRecord' c failing w1 = (Err err, w2, t2) ->
    CreateDNSRecords' encode c ep w
    = ((createdRecords,
        Some ("failed to create record "
              ++ itoa (length done + 1) ++ ": " ++ err)),
       w2, (t1 ++ t2)%list)
    /\ Forall2 (fun target record => encode ep target = Ok record)
         (Targets ep) records
    /\ length createdRecords = length done
    /\ t1 = map (putRequest c) done
    /\ (t2 = [] \/ t2 = [putRequest c failing])
    /\ filter isDelete (t1 ++ t2) = [].
Proof.
  intros c ep records done rest createdRecords failing w w1 w2 t1 t2 err
         Hnew Hsplit Hall Hfail.
  destruct (createAll_calls _ _ _ _ _ _ Hall) as [Ht1 Hlen].
  destruct (createSingleDNSRecord_calls _ _ _ _ _ _ Hfail) as [Ht2 _].
  split; [|split; [|split; [|split; [|split]]]]; auto.
  - unfold CreateDNSRecords. rewrite Hnew. cbv zeta. rewrite Hsplit.
    now rewrite (createLoop_stops c done failing rest [] createdRecords 0
                   w w1 w2 t1 t2 err Hall Hfail).
  - now apply encodeTargets_Forall2.
  - subst t1. rewrite filter_app.
    assert (E : filter isDelete (map (putRequest c) done) = []).
    { clear. induction done as [|r l IH]; [reflexivity | exact IH]. }
    rewrite E. destruct Ht2 as [->| ->]; reflexivity.
Qed.

End CreateFacts.

Lemma CreateDNSRecords_stops_at_first_failure_witness :
  CreateDNSRecords ScriptedServer.Do noRequestErr encodeAddress testClient
    fiveTargets thirdCreateFails
  = (([created "*1" "10.0.0.1"; created "*2" "10.0.0.2"],
      Some "failed to create record 3: request failed: 500 Internal Server Error"),
     [],
     [putRequest testClient (created EmptyString "10.0.0.1");
      putRequest testClient (created EmptyString "10.0.0.2");
      putRequest testClient (created EmptyString "10.0.0.3")]).
Proof.
  apply (CreateDNSRecords_stops_at_first_failure
           ScriptedServer.World ScriptedServer.Do noRequestErr encodeAddress
           testClient fiveTargets
           (map (set_Comment "manual")
              [created EmptyString "10.0.0.1"; created EmptyString "10.0.0.2";
               created EmptyString "10.0.0.3"; created EmptyString "10.0.0.4";
               created EmptyString "10.0.0.5"])
           [created EmptyString "10.0.0.1"; created EmptyString "10.0.0.2"]
           [created EmptyString "10.0.0.4"; created EmptyString "10.0.0.5"]
           [created "*1" "10.0.0.1"; created "*2" "10.0.0.2"]
           (created EmptyString "10.0.0.3")
           thirdCreateFails
           [Ok (http_Error "Internal Server Error" 500)]
           []
           [putRequest testClient (created EmptyString "10.0.0.1");
            putRequest testClient (created EmptyString "10.0.0.2")]
           [putRequest testClient (created EmptyString "10.0.0.3")]
           "request failed: 500 Internal Server Error");
    reflexivity.
Defined.

Section StampFacts.

Variable World : Type.
Variable Do : Request -> World -> result Response * World.
Variable newRequestErr : string -> string -> option error.

Local Notation createLoop' := (createLoop Do newRequestErr).

(** The requests of the loop are PUTs of the records it was given. *)
Lemma createLoop_calls (c : MikrotikApiClient) :
  forall (records createdRecords : list DNSRecord) (i : nat) (w : World),
    Forall (fun req => exists record,
                In record records /\ req = putRequest c record)
           (snd (createLoop' c i records createdRecords w)).
Proof.
  induction records as [|record rest IH]; intros createdRecords i w.
  - constructor.
  - cbn [createLoop].
    destruct (createSingleDNSRecord Do newRequestErr c record w)
      as [[[cr|err] w1] t1] eqn:E1;
      destruct (createSingleDNSRecord_calls _ _ _ _ _ _ _ _ _ E1) as [Ht1 _].
    + specialize (IH (createdRecords ++ [cr])%list (S i) w1).
      destruct (createLoop' c (S i) rest (createdRecords ++ [cr])%list w1)
        as [[out w2] t2].
      cbn [snd] in *. apply Forall_app. split.
      * destruct Ht1 as [->| ->]; repeat constructor.
        exists record. split; [now left | reflexivity].
      * eapply Forall_impl; [|exact IH].
        intros req (r & Hin & Hreq). exists r. split; [now right | exact Hreq].
    + cbn [snd]. destruct Ht1 as [->| ->]; repeat constructor.
      exists record. split; [now left | reflexivity].
Qed.

Lemma set_Comment_twice (comment comment' : string) (r : DNSRecord) :
  set_Comment comment (set_Comment comment' r) = set_Comment comment r.
Proof. reflexivity. Qed.

(** Codecs that agree up to the comment yield the same stamped records. *)
Lemma encodeTargets_agree (encode encode' : Endpoint -> string -> result DNSRecord)
    (ep : Endpoint) (comment : string) :
  agreeUpToComment encode encode' ep ->
  forall targets,
    match encodeTargets encode ep targets, encodeTargets encode' ep targets with
    | Ok records, Ok records' =>
        map (set_Comment comment) records = map (set_Comment comment) records'
    | Err e, Err e' => e = e'
    | _, _ => False
    end.
Proof.
  intros Hagree. induction targets as [|target rest IH]; cbn [encodeTargets].
  - reflexivity.
  - specialize (Hagree target).
    destruct (encode ep target) as [r|e], (encode' ep target) as [r'|e'];
      try contradiction; [|exact Hagree].
    destruct (encodeTargets encode ep rest) as [rs|e],
             (encodeTargets encode' ep rest) as [rs'|e'];
      try contradiction; [|exact IH].
    cbn [map]. rewrite IH. f_equal.
    rewrite <- (set_Comment_twice comment EmptyString r), Hagree.
    reflexivity.
Qed.

(** C6: every request [CreateDNSRecords] hands to the transport is the PUT
    of a record whose comment is [DefaultComment], and what it does and
    returns is the same whatever comment the codec took from the caller:
    the caller's comment is overridden, never a cause of error. *)
Theorem CreateDNSRecords_stamps_comment :
  forall (encode : Endpoint -> string -> result DNSRecord)
         (c : MikrotikApiClient) (ep : Endpoint) (w : World),
    Forall (fun req => exists record,
                req = putRequest c record
                /\ Comment record = DefaultComment (defaults c))
           (snd (CreateDNSRecords Do newRequestErr encode c ep w))
    /\ (forall encode',
           agreeUpToComment encode encode' ep ->
           CreateDNSRecords Do newRequestErr encode' c ep w
           = CreateDNSRecords Do newRequestErr encode c ep w).
Proof.
  intros encode c ep w. split.
  - unfold CreateDNSRecords.
    destruct (NewDNSRecords encode ep) as [records|err]; [|constructor].
    cbv zeta. eapply Forall_impl; [|apply createLoop_calls].
    intros req (r & Hin & ->). exists r. split; [reflexivity|].
    apply in_map_iff in Hin. destruct Hin as (r0 & <- & _). reflexivity.
  - intros encode' Hagree. unfold CreateDNSRecords, NewDNSRecords.
    pose proof (encodeTargets_agree encode encode' ep
                  (DefaultComment (defaults c)) Hagree (Targets ep)) as H.
    destruct (encodeTargets encode ep (Targets ep)) as [rs|e],
             (encodeTargets encode' ep (Targets ep)) as [rs'|e'];
      try contradiction.
    + cbv zeta. now rewrite H.
    + now subst.
Qed.

End StampFacts.

Lemma CreateDNSRecords_stamps_comment_witness :
  Forall (fun req => exists record,
              req = putRequest testClient record
              /\ Comment record = "external-dns")
         (snd (CreateDNSRecords ScriptedServer.Do noRequestErr encodeAddress
                 testClient fiveTargets thirdCreateFails))
  /\ CreateDNSRecords ScriptedServer.Do noRequestErr
       (encodeAddressTagged "external-dns") testClient fiveTargets thirdCreateFails
     = CreateDNSRecords ScriptedServer.Do noRequestErr encodeAddress
         testClient fiveTargets thirdCreateFails.
Proof.
  split.
  - apply (proj1 (CreateDNSRecords_stamps_comment
                    ScriptedServer.World ScriptedServer.Do noRequestErr
                    encodeAddress testClient fiveTargets thirdCreateFails)).
  - apply (proj2 (CreateDNSRecords_stamps_comment
                    ScriptedServer.World ScriptedServer.Do noRequestErr
                    encodeAddress testClient fiveTargets thirdCreateFails)).
    intros target. unfold encodeAddressTagged.
    destruct (encodeAddress fiveTargets target); reflexivity.
Defined.

(** ** Runs against the remotes of the tests *)

(** C7, as the specification words it, fails: the error of a DELETE of
    [ip/dns/static/*1] answered 500 is [request failed: 500 Internal Server
    Error], which names neither the method nor the path. *)
Lemma doRequest_failure_omits_method_and_path :
  ~ failureCarriesContext ScriptedServer.Do noRequestErr testClient
      "DELETE" "ip/dns/static/*1" [] None answers500.
Proof.
  intros H.
  destruct (H (http_Error "Internal Server Error" 500) [] eq_refl eq_refl)
    as (e & He & [n Hn] & _).
  - right. vm_compute. reflexivity.
  - vm_compute in He. injection He as <-.
    vm_compute in Hn. discriminate Hn.
Qed.

Lemma doRequest_failure_carries_status_witness :
  doRequest ScriptedServer.Do noRequestErr testClient
    "DELETE" "ip/dns/static/*1" [] None answers500
  = (Err "request failed: 500 Internal Server Error", [],
     [deleteRequest testClient "*1"])
  /\ carries "request failed: 500 Internal Server Error"
       "500 Internal Server Error".
Proof.
  apply (doRequest_failure_carries_status
           ScriptedServer.World ScriptedServer.Do noRequestErr testClient
           "DELETE" "ip/dns/static/*1" [] None answers500 []
           (http_Error "Internal Server Error" 500)).
  - reflexivity.
  - reflexivity.
  - right. vm_compute. reflexivity.
Defined.

Lemma deleteLoop_reverifies_before_delete_witness :
  deleteLoop (UnitTestServer.Do serverURL twoOwned) noRequestErr testClient
    twoTargets 1 [staleCandidate] 0%nat
  = (Ok tt, 1%nat,
     [fetchRequest testClient "multi.example.com";
      deleteRequest testClient "*2"]).
Proof.
  pose proof (deleteLoop_reverifies_before_delete
                UnitTestServer.World (UnitTestServer.Do serverURL twoOwned)
                noRequestErr testClient twoTargets 1 staleCandidate []
                0%nat 0%nat (Ok twoOwned)
                [fetchRequest testClient "multi.example.com"]
                (Nat.lt_0_succ 0) eq_refl) as [_ H].
  change (find (recordsMatch staleCandidate) twoOwned)
    with (Some (aRecord "*2" "multi.example.com" "5.6.7.8" "external-dns")) in H.
  cbv iota in H. destruct H as (_ & _ & H).
  destruct (H (Ok (respond 200 (JOther EmptyString))) 1%nat
              [deleteRequest testClient "*2"] eq_refl) as [_ H'].
  exact (H' (Ok tt) 1%nat [] eq_refl).
Defined.

Lemma DeleteDNSRecords_request_count_witness :
  (length (snd (DeleteDNSRecords (UnitTestServer.Do serverURL twoOwned)
                  noRequestErr testClient twoTargets 0%nat)) <= 1 + (2 * 2 - 1))%nat
  /\ length (snd (DeleteDNSRecords (UnitTestServer.Do serverURL twoOwned)
                    noRequestErr testClient twoTargets 0%nat))
     = (1 + (2 * 2 - 1))%nat.
Proof.
  destruct (DeleteDNSRecords_request_count
              UnitTestServer.World (UnitTestServer.Do serverURL twoOwned)
              noRequestErr testClient twoTargets 0%nat 0%nat 2%nat twoOwned
              [fetchRequest testClient "multi.example.com"]
              [fetchRequest testClient "multi.example.com";
               deleteRequest testClient "*1";
               fetchRequest testClient "multi.example.com";
               deleteRequest testClient "*2"]
              (Ok tt) eq_refl (le_S 1 1 (le_n 1)) eq_refl) as [Hle Heq].
  split; [exact Hle | exact (Heq eq_refl eq_refl)].
Defined.

(** ** The ownership boundary *)

(** Every candidate of the first loop carries the ownership tag. *)
Lemma recordsToDelete_owned (c : MikrotikApiClient) (ep : Endpoint)
    (allRecords : list DNSRecord) (r : DNSRecord) :
  In r (recordsToDelete c ep allRecords) ->
  Comment r = DefaultComment (defaults c).
Proof.
  unfold recordsToDelete. rewrite filter_In, isDeleteCandidate_true. tauto.
Qed.

(** C2 does not hold of the loop past the first candidate: against the
    remote of the unit test, which answers every fetch with all its records,
    the record entered by hand, whose comment is not the ownership tag and
    which is no candidate, is the first fetched record the matcher accepts
    for the second candidate, and the delete request is made for its ID. *)
Theorem DeleteDNSRecords_deletes_record_of_other_comment :
  In manualRecord mixedOwnership
  /\ Comment manualRecord <> DefaultComment (defaults testClient)
  /\ ~ In manualRecord (recordsToDelete testClient twoTargets mixedOwnership)
  /\ DeleteDNSRecords (UnitTestServer.Do serverURL mixedOwnership) noRequestErr
       testClient twoTargets 0%nat
     = (Ok tt, 2%nat,
        [fetchRequest testClient "multi.example.com";
         deleteRequest testClient "*1";
         fetchRequest testClient "multi.example.com";
         deleteRequest testClient (ID manualRecord)]).
Proof.
  split; [right; left; reflexivity|].
  split; [discriminate|].
  split; [|reflexivity].
  intros H. apply recordsToDelete_owned in H. discriminate H.
Qed.

(** * Further properties of the client and of its callers *)

(** ** The transport and the reads *)

Section TransportFacts.

Variable World : Type.
Variable Do : Request -> World -> result Response * World.
Variable newRequestErr : string -> string -> option error.
Variable json_Decode_info : Payload -> result MikrotikSystemInfo.

Local Notation doRequest' := (doRequest Do newRequestErr).
Local Notation GetDNSRecordsByName' := (GetDNSRecordsByName Do newRequestErr).
Local Notation GetSystemInfo' := (GetSystemInfo Do newRequestErr json_Decode_info).

(** X1: [doRequest] makes at most one round trip and never retries; the
    request it makes is for [BaseUrl/rest/path] with the client's
    credentials; it makes none, and leaves the remote untouched, exactly
    when [http.NewRequest] refuses; a network error is returned as it is and
    a 2xx response is returned unchanged. *)
Theorem doRequest_one_authenticated_round_trip :
  forall (c : MikrotikApiClient) (method path : string)
         (queryParams : url_Values) (body : option Payload) (w w' : World)
         (r : result Response) (t : list Request),
    doRequest' c method path queryParams body w = (r, w', t) ->
    (length t <= 1)%nat
    /\ (forall req, In req t ->
          req = requestOf c method path queryParams body
          /\ URL req = BaseUrl (config c) ++ "/rest/" ++ path
          /\ BasicAuth req = Some (Username (config c), Password (config c)))
    /\ (t = [] <->
        newRequestErr method (BaseUrl (config c) ++ "/rest/" ++ path) <> None)
    /\ (t = [] -> w' = w)
    /\ (forall err w1,
          newRequestErr method (BaseUrl (config c) ++ "/rest/" ++ path) = None ->
          Do (requestOf c method path queryParams body) w = (Err err, w1) ->
          r = Err err /\ w' = w1)
    /\ (forall resp w1,
          newRequestErr method (BaseUrl (config c) ++ "/rest/" ++ path) = None ->
          Do (requestOf c method path queryParams body) w = (Ok resp, w1) ->
          status2xx resp ->
          r = Ok resp /\ w' = w1).
Proof.
  intros c method path queryParams body w w' r t H.
  rewrite doRequest_cases in H.
  destruct (newRequestErr method (BaseUrl (config c) ++ "/rest/" ++ path))
    as [e|] eqn:Hreq.
  - inversion H; subst. cbn [length].
    split; [lia|]. split; [intros req []|].
    split; [split; [discriminate | reflexivity]|].
    split; [reflexivity|]. split; intros; discriminate.
  - cbv zeta in H.
    destruct (Do (requestOf c method path queryParams body) w)
      as [[resp|err] w1] eqn:Hdo.
    + assert (Ht : t = [requestOf c method path queryParams body] /\ w' = w1).
      { destruct ((StatusCode resp <? 200)%Z || (StatusCode resp >? 299)%Z);
          inversion H; auto. }
      destruct Ht as [-> ->]. cbn [length].
      split; [lia|].
      split; [intros req [<-|[]]; repeat split|].
      split; [split; [discriminate | intros Hne; now elim Hne]|].
      split; [discriminate|].
      split; [intros err w2 _ E; discriminate E|].
      intros resp' w2 _ E H2xx. inversion E; subst.
      rewrite (inside2xx_test _ H2xx) in H. inversion H. auto.
    + inversion H; subst. cbn [length].
      split; [lia|].
      split; [intros req [<-|[]]; repeat split|].
      split; [split; [discriminate | intros Hne; now elim Hne]|].
      split; [discriminate|].
      split; [intros err' w2 _ E; inversion E; auto|].
      intros resp w2 _ E. discriminate E.
Qed.

Lemma doRequest_failure_status_only (c : MikrotikApiClient)
    (method path : string) (queryParams : url_Values) (body : option Payload)
    (w w' : World) (resp : Response) :
  newRequestErr method (BaseUrl (config c) ++ "/rest/" ++ path) = None ->
  Do (requestOf c method path queryParams body) w = (Ok resp, w') ->
  statusOutside2xx resp ->
  doRequest' c method path queryParams body w
  = (Err ("request failed: " ++ Status resp), w',
     [requestOf c method path queryParams body]).
Proof.
  intros Hreq Hdo Hout.
  rewrite doRequest_cases, Hreq. cbv zeta. rewrite Hdo.
  apply outside2xx_test in Hout. now rewrite Hout.
Qed.

Lemma GetSystemInfo_cases (c : MikrotikApiClient) (w : World) :
  GetSystemInfo' c w =
  match doRequest' c "GET" "system/resource" [] None w with
  | (Err err, w', t) => (Err err, w', t)
  | (Ok resp, w', t) => (json_Decode_info (RespBody resp), w', t)
  end.
Proof.
  unfold GetSystemInfo, bind, lift.
  destruct (doRequest' c "GET" "system/resource" [] None w)
    as [[[resp|err] w'] t]; [|reflexivity].
  now rewrite app_nil_r.
Qed.

(** X2: the two reads of the client, [GetDNSRecordsByName] and
    [GetSystemInfo], make at most one request each and only GET requests,
    with no body; when the remote answers outside 2xx they fail with the
    transport's error and decode nothing. *)
Theorem reads_make_one_GET :
  forall (c : MikrotikApiClient) (name : string) (w : World),
    ((length (snd (GetDNSRecordsByName' c name w)) <= 1)%nat
     /\ Forall (fun req => Method req = "GET" /\ ReqBody req = None)
               (snd (GetDNSRecordsByName' c name w))
     /\ (length (snd (GetSystemInfo' c w)) <= 1)%nat
     /\ Forall (fun req => Method req = "GET" /\ ReqBody req = None
                           /\ Query req = [])
               (snd (GetSystemInfo' c w)))
    /\ (forall resp w1,
          Do (fetchRequest c name) w = (Ok resp, w1) ->
          newRequestErr "GET" (BaseUrl (config c) ++ "/rest/" ++ "ip/dns/static")
          = None ->
          statusOutside2xx resp ->
          GetDNSRecordsByName' c name w
          = (Err ("request failed: " ++ Status resp), w1, [fetchRequest c name]))
    /\ (forall resp w1,
          Do (requestOf c "GET" "system/resource" [] None) w = (Ok resp, w1) ->
          newRequestErr "GET" (BaseUrl (config c) ++ "/rest/" ++ "system/resource")
          = None ->
          statusOutside2xx resp ->
          GetSystemInfo' c w
          = (Err ("request failed: " ++ Status resp), w1,
             [requestOf c "GET" "system/resource" [] None])).
Proof.
  intros c name w. split; [|split].
  - destruct (GetDNSRecordsByName' c name w) as [[r1 w1] t1] eqn:E1.
    destruct (GetDNSRecordsByName_calls _ _ _ _ _ _ _ _ _ E1) as [Ht1 _].
    rewrite GetSystemInfo_cases.
    destruct (doRequest' c "GET" "system/resource" [] None w)
      as [[r2 w2] t2] eqn:E2.
    destruct (doRequest_calls _ _ _ _ _ _ _ _ _ _ _ _ E2) as [Ht2 _].
    assert (E : snd (match r2 with
                     | Ok resp => (json_Decode_info (RespBody resp), w2, t2)
                     | Err err => (Err err, w2, t2)
                     end) = t2) by (destruct r2; reflexivity).
    rewrite E. cbn [snd].
    destruct Ht1 as [->| ->], Ht2 as [->| ->]; cbn [length];
      repeat split; try lia; repeat constructor.
  - intros resp w1 Hdo Hreq Hout.
    rewrite GetDNSRecordsByName_cases.
    now rewrite (doRequest_failure_status_only c "GET" "ip/dns/static"
                   (fetchQuery c name) None w w1 resp Hreq Hdo Hout).
  - intros resp w1 Hdo Hreq Hout.
    rewrite GetSystemInfo_cases.
    now rewrite (doRequest_failure_status_only c "GET" "system/resource"
                   [] None w w1 resp Hreq Hdo Hout).
Qed.

End TransportFacts.

Lemma doRequest_one_authenticated_round_trip_witness :
  (length [deleteRequest testClient "*1"] <= 1)%nat
  /\ forall req, In req [deleteRequest testClient "*1"] ->
       req = requestOf testClient "DELETE" "ip/dns/static/*1" [] None
       /\ URL req = BaseUrl (config testClient) ++ "/rest/" ++ "ip/dns/static/*1"
       /\ BasicAuth req = Some (mockUsername, mockPassword).
Proof.
  destruct (doRequest_one_authenticated_round_trip
              ScriptedServer.World ScriptedServer.Do noRequestErr testClient
              "DELETE" "ip/dns/static/*1" [] None answers500 []
              (Err "request failed: 500 Internal Server Error")
              [deleteRequest testClient "*1"] eq_refl) as (H1 & H2 & _).
  split; [exact H1 | exact H2].
Defined.

Lemma reads_make_one_GET_witness :
  GetDNSRecordsByName ScriptedServer.Do noRequestErr testClient
    "multi.example.com" answers500
  = (Err "request failed: 500 Internal Server Error", [],
     [fetchRequest testClient "multi.example.com"]).
Proof.
  apply (proj1 (proj2 (reads_make_one_GET
                         ScriptedServer.World ScriptedServer.Do noRequestErr
                         (fun _ => Err "no system information")
                         testClient "multi.example.com" answers500))
           (http_Error "Internal Server Error" 500) []).
  - reflexivity.
  - reflexivity.
  - right. vm_compute. reflexivity.
Defined.

(** ** More on the deletion *)

Section DeleteFacts.

Variable World : Type.
Variable Do : Request -> World -> result Response * World.
Variable newRequestErr : string -> string -> option error.

Local Notation doRequest' := (doRequest Do newRequestErr).
Local Notation GetDNSRecordsByName' := (GetDNSRecordsByName Do newRequestErr).
Local Notation deleteLoop' := (deleteLoop Do newRequestErr).
Local Notation DeleteDNSRecords' := (DeleteDNSRecords Do newRequestErr).

Lemma doRequest_delete_requests (c : MikrotikApiClient) (ep : Endpoint)
    (id : string) (w : World) :
  Forall (deletionRequest c ep)
    (snd (doRequest' c "DELETE" ("ip/dns/static/" ++ id) [] None w)).
Proof.
  destruct (doRequest' c "DELETE" ("ip/dns/static/" ++ id) [] None w)
    as [[r w'] t] eqn:E.
  destruct (doRequest_calls _ _ _ _ _ _ _ _ _ _ _ _ E) as [[->| ->] _];
    cbn [snd]; constructor; [|constructor].
  right. now exists id.
Qed.

Lemma fetch_requests (c : MikrotikApiClient) (ep : Endpoint) (w : World) :
  Forall (deletionRequest c ep)
    (snd (GetDNSRecordsByName' c (DNSName ep) w)).
Proof.
  destruct (GetDNSRecordsByName' c (DNSName ep) w) as [[r w'] t] eqn:E.
  destruct (GetDNSRecordsByName_calls _ _ _ _ _ _ _ _ _ E) as [[->| ->] _];
    cbn [snd]; constructor; [|constructor].
  now left.
Qed.

Lemma deleteLoop_requests (c : MikrotikApiClient) (ep : Endpoint) :
  forall (records : list DNSRecord) (i : nat) (w : World),
    Forall (deletionRequest c ep) (snd (deleteLoop' c ep i records w)).
Proof.
  induction records as [|record rest IH]; intros i w.
  - constructor.
  - destruct i as [|i].
    + rewrite deleteLoop_first.
      pose proof (doRequest_delete_requests c ep (ID record) w) as Hd.
      destruct (doRequest' c "DELETE" ("ip/dns/static/" ++ ID record) [] None w)
        as [[[resp|err] w2] t2]; cbn [snd] in Hd; [|exact Hd].
      specialize (IH 1%nat w2).
      destruct (deleteLoop' c ep 1 rest w2) as [[r3 w3] t3].
      cbn [snd] in *. apply Forall_app. now split.
    + rewrite deleteLoop_later.
      pose proof (fetch_requests c ep w) as Hf.
      destruct (GetDNSRecordsByName' c (DNSName ep) w)
        as [[[currentRecords|err] w1] t1]; cbn [snd] in Hf; [|exact Hf].
      destruct (find (recordsMatch record) currentRecords) as [u|].
      * pose proof (doRequest_delete_requests c ep (ID u) w1) as Hd.
        destruct (doRequest' c "DELETE" ("ip/dns/static/" ++ ID u) [] None w1)
          as [[[resp|err] w2] t2]; cbn [snd] in Hd.
        -- specialize (IH (S (S i)) w2).
           destruct (deleteLoop' c ep (S (S i)) rest w2) as [[r3 w3] t3].
           cbn [snd] in *. rewrite !Forall_app. auto.
        -- cbn [snd]. apply Forall_app. now split.
      * specialize (IH (S (S i)) w1).
        destruct (deleteLoop' c ep (S (S i)) rest w1) as [[r3 w3] t3].
        cbn [snd] in *. apply Forall_app. now split.
Qed.

(** X3: whatever the remote answers, [DeleteDNSRecords] requests nothing but
    the fetch by name and DELETEs of record paths: it never creates or
    rewrites a record, so what it deleted before an error stays deleted;
    and it makes no more DELETE requests than the initial fetch gave
    candidates. *)
Theorem DeleteDNSRecords_only_fetches_and_deletes :
  forall (c : MikrotikApiClient) (ep : Endpoint) (w : World),
    Forall (deletionRequest c ep) (snd (DeleteDNSRecords' c ep w))
    /\ filter isPut (snd (DeleteDNSRecords' c ep w)) = []
    /\ (forall allRecords w1 t1,
          GetDNSRecordsByName' c (DNSName ep) w = (Ok allRecords, w1, t1) ->
          (length (filter isDelete (snd (DeleteDNSRecords' c ep w)))
           <= length (recordsToDelete c ep allRecords))%nat).
Proof.
  intros c ep w.
  assert (Hall : Forall (deletionRequest c ep) (snd (DeleteDNSRecords' c ep w))).
  { rewrite DeleteDNSRecords_cases.
    pose proof (fetch_requests c ep w) as Hf.
    destruct (GetDNSRecordsByName' c (DNSName ep) w)
      as [[[allRecords|err] w1] t1]; cbn [snd] in Hf; [|exact Hf].
    destruct (recordsToDelete c ep allRecords) as [|record rest]; [exact Hf|].
    pose proof (deleteLoop_requests c ep (record :: rest) 0 w1) as Hl.
    destruct (deleteLoop' c ep 0 (record :: rest) w1) as [[r w2] t2].
    cbn [snd] in *. apply Forall_app. now split. }
  split; [exact Hall|]. split.
  - induction Hall as [|req t [->|[id ->]] _ IH]; [reflexivity | exact IH | exact IH].
  - intros allRecords w1 t1 Hget.
    rewrite DeleteDNSRecords_cases, Hget.
    destruct (GetDNSRecordsByName_calls _ _ _ _ _ _ _ _ _ Hget) as [_ Ht1].
    specialize (Ht1 eq_refl). subst t1.
    destruct (recordsToDelete c ep allRecords) as [|record rest];
      [cbn; lia|].
    rewrite deleteLoop_first.
    destruct (doRequest' c "DELETE" ("ip/dns/static/" ++ ID record) [] None w1)
      as [[[resp|err] w2] t2] eqn:Hdel;
      destruct (doRequest_calls _ _ _ _ _ _ _ _ _ _ _ _ Hdel) as [Ht2 _].
    + destruct (deleteLoop' c ep 1 rest w2) as [[r3 w3] t3] eqn:Hrest.
      apply deleteLoop_later_calls in Hrest. destruct Hrest as (_ & B & _).
      cbn [snd]. destruct Ht2 as [->| ->]; cbn [app];
        rewrite ?filter_isDelete_fetch, ?filter_isDelete_delete;
        cbn [length]; lia.
    + cbn [snd]. destruct Ht2 as [->| ->]; cbn [app];
        rewrite ?filter_isDelete_fetch, ?filter_isDelete_delete;
        cbn [length filter]; lia.
Qed.

(** X4: the first candidate is deleted under the ID the initial fetch gave
    it, with no fetch in between; when that DELETE fails its error is
    returned as it is and nothing more is requested, however many
    candidates remain; when the initial fetch fails the error is returned
    behind [failed to get DNS records for <name>: ] and no DELETE is
    made. *)
Theorem DeleteDNSRecords_first_candidate :
  forall (c : MikrotikApiClient) (ep : Endpoint) (w w1 : World)
         (r1 : result (list DNSRecord)) (t1 : list Request),
    GetDNSRecordsByName' c (DNSName ep) w = (r1, w1, t1) ->
    match r1 with
    | Err err =>
        DeleteDNSRecords' c ep w
        = (Err (("failed to get DNS records for " ++ DNSName ep ++ ": ") ++ err),
           w1, t1)
        /\ filter isDelete t1 = []
    | Ok allRecords =>
        forall record rest,
          recordsToDelete c ep allRecords = record :: rest ->
          forall r2 w2 t2,
            doRequest' c "DELETE" ("ip/dns/static/" ++ ID record) [] None w1
            = (r2, w2, t2) ->
            (t2 = [] \/ t2 = [deleteRequest c (ID record)])
            /\ match r2 with
               | Err err =>
                   DeleteDNSRecords' c ep w = (Err err, w2, (t1 ++ t2)%list)
               | Ok _ =>
                   forall r3 w3 t3,
                     deleteLoop' c ep 1 rest w2 = (r3, w3, t3) ->
                     DeleteDNSRecords' c ep w
                     = (r3, w3, (t1 ++ t2 ++ t3)%list)
               end
    end.
Proof.
  intros c ep w w1 r1 t1 Hget.
  rewrite DeleteDNSRecords_cases, Hget.
  destruct r1 as [allRecords|err].
  - intros record rest Hcand r2 w2 t2 Hdel.
    rewrite Hcand, deleteLoop_first, Hdel.
    split; [exact (proj1 (doRequest_calls _ _ _ _ _ _ _ _ _ _ _ _ Hdel))|].
    destruct r2 as [resp|err]; [|reflexivity].
    intros r3 w3 t3 Hrest. now rewrite Hrest.
  - split; [reflexivity|].
    destruct (GetDNSRecordsByName_calls _ _ _ _ _ _ _ _ _ Hget) as [[->| ->] _];
      reflexivity.
Qed.

End DeleteFacts.

(** ** Exactly what a deletion removes *)

Lemma Permutation_filter_same {A} (f : A -> bool) (l l' : list A) :
  Permutation l l' -> Permutation (filter f l) (filter f l').
Proof.
  induction 1 as [|x l l' _ IH|x y l|l l' l'' _ IH1 _ IH2]; cbn [filter].
  - constructor.
  - destruct (f x); [now constructor | exact IH].
  - destruct (f x), (f y); try apply Permutation_refl. apply perm_swap.
  - now transitivity (filter f l').
Qed.

Lemma filter_absorb {A} (p q : A -> bool) (l : list A) :
  (forall x, In x l -> p x = true -> q x = true) ->
  filter p (filter q l) = filter p l.
Proof.
  induction l as [|x l IH]; intros H; [reflexivity|].
  cbn [filter].
  assert (IH' : filter p (filter q l) = filter p l)
    by (apply IH; intros y Hy; apply H; now right).
  destruct (q x) eqn:Hq; cbn [filter].
  - now rewrite IH'.
  - destruct (p x) eqn:Hp; [|exact IH'].
    rewrite (H x (or_introl eq_refl) Hp) in Hq. discriminate.
Qed.

Lemma NoDup_ID_inj (l : list DNSRecord) (x u : DNSRecord) :
  NoDup (map ID l) -> In x l -> In u l -> ID x = ID u -> x = u.
Proof.
  induction l as [|y l IH]; intros Hnd Hx Hu E; [contradiction|].
  cbn [map] in Hnd. inversion Hnd as [|? ? Hnotin Hnd']; subst.
  destruct Hx as [->|Hx], Hu as [->|Hu]; auto.
  - exfalso. apply Hnotin. rewrite E. now apply in_map.
  - exfalso. apply Hnotin. rewrite <- E. now apply in_map.
Qed.

Lemma NoDup_ID_filter (f : DNSRecord -> bool) (l : list DNSRecord) :
  NoDup (map ID l) -> NoDup (map ID (filter f l)).
Proof.
  induction l as [|y l IH]; intros Hnd; [constructor|].
  cbn [map] in Hnd. inversion Hnd as [|? ? Hnotin Hnd']; subst.
  cbn [filter]. destruct (f y); [|now apply IH].
  cbn [map]. constructor; [|now apply IH].
  intros Hin. apply Hnotin. apply in_map_iff in Hin.
  destruct Hin as (z & Hz & Hzin). apply filter_In in Hzin.
  rewrite <- Hz. apply in_map. tauto.
Qed.

Lemma map_eraseID_filter (p : DNSRecord -> bool) (l : list DNSRecord) :
  (forall x, p (eraseID x) = p x) ->
  map eraseID (filter p l) = filter p (map eraseID l).
Proof.
  intros Hp. induction l as [|x l IH]; [reflexivity|].
  cbn [filter map]. rewrite Hp. destruct (p x); cbn [map]; now rewrite IH.
Qed.

Section ExactFacts.

Variable World : Type.
Variable Do : Request -> World -> result Response * World.
Variable newRequestErr : string -> string -> option error.
Variable c : MikrotikApiClient.
Variable ep : Endpoint.
Variable store : World -> list DNSRecord.
Variable Inv : World -> Prop.

Hypothesis honest : HonestRemote Do newRequestErr c store Inv.
Hypothesis unique : UniqueIDs store Inv.

Local Notation deleteLoop' := (deleteLoop Do newRequestErr).
Local Notation kept := (fun x => negb (ownedCandidate c ep x)).

(** Deleting the identifier of a record a deletion is after removes none
    of the other records. *)
Lemma kept_after_delete (u : DNSRecord) (stored stored' : list DNSRecord) :
  NoDup (map ID stored) ->
  In u stored ->
  ownedCandidate c ep u = true ->
  Permutation (map eraseID stored')
    (map eraseID (filter (fun x => negb (ID x =? ID u)) stored)) ->
  Permutation (map eraseID (filter kept stored'))
    (map eraseID (filter kept stored)).
Proof.
  intros Hnd Hin Howned Hperm.
  rewrite (map_eraseID_filter kept stored') by reflexivity.
  rewrite (Permutation_filter_same kept _ _ Hperm).
  rewrite <- map_eraseID_filter by reflexivity.
  rewrite filter_absorb; [apply Permutation_refl|].
  intros x Hx Hkept. cbv beta in *.
  destruct (String.eqb_spec (ID x) (ID u)) as [E|]; [|reflexivity].
  rewrite (NoDup_ID_inj stored x u Hnd Hx Hin E), Howned in Hkept.
  discriminate.
Qed.

Lemma exact_deleteLoop_later :
  forall (rest : list DNSRecord) (i : nat) (w : World),
    Inv w ->
    Forall (fun r => isDeleteCandidate c ep r = true) rest ->
    accountedFor c ep (store w) rest ->
    exists w' t,
      deleteLoop' c ep (S i) rest w = (Ok tt, w', t)
      /\ Inv w'
      /\ filter (ownedCandidate c ep) (store w') = []
      /\ Permutation (map eraseID (filter kept (store w')))
           (map eraseID (filter kept (store w))).
Proof.
  induction rest as [|r rest IH]; intros i w HInv Hcand Hacc.
  - exists w, []. rewrite deleteLoop_nil.
    split; [reflexivity|]. split; [exact HInv|].
    split; [now apply nothing_owned_left | apply Permutation_refl].
  - inversion Hcand as [|r' rest' Hr Hrest]; subst.
    destruct (honest_fetch_run _ _ _ c store Inv honest (DNSName ep) w HInv)
      as (w1 & fetched & Hget & Hperm & Hstore & HInv1).
    rewrite deleteLoop_later, Hget.
    destruct (find (recordsMatch r) fetched) as [u|] eqn:Hfind.
    + pose proof (find_some _ _ Hfind) as [Hin Hmatch].
      destruct (ownedCandidate_fetched c ep fetched (store w) r u
                  Hperm Hr Hin Hmatch) as [Hstored Howned].
      destruct (honest_delete_run _ _ _ c store Inv honest (ID u) w1 HInv1)
        as (resp & w2 & Hdel & Hperm2 & HInv2).
      rewrite Hdel. rewrite Hstore in Hperm2.
      pose proof (accountedFor_deleted c ep r u rest (store w) (store w2)
                    Hstored Howned Hmatch Hacc Hperm2) as Hacc2.
      pose proof (kept_after_delete u (store w) (store w2)
                    (unique w HInv) Hstored Howned Hperm2) as Hkept.
      destruct (IH (S i) w2 HInv2 Hrest Hacc2)
        as (w' & t & Hloop & HInv' & Hnone & Hkept').
      rewrite Hloop. eexists _, _. split; [reflexivity|].
      split; [exact HInv'|]. split; [exact Hnone|].
      now transitivity (map eraseID (filter kept (store w2))).
    + pose proof (accountedFor_skipped c ep r rest (store w) fetched
                    Hperm Hfind Hacc) as Hacc1.
      rewrite <- Hstore in Hacc1.
      destruct (IH (S i) w1 HInv1 Hrest Hacc1)
        as (w' & t & Hloop & HInv' & Hnone & Hkept').
      rewrite Hloop, Hstore in *. eexists _, _. split; [reflexivity|]. auto.
Qed.

Lemma filter_kept_all (stored : list DNSRecord) :
  filter (ownedCandidate c ep) stored = [] -> filter kept stored = stored.
Proof.
  induction stored as [|x l IH]; intros H; [reflexivity|].
  cbn [filter] in *. destruct (ownedCandidate c ep x); [discriminate|].
  cbn [negb]. now rewrite IH.
Qed.

(** X5: against a remote that honours fetches and deletes and keeps the
    identifiers of its records pairwise different, with no other actor at
    work, [DeleteDNSRecords] ends without error and the records left are
    exactly the ones it is not after: every stored record that carries the
    ownership tag, has the name and kind of the endpoint and, when targets
    are given, a target among them is gone, and every other record is still
    there, up to the order and the identifiers the remote gives them. *)
Theorem DeleteDNSRecords_removes_exactly_the_candidates :
  forall w : World,
    Inv w ->
    exists (w' : World) (t : list Request),
      DeleteDNSRecords Do newRequestErr c ep w = (Ok tt, w', t)
      /\ Inv w'
      /\ Permutation (map eraseID (store w'))
           (map eraseID
              (filter (fun x => negb (ownedCandidate c ep x)) (store w))).
Proof.
  intros w HInv.
  destruct (honest_fetch_run _ _ _ c store Inv honest (DNSName ep) w HInv)
    as (w1 & fetched & Hget & Hperm & Hstore & HInv1).
  rewrite DeleteDNSRecords_cases, Hget.
  pose proof (accountedFor_fetched c ep (store w) fetched Hperm) as Hacc.
  assert (Hcand : Forall (fun r => isDeleteCandidate c ep r = true)
                    (recordsToDelete c ep fetched)).
  { apply Forall_forall. intros x Hx. now apply filter_In in Hx. }
  assert (Hsub : forall x, In x (recordsToDelete c ep fetched) -> In x fetched).
  { intros x Hx. now apply filter_In in Hx. }
  destruct (recordsToDelete c ep fetched) as [|r rest].
  - exists w1, [fetchRequest c (DNSName ep)].
    split; [reflexivity|]. split; [exact HInv1|].
    rewrite Hstore, filter_kept_all; [apply Permutation_refl|].
    now apply (nothing_owned_left c ep).
  - inversion Hcand as [|r' rest' Hr Hrest]; subst.
    destruct (ownedCandidate_fetched c ep fetched (store w) r r Hperm Hr
                (Hsub r (or_introl eq_refl)) (recordsMatch_refl r))
      as [Hstored Howned].
    destruct (honest_delete_run _ _ _ c store Inv honest (ID r) w1 HInv1)
      as (resp & w2 & Hdel & Hperm2 & HInv2).
    rewrite deleteLoop_first, Hdel. rewrite Hstore in Hperm2.
    pose proof (accountedFor_deleted c ep r r rest (store w) (store w2)
                  Hstored Howned (recordsMatch_refl r) Hacc Hperm2) as Hacc2.
    pose proof (kept_after_delete r (store w) (store w2)
                  (unique w HInv) Hstored Howned Hperm2) as Hkept.
    destruct (exact_deleteLoop_later rest 0 w2 HInv2 Hrest Hacc2)
      as (w' & t & Hloop & HInv' & Hnone & Hkept').
    rewrite Hloop. eexists _, _. split; [reflexivity|].
    split; [exact HInv'|].
    rewrite <- (filter_kept_all (store w') Hnone).
    now transitivity (map eraseID (filter kept (store w2))).
Qed.

End ExactFacts.

Lemma mock_honest_unique :
  HonestRemote (MockMikrotikServer.Do serverURL) noRequestErr testClient
    MockMikrotikServer.records mockSound
  /\ UniqueIDs MockMikrotikServer.records mockSound.
Proof.
  split; [constructor|].
  - reflexivity.
  - intros name m [Hinv Hnd].
    eexists _, m, _. rewrite (mock_fetch name m Hinv).
    split; [reflexivity|]. split; [unfold status2xx; cbn; lia|].
    split; [reflexivity|]. split; [apply Permutation_refl|].
    split; [reflexivity | now split].
  - intros id m [Hinv Hnd].
    eexists _, _. rewrite (mock_delete id m Hinv).
    split; [reflexivity|]. split; [unfold status2xx; cbn; lia|].
    split; [apply Permutation_refl|].
    split; [exact Hinv | now apply NoDup_ID_filter].
  - intros m [_ Hnd]. exact Hnd.
Qed.

Lemma twoRecordStore_sound : mockSound twoRecordStore.
Proof.
  split; [reflexivity|].
  repeat constructor; cbn; intuition discriminate.
Qed.

Lemma DeleteDNSRecords_removes_exactly_the_candidates_witness :
  exists w' t,
    DeleteDNSRecords (MockMikrotikServer.Do serverURL) noRequestErr testClient
      oneTarget twoRecordStore = (Ok tt, w', t)
    /\ mockSound w'
    /\ Permutation (map eraseID (MockMikrotikServer.records w'))
         (map eraseID
            (filter (fun x => negb (ownedCandidate testClient oneTarget x))
               (MockMikrotikServer.records twoRecordStore))).
Proof.
  exact (DeleteDNSRecords_removes_exactly_the_candidates
           MockMikrotikServer.World (MockMikrotikServer.Do serverURL)
           noRequestErr testClient oneTarget MockMikrotikServer.records
           mockSound (proj1 mock_honest_unique) (proj2 mock_honest_unique)
           twoRecordStore twoRecordStore_sound).
Defined.

Lemma DeleteDNSRecords_only_fetches_and_deletes_witness :
  (length (filter isDelete
             (snd (DeleteDNSRecords (UnitTestServer.Do serverURL twoOwned)
                     noRequestErr testClient twoTargets 0%nat)))
   <= length (recordsToDelete testClient twoTargets twoOwned))%nat.
Proof.
  apply (proj2 (proj2 (DeleteDNSRecords_only_fetches_and_deletes
                         UnitTestServer.World
                         (UnitTestServer.Do serverURL twoOwned)
                         noRequestErr testClient twoTargets 0%nat))
           twoOwned 0%nat [fetchRequest testClient "multi.example.com"]).
  reflexivity.
Defined.

Lemma DeleteDNSRecords_first_candidate_witness :
  DeleteDNSRecords ScriptedServer.Do noRequestErr testClient twoTargets
    deleteFails
  = (Err "request failed: 500 Internal Server Error", [],
     [fetchRequest testClient "multi.example.com";
      deleteRequest testClient "*1"]).
Proof.
  pose proof (DeleteDNSRecords_first_candidate
                ScriptedServer.World ScriptedServer.Do noRequestErr
                testClient twoTargets deleteFails
                [Ok (http_Error "Internal Server Error" 500)]
                (Ok twoOwned) [fetchRequest testClient "multi.example.com"]
                eq_refl) as H.
  cbv iota in H.
  destruct (H (aRecord "*1" "multi.example.com" "1.2.3.4" "external-dns")
              [aRecord "*2" "multi.example.com" "5.6.7.8" "external-dns"]
              eq_refl
              (Err "request failed: 500 Internal Server Error") []
              [deleteRequest testClient "*1"] eq_refl) as [_ H'].
  exact H'.
Defined.

(** ** More on the matcher *)

Lemma recordsMatch_sym (r u : DNSRecord) : recordsMatch r u = recordsMatch u r.
Proof.
  destruct (recordsMatch r u) eqn:E1, (recordsMatch u r) eqn:E2;
    try reflexivity.
  - apply recordsMatch_key in E1.
    assert (E : recordsMatch u r = true) by (apply recordsMatch_key; congruence).
    congruence.
  - apply recordsMatch_key in E2.
    assert (E : recordsMatch r u = true) by (apply recordsMatch_key; congruence).
    congruence.
Qed.

(** X6: [recordsMatch] is an equivalence on records: every record matches
    itself, the order of the two arguments does not matter although only
    the kind of the first selects the fields compared, and matching is
    transitive. *)
Theorem recordsMatch_equivalence :
  (forall r, recordsMatch r r = true)
  /\ (forall r u, recordsMatch r u = recordsMatch u r)
  /\ (forall r u v,
        recordsMatch r u = true -> recordsMatch u v = true ->
        recordsMatch r v = true).
Proof.
  split; [exact recordsMatch_refl|]. split; [exact recordsMatch_sym|].
  intros r u v H1 H2. apply recordsMatch_key in H1, H2.
  apply recordsMatch_key. congruence.
Qed.

Lemma recordsMatch_equivalence_witness :
  recordsMatch staleCandidate
    (aRecord "*9" "multi.example.com" "5.6.7.8" "manual") = true.
Proof.
  apply (proj2 (proj2 recordsMatch_equivalence) staleCandidate
           (aRecord "*2" "multi.example.com" "5.6.7.8" "external-dns"));
    reflexivity.
Defined.

(** X7: records the matcher identifies decode to the same target; for the
    kinds with one target field (A, AAAA, CNAME, TXT, NS) the converse
    holds of records of one name and kind, but not for MX, where two
    records with the same exchange and different preferences decode to the
    same target and do not match. *)
Theorem recordsMatch_and_target :
  (forall r u, recordsMatch r u = true -> getRecordTarget r = getRecordTarget u)
  /\ (forall r u,
        In (Type_ r) ["A"; "AAAA"; "CNAME"; "TXT"; "NS"] ->
        Name r = Name u -> Type_ r = Type_ u ->
        getRecordTarget r = getRecordTarget u ->
        recordsMatch r u = true)
  /\ (exists r u,
        Type_ r = "MX" /\ Name r = Name u /\ Type_ r = Type_ u
        /\ getRecordTarget r = getRecordTarget u
        /\ recordsMatch r u = false).
Proof.
  split; [exact recordsMatch_target|]. split.
  - intros r u Hkind Hn Ht Htarget.
    unfold recordsMatch, getRecordTarget in *.
    rewrite <- Ht in *. rewrite Hn, !String.eqb_refl. cbn [negb orb].
    cbn [In] in Hkind.
    destruct Hkind as [E|[E|[E|[E|[E|[]]]]]]; rewrite <- E in *;
      cbn in Htarget |- *; rewrite Htarget; apply String.eqb_refl.
  - exists (mxRecord "*1" "example.com" "10" "mail.example.com" "external-dns"),
           (mxRecord "*2" "example.com" "20" "mail.example.com" "external-dns").
    repeat split; reflexivity.
Qed.

Lemma recordsMatch_and_target_witness :
  getRecordTarget staleCandidate
  = getRecordTarget (aRecord "*2" "multi.example.com" "5.6.7.8" "external-dns")
  /\ recordsMatch staleCandidate
       (aRecord "*2" "multi.example.com" "5.6.7.8" "external-dns") = true.
Proof.
  split.
  - apply (proj1 recordsMatch_and_target). reflexivity.
  - apply (proj1 (proj2 recordsMatch_and_target));
      [left; reflexivity | reflexivity | reflexivity | reflexivity].
Defined.

(** X8: the first loop of [DeleteDNSRecords] cannot tell apart two records
    the matcher identifies once their comments agree: one is a candidate
    exactly when the other is.  The record the re-verification picks is thus
    a candidate whenever it carries the comment of the candidate it stands
    for. *)
Theorem isDeleteCandidate_respects_match :
  forall (c : MikrotikApiClient) (ep : Endpoint) (r u : DNSRecord),
    recordsMatch r u = true ->
    Comment r = Comment u ->
    isDeleteCandidate c ep r = isDeleteCandidate c ep u.
Proof.
  intros c ep r u Hm Hc.
  pose proof (recordsMatch_target _ _ Hm) as Htarget.
  apply recordsMatch_key in Hm. injection Hm as Hn Ht _.
  unfold isDeleteCandidate. now rewrite Hn, Ht, Hc, Htarget.
Qed.

Lemma isDeleteCandidate_respects_match_witness :
  isDeleteCandidate testClient twoTargets staleCandidate
  = isDeleteCandidate testClient twoTargets
      (aRecord "*2" "multi.example.com" "5.6.7.8" "external-dns").
Proof.
  apply isDeleteCandidate_respects_match; reflexivity.
Defined.

(** ** More on the creation *)

Section CreateMore.

Variable World : Type.
Variable Do : Request -> World -> result Response * World.
Variable newRequestErr : string -> string -> option error.
Variable encode : Endpoint -> string -> result DNSRecord.

Local Notation createSingleDNSRecord' := (createSingleDNSRecord Do newRequestErr).
Local Notation createAll' := (createAll Do newRequestErr).
Local Notation createLoop' := (createLoop Do newRequestErr).
Local Notation CreateDNSRecords' := (CreateDNSRecords Do newRequestErr encode).

Lemma createLoop_all (c : MikrotikApiClient) :
  forall (records createdRecords createdNow : list DNSRecord) (i : nat)
         (w w1 : World) (t1 : list Request),
    createAll' c records w = (Ok createdNow, w1, t1) ->
    createLoop' c i records createdRecords w
    = (((createdRecords ++ createdNow)%list, None), w1, t1).
Proof.
  induction records as [|record rest IH];
    intros createdRecords createdNow i w w1 t1 Hall.
  - inversion Hall; subst. cbn [createLoop]. now rewrite app_nil_r.
  - rewrite createAll_cons in Hall.
    destruct (createSingleDNSRecord' c record w) as [[[cr|e] w0] t0] eqn:E1;
      [|discriminate].
    destruct (createAll' c rest w0) as [[[crs|e] w0'] t0'] eqn:E2;
      [|discriminate].
    inversion Hall; subst. cbn [createLoop]. rewrite E1.
    rewrite (IH (createdRecords ++ [cr])%list crs (S i) w0 w1 t0' E2).
    now rewrite <- app_assoc.
Qed.

(** X9: when every create call succeeds, [CreateDNSRecords] returns no
    error and the records the remote echoed, one for each record
    [NewDNSRecords] made of the endpoint, having made exactly the PUTs of
    those records stamped with the ownership tag, in order. *)
Theorem CreateDNSRecords_all_created :
  forall (c : MikrotikApiClient) (ep : Endpoint)
         (records createdRecords : list DNSRecord) (w w1 : World)
         (t1 : list Request),
    NewDNSRecords encode ep = Ok records ->
    createAll' c (map (set_Comment (DefaultComment (defaults c))) records) w
    = (Ok createdRecords, w1, t1) ->
    CreateDNSRecords' c ep w = ((createdRecords, None), w1, t1)
    /\ t1 = map (putRequest c)
              (map (set_Comment (DefaultComment (defaults c))) records)
    /\ length createdRecords = length records.
Proof.
  intros c ep records createdRecords w w1 t1 Hnew Hall.
  destruct (createAll_calls _ _ _ _ _ _ _ _ _ Hall) as [Ht1 Hlen].
  rewrite length_map in Hlen.
  split; [|split; [exact Ht1 | exact Hlen]].
  unfold CreateDNSRecords. rewrite Hnew. cbv zeta.
  now rewrite (createLoop_all c _ [] createdRecords 0 w w1 t1 Hall).
Qed.

(** The loop makes at most one request for each record, and appends at most
    one record for each request. *)
Lemma createLoop_bounds (c : MikrotikApiClient) :
  forall (records createdRecords : list DNSRecord) (i : nat) (w : World),
    (length (snd (createLoop' c i records createdRecords w))
     <= length records)%nat
    /\ (length (fst (fst (fst (createLoop' c i records createdRecords w))))
        <= length createdRecords
           + length (snd (createLoop' c i records createdRecords w)))%nat.
Proof.
  induction records as [|record rest IH]; intros createdRecords i w.
  - cbn. lia.
  - cbn [createLoop].
    destruct (createSingleDNSRecord' c record w) as [[[cr|err] w1] t1] eqn:E1;
      destruct (createSingleDNSRecord_calls _ _ _ _ _ _ _ _ _ E1) as [Ht1 Hok].
    + specialize (Hok eq_refl). subst t1.
      specialize (IH (createdRecords ++ [cr])%list (S i) w1).
      destruct (createLoop' c (S i) rest (createdRecords ++ [cr])%list w1)
        as [[out w2] t2].
      cbn [fst snd app length] in *. rewrite length_app in IH.
      cbn [length] in IH. lia.
    + cbn [fst snd length]. destruct Ht1 as [->| ->]; cbn [length]; lia.
Qed.

(** X10: [CreateDNSRecords] makes at most one request for each record
    [NewDNSRecords] made of the endpoint, all of them PUTs of the record
    path, and returns at most one record for each request it made: it never
    returns a record it did not send; when the endpoint cannot be converted
    it makes no request at all and returns no record, with the conversion
    error behind [failed to convert endpoint to DNS records: ]. *)
Theorem CreateDNSRecords_bounds :
  forall (c : MikrotikApiClient) (ep : Endpoint) (w : World),
    (forall records,
        NewDNSRecords encode ep = Ok records ->
        (length (snd (CreateDNSRecords' c ep w)) <= length records)%nat)
    /\ (length (fst (fst (fst (CreateDNSRecords' c ep w))))
        <= length (snd (CreateDNSRecords' c ep w)))%nat
    /\ Forall (fun req => Method req = "PUT"
                          /\ URL req = BaseUrl (config c) ++ "/rest/ip/dns/static")
              (snd (CreateDNSRecords' c ep w))
    /\ (forall err,
          NewDNSRecords encode ep = Err err ->
          CreateDNSRecords' c ep w
          = (([], Some ("failed to convert endpoint to DNS records: " ++ err)),
             w, [])).
Proof.
  intros c ep w. unfold CreateDNSRecords.
  destruct (NewDNSRecords encode ep) as [records|e] eqn:Hnew.
  - cbv zeta.
    destruct (createLoop_bounds c
                (map (set_Comment (DefaultComment (defaults c))) records)
                [] 0 w) as [B1 B2].
    rewrite length_map in B1. cbn [length] in B2.
    split; [intros records' E; inversion E; subst; exact B1|].
    split; [lia|]. split; [|discriminate].
    eapply Forall_impl; [|apply createLoop_calls].
    intros req (r & _ & ->). split; reflexivity.
  - cbn [fst snd length]. split; [discriminate|]. split; [lia|].
    split; [constructor|]. intros err E. now inversion E.
Qed.

End CreateMore.

Lemma CreateDNSRecords_all_created_witness :
  CreateDNSRecords ScriptedServer.Do noRequestErr encodeAddress testClient
    (anEndpoint "multi.example.com" "A" ["10.0.0.1"; "10.0.0.2"])
    thirdCreateFails
  = (([created "*1" "10.0.0.1"; created "*2" "10.0.0.2"], None),
     [Ok (http_Error "Internal Server Error" 500)],
     [putRequest testClient (created EmptyString "10.0.0.1");
      putRequest testClient (created EmptyString "10.0.0.2")]).
Proof.
  apply (CreateDNSRecords_all_created
           ScriptedServer.World ScriptedServer.Do noRequestErr encodeAddress
           testClient
           (anEndpoint "multi.example.com" "A" ["10.0.0.1"; "10.0.0.2"])
           [aRecord EmptyString "multi.example.com" "10.0.0.1" EmptyString;
            aRecord EmptyString "multi.example.com" "10.0.0.2" EmptyString]);
    reflexivity.
Defined.

Lemma CreateDNSRecords_bounds_witness :
  CreateDNSRecords ScriptedServer.Do noRequestErr encodeAddress testClient
    (anEndpoint "multi.example.com" "A" ["10.0.0.1"; EmptyString])
    thirdCreateFails
  = (([], Some "failed to convert endpoint to DNS records: empty target"),
     thirdCreateFails, []).
Proof.
  apply (proj2 (proj2 (proj2 (CreateDNSRecords_bounds
                                ScriptedServer.World ScriptedServer.Do
                                noRequestErr encodeAddress testClient
                                (anEndpoint "multi.example.com" "A"
                                   ["10.0.0.1"; EmptyString])
                                thirdCreateFails)))).
  reflexivity.
Defined.

(** ** The client against the mock server of the integration tests *)

Lemma mock_keeps_general (c : MikrotikApiClient) (name : string)
    (record : DNSRecord) :
  DefaultComment (defaults c) <> EmptyString ->
  MockMikrotikServer.keeps name "A,AAAA,CNAME,TXT,MX,SRV,NS"
    (DefaultComment (defaults c)) record
  = serverFilter c name record.
Proof.
  intros Hne. apply String.eqb_neq in Hne.
  unfold MockMikrotikServer.keeps, serverFilter.
  rewrite typeListed_supported, Hne.
  change ("A,AAAA,CNAME,TXT,MX,SRV,NS" =? EmptyString) with false.
  destruct (name =? EmptyString), (Name record =? name),
    (Comment record =? DefaultComment (defaults c)),
    (isSupportedType (Type_ record)); reflexivity.
Qed.

Lemma fetchQuery_lookup (c : MikrotikApiClient) (name : string) :
  url_Get "name" (fetchQuery c name) = name
  /\ url_Get "type" (fetchQuery c name) = "A,AAAA,CNAME,TXT,MX,SRV,NS"
  /\ url_Get "comment" (fetchQuery c name) = DefaultComment (defaults c).
Proof.
  unfold fetchQuery.
  destruct (String.eqb_spec name EmptyString) as [->|Hne]; cbn; auto.
Qed.

Lemma mock_authorized (url : string) (c : MikrotikApiClient)
    (method path : string) (queryParams : url_Values) (body : option Payload) :
  mockClient url c ->
  authorized (requestOf c method path queryParams body) = true.
Proof.
  intros (_ & Hu & Hp & _). unfold authorized, requestOf. cbn [BasicAuth].
  now rewrite Hu, Hp.
Qed.

Lemma mock_fetch_general (url : string) (c : MikrotikApiClient) (name : string)
    (m : MockMikrotikServer.World) :
  mockClient url c ->
  MockMikrotikServer.returnError m = false ->
  MockMikrotikServer.Do url (fetchRequest c name) m
  = (Ok (respond 200
           (JRecords (filter (serverFilter c name)
                        (MockMikrotikServer.records m)))), m).
Proof.
  intros Hc Hinv. pose proof Hc as (Hurl & _ & _ & Hne).
  unfold MockMikrotikServer.Do.
  change (URL (fetchRequest c name))
    with (BaseUrl (config c) ++ "/rest/ip/dns/static").
  rewrite Hurl, stripPrefix_app.
  unfold fetchRequest. rewrite (mock_authorized url c _ _ _ _ Hc), Hinv.
  cbn [negb Method requestOf].
  change ("GET" =? "GET") with true.
  change ("/rest/ip/dns/static" =? "/rest/system/resource") with false.
  change ("/rest/ip/dns/static" =? "/rest/ip/dns/static") with true.
  cbn [andb].
  unfold MockMikrotikServer.handleGetDNSRecords.
  change (Query (requestOf c "GET" "ip/dns/static" (fetchQuery c name) None))
    with (fetchQuery c name).
  destruct (fetchQuery_lookup c name) as (-> & -> & ->).
  do 4 f_equal. apply filter_ext. intros r. now apply mock_keeps_general.
Qed.

Lemma mock_put_general (url : string) (c : MikrotikApiClient)
    (record : DNSRecord) (m : MockMikrotikServer.World) :
  mockClient url c ->
  MockMikrotikServer.returnError m = false ->
  MockMikrotikServer.Do url (putRequest c record) m
  = (Ok (respond 200
           (JRecord (set_ID ("*" ++ itoa (MockMikrotikServer.nextID m)) record))),
     snd (MockMethods.AddRecord record m)).
Proof.
  intros Hc Hinv. pose proof Hc as (Hurl & _ & _ & Hne).
  unfold MockMikrotikServer.Do.
  change (URL (putRequest c record))
    with (BaseUrl (config c) ++ "/rest/ip/dns/static").
  rewrite Hurl, stripPrefix_app.
  unfold putRequest. rewrite (mock_authorized url c _ _ _ _ Hc), Hinv.
  cbn [negb Method requestOf].
  change ("PUT" =? "GET") with false.
  change ("PUT" =? "PUT") with true.
  change ("/rest/ip/dns/static" =? "/rest/ip/dns/static") with true.
  cbn [andb].
  unfold MockMikrotikServer.handleCreateDNSRecord. cbn [ReqBody].
  reflexivity.
Qed.

Lemma put_In (id : string) (record : DNSRecord) (rs : list DNSRecord) :
  In record (MockMikrotikServer.put id record rs).
Proof.
  induction rs as [|r rs IH]; cbn [MockMikrotikServer.put].
  - now left.
  - destruct (ID r =? id); [now left | now right].
Qed.

(** X11: a record created on the mock server is read back: the create call
    returns the record under the identifier the server chose,
    [*<nextID>], and when the record carries the ownership tag and is of a
    supported kind, a fetch of its name, and a fetch of all names, made right
    after returns it. *)
Theorem created_record_is_fetched :
  forall (url : string) (c : MikrotikApiClient) (record : DNSRecord)
         (m : MockMikrotikServer.World),
    mockClient url c ->
    MockMikrotikServer.returnError m = false ->
    exists m',
      createSingleDNSRecord (MockMikrotikServer.Do url) noRequestErr c record m
      = (Ok (set_ID ("*" ++ itoa (MockMikrotikServer.nextID m)) record), m',
         [putRequest c record])
      /\ (Comment record = DefaultComment (defaults c) ->
          isSupportedType (Type_ record) = true ->
          forall name, name = Name record \/ name = EmptyString ->
          exists fetched,
            GetDNSRecordsByName (MockMikrotikServer.Do url) noRequestErr c name m'
            = (Ok fetched, m', [fetchRequest c name])
            /\ In (set_ID ("*" ++ itoa (MockMikrotikServer.nextID m)) record)
                  fetched).
Proof.
  intros url c record m Hc Hinv.
  exists (snd (MockMethods.AddRecord record m)).
  split.
  - rewrite createSingleDNSRecord_cases, doRequest_cases.
    cbv zeta. fold (putRequest c record).
    change (noRequestErr "PUT" (BaseUrl (config c) ++ "/rest/" ++ "ip/dns/static"))
      with (@None error).
    cbv iota. rewrite (mock_put_general url c record m Hc Hinv). reflexivity.
  - intros Hcomment Hkind name Hname.
    eexists. split.
    + apply GetDNSRecordsByName_ok
        with (resp := respond 200
                        (JRecords (filter (serverFilter c name)
                           (MockMikrotikServer.records
                              (snd (MockMethods.AddRecord record m)))))).
      * reflexivity.
      * now apply mock_fetch_general.
      * unfold status2xx. cbn. lia.
      * reflexivity.
    + apply filter_In. split; [apply put_In|].
      unfold serverFilter. cbn [set_ID Comment Name Type_].
      rewrite Hcomment, String.eqb_refl, Hkind.
      destruct Hname as [->| ->]; rewrite String.eqb_refl;
        cbn [andb orb]; rewrite ?orb_true_r; reflexivity.
Qed.

Lemma created_record_is_fetched_witness :
  exists m',
    createSingleDNSRecord (MockMikrotikServer.Do serverURL) noRequestErr
      testClient (created EmptyString "10.0.0.1") twoRecordStore
    = (Ok (created "*3" "10.0.0.1"), m',
       [putRequest testClient (created EmptyString "10.0.0.1")])
    /\ exists fetched,
         GetDNSRecordsByName (MockMikrotikServer.Do serverURL) noRequestErr
           testClient "multi.example.com" m'
         = (Ok fetched, m', [fetchRequest testClient "multi.example.com"])
         /\ In (created "*3" "10.0.0.1") fetched.
Proof.
  destruct (created_record_is_fetched serverURL testClient
              (created EmptyString "10.0.0.1") twoRecordStore)
    as (m' & Hcreate & Hfetch).
  - repeat split; discriminate.
  - reflexivity.
  - exists m'. split; [exact Hcreate|].
    apply (Hfetch eq_refl eq_refl "multi.example.com"). now left.
Defined.

(** X12: the mock server changes its state only when it accepts a PUT or a
    DELETE: a request without the expected credentials, a request made
    while an error is injected, a GET and a request it answers outside 2xx
    all leave its records and its counter as they were. *)
Theorem mock_changes_only_on_accepted_writes :
  forall (url : string) (req : Request) (m m' : MockMikrotikServer.World)
         (r : result Response),
    MockMikrotikServer.Do url req m = (r, m') ->
    (m' <> m ->
       authorized req = true
       /\ MockMikrotikServer.returnError m = false
       /\ (Method req = "PUT" \/ Method req = "DELETE")
       /\ exists resp, r = Ok resp /\ StatusCode resp = 200%Z)
    /\ MockMikrotikServer.returnError m' = MockMikrotikServer.returnError m
    /\ MockMikrotikServer.errorCode m' = MockMikrotikServer.errorCode m
    /\ (MockMikrotikServer.nextID m <= MockMikrotikServer.nextID m')%nat.
Proof.
  intros url req m m' r. unfold MockMikrotikServer.Do.
  assert (Hsame : forall (r0 : result Response),
             (r0, m) = (r, m') ->
             (m' <> m ->
                authorized req = true
                /\ MockMikrotikServer.returnError m = false
                /\ (Method req = "PUT" \/ Method req = "DELETE")
                /\ exists resp, r = Ok resp /\ StatusCode resp = 200%Z)
             /\ MockMikrotikServer.returnError m' = MockMikrotikServer.returnError m
             /\ MockMikrotikServer.errorCode m' = MockMikrotikServer.errorCode m
             /\ (MockMikrotikServer.nextID m <= MockMikrotikServer.nextID m')%nat).
  { intros r0 E. inversion E; subst.
    split; [intros Hchg; now elim Hchg|]. auto. }
  destruct (stripPrefix url (URL req)) as [path|]; [|apply Hsame].
  destruct (authorized req); cbn [negb]; [|apply Hsame].
  destruct (MockMikrotikServer.returnError m) eqn:Herr; [apply Hsame|].
  destruct (String.eqb_spec (Method req) "GET") as [Hget|Hget]; cbn [andb].
  - destruct (path =? "/rest/system/resource"); [apply Hsame|].
    destruct (path =? "/rest/ip/dns/static");
      [unfold MockMikrotikServer.handleGetDNSRecords; apply Hsame|].
    replace (Method req =? "PUT") with false by now rewrite Hget.
    replace (Method req =? "DELETE") with false by now rewrite Hget.
    cbn [andb]. apply Hsame.
  - destruct (String.eqb_spec (Method req) "PUT") as [Hput|Hput]; cbn [andb].
    + destruct (path =? "/rest/ip/dns/static").
      * unfold MockMikrotikServer.handleCreateDNSRecord.
        destruct (ReqBody req) as [[record|rs|raw]|]; try apply Hsame.
        intros E; inversion E; subst; cbn.
        split; [intros _|auto].
        split; [reflexivity|]. split; [reflexivity|]. split; [now left|].
        eexists; split; reflexivity.
      * replace (Method req =? "DELETE") with false by now rewrite Hput.
        cbn [andb]. apply Hsame.
    + destruct (String.eqb_spec (Method req) "DELETE") as [Hdel|Hdel];
        cbn [andb]; [|apply Hsame].
      destruct (HasPrefix path "/rest/ip/dns/static/"); [|apply Hsame].
      unfold MockMikrotikServer.handleDeleteDNSRecord.
      intros E; inversion E; subst; cbn.
      split; [intros _|auto].
      split; [reflexivity|]. split; [reflexivity|]. split; [now right|].
      eexists; split; reflexivity.
Qed.

Lemma mock_changes_only_on_accepted_writes_witness :
  authorized (deleteRequest testClient "*1") = true
  /\ MockMikrotikServer.returnError twoRecordStore = false
  /\ (Method (deleteRequest testClient "*1") = "PUT"
      \/ Method (deleteRequest testClient "*1") = "DELETE")
  /\ exists resp,
       Ok (respond 200 (JOther EmptyString)) = Ok resp
       /\ StatusCode resp = 200%Z.
Proof.
  apply (proj1 (mock_changes_only_on_accepted_writes serverURL
                  (deleteRequest testClient "*1") twoRecordStore
                  (MockMethods.DeleteRecord "*1" twoRecordStore)
                  (Ok (respond 200 (JOther EmptyString))) eq_refl)).
  discriminate.
Defined.

Lemma mock_unauthorized (url : string) (c : MikrotikApiClient)
    (method path : string) (queryParams : url_Values) (body : option Payload)
    (m : MockMikrotikServer.World) :
  BaseUrl (config c) = url ->
  Username (config c) <> mockUsername \/ Password (config c) <> mockPassword ->
  doRequest (MockMikrotikServer.Do url) noRequestErr c method path
    queryParams body m
  = (Err "request failed: 401 Unauthorized", m,
     [requestOf c method path queryParams body]).
Proof.
  intros Hurl Hcred.
  rewrite doRequest_cases. unfold noRequestErr at 1. cbv zeta.
  assert (Hdo : MockMikrotikServer.Do url
                  (requestOf c method path queryParams body) m
                = (Ok (http_Error "Unauthorized" 401), m)).
  { unfold MockMikrotikServer.Do.
    change (URL (requestOf c method path queryParams body))
      with (BaseUrl (config c) ++ "/rest/" ++ path).
    rewrite Hurl, stripPrefix_app.
    unfold authorized, requestOf. cbn [BasicAuth].
    destruct Hcred as [H|H]; apply String.eqb_neq in H; rewrite H;
      rewrite ?andb_false_r; reflexivity. }
  rewrite Hdo. reflexivity.
Qed.

(** X13: a client whose user name or password is not the one the mock
    server expects gets every operation refused with the error of a 401 and
    changes nothing: a deletion fails at its fetch, behind
    [failed to get DNS records for <name>: ], a create call fails at its
    PUT, and the server's state is as before. *)
Theorem wrong_credentials_are_refused :
  forall (url : string) (c : MikrotikApiClient) (ep : Endpoint)
         (record : DNSRecord) (m : MockMikrotikServer.World),
    BaseUrl (config c) = url ->
    Username (config c) <> mockUsername \/ Password (config c) <> mockPassword ->
    DeleteDNSRecords (MockMikrotikServer.Do url) noRequestErr c ep m
    = (Err (("failed to get DNS records for " ++ DNSName ep ++ ": ")
            ++ "request failed: 401 Unauthorized"),
       m, [fetchRequest c (DNSName ep)])
    /\ createSingleDNSRecord (MockMikrotikServer.Do url) noRequestErr c record m
       = (Err "request failed: 401 Unauthorized", m, [putRequest c record])
    /\ GetDNSRecordsByName (MockMikrotikServer.Do url) noRequestErr c
         (DNSName ep) m
       = (Err "request failed: 401 Unauthorized", m,
          [fetchRequest c (DNSName ep)]).
Proof.
  intros url c ep record m Hurl Hcred.
  assert (Hget : GetDNSRecordsByName (MockMikrotikServer.Do url) noRequestErr c
                   (DNSName ep) m
                 = (Err "request failed: 401 Unauthorized", m,
                    [fetchRequest c (DNSName ep)])).
  { rewrite GetDNSRecordsByName_cases.
    now rewrite (mock_unauthorized url c "GET" "ip/dns/static"
                   (fetchQuery c (DNSName ep)) None m Hurl Hcred). }
  split; [|split; [|exact Hget]].
  - now rewrite DeleteDNSRecords_cases, Hget.
  - rewrite createSingleDNSRecord_cases.
    now rewrite (mock_unauthorized url c "PUT" "ip/dns/static" []
                   (Some (JRecord record)) m Hurl Hcred).
Qed.

Lemma wrong_credentials_are_refused_witness :
  DeleteDNSRecords (MockMikrotikServer.Do serverURL) noRequestErr wrongPassword
    twoTargets twoRecordStore
  = (Err "failed to get DNS records for multi.example.com: request failed: 401 Unauthorized",
     twoRecordStore, [fetchRequest wrongPassword "multi.example.com"]).
Proof.
  assert (Hcred : Username (config wrongPassword) <> mockUsername
                  \/ Password (config wrongPassword) <> mockPassword)
    by (right; discriminate).
  exact (proj1 (wrong_credentials_are_refused serverURL wrongPassword
                  twoTargets (created EmptyString "10.0.0.1") twoRecordStore
                  eq_refl Hcred)).
Defined.

(** ** The helpers of the real-device suite *)

Lemma hasSpace_app (a b : string) :
  hasSpace (a ++ String " "%char b) = true.
Proof.
  induction a as [|x a IH]; cbn [append hasSpace].
  - reflexivity.
  - rewrite IH. apply orb_true_r.
Qed.

Lemma cleanupTargets_In (records : list DNSRecord) (t : string) :
  In t (RealDevice.cleanupTargets records) <->
  t <> EmptyString
  /\ exists r, In r records /\ RealDevice.getRecordTarget r = t.
Proof.
  induction records as [|r rest IH]; cbn [RealDevice.cleanupTargets].
  - split; [intros [] | intros (_ & x & [] & _)].
  - destruct (String.eqb_spec (RealDevice.getRecordTarget r) EmptyString)
      as [He|Hne]; cbn [negb].
    + rewrite IH. split.
      * intros (Ht & x & Hx & E). split; [exact Ht|]. exists x. split; auto.
        now right.
      * intros (Ht & x & [<-|Hx] & E); [congruence|].
        split; [exact Ht|]. now exists x.
    + cbn [In]. rewrite IH. split.
      * intros [<-|(Ht & x & Hx & E)].
        -- split; [exact Hne|]. exists r. split; [now left | reflexivity].
        -- split; [exact Ht|]. exists x. split; [now right | exact E].
      * intros (Ht & x & [<-|Hx] & E); [now left|].
        right. split; [exact Ht|]. now exists x.
Qed.

Lemma suite_target_has_space (r : DNSRecord) :
  Type_ r = "MX" \/ Type_ r = "SRV" ->
  hasSpace (RealDevice.getRecordTarget r) = true.
Proof.
  unfold RealDevice.getRecordTarget.
  intros [E|E]; rewrite E; cbn [String.eqb Ascii.eqb Bool.eqb orb andb];
    apply hasSpace_app.
Qed.

Lemma suite_target_single_field (r : DNSRecord) :
  In (Type_ r) singleFieldTypes ->
  RealDevice.getRecordTarget r = getRecordTarget r.
Proof.
  unfold RealDevice.getRecordTarget, getRecordTarget, singleFieldTypes.
  cbn [In]. intros [E|[E|[E|[E|[E|[]]]]]]; rewrite <- E; reflexivity.
Qed.

(** X14: the endpoint [CleanupTestRecords] builds for a group of MX or SRV
    records never makes [DeleteDNSRecords] select a record whose exchange or
    SRV target has no blank: the suite renders such targets with the
    preference or the priority, weight and port in front, and the client
    compares the bare exchange or target.  For a group of records of a
    kind with one target field the endpoint does select every record of
    the group that has the name and kind of the first, the ownership tag
    and a target. *)
Theorem cleanupEndpoint_selection :
  forall (c : MikrotikApiClient) (records : list DNSRecord) (ep : Endpoint)
         (r : DNSRecord),
    RealDevice.cleanupEndpoint records = Some ep ->
    ((forall x, In x records -> Type_ x = "MX" \/ Type_ x = "SRV") ->
     hasSpace (getRecordTarget r) = false ->
     isDeleteCandidate c ep r = false)
    /\ (forall first rest,
          records = first :: rest ->
          In r records ->
          In (Type_ r) singleFieldTypes ->
          Name r = Name first -> Type_ r = Type_ first ->
          Comment r = DefaultComment (defaults c) ->
          getRecordTarget r <> EmptyString ->
          isDeleteCandidate c ep r = true).
Proof.
  intros c records ep r Hep.
  unfold RealDevice.cleanupEndpoint in Hep.
  destruct records as [|first rest]; [discriminate|].
  destruct (length (RealDevice.cleanupTargets (first :: rest)) =? 0)%nat eqn:Hlen;
    [discriminate|].
  inversion Hep; subst ep; clear Hep.
  apply Nat.eqb_neq in Hlen.
  assert (Hts : RealDevice.cleanupTargets (first :: rest) <> [])
    by (intros E; rewrite E in Hlen; now apply Hlen).
  split.
  - intros Hkinds Hspace.
    destruct (isDeleteCandidate c _ r) eqn:Hcand; [exfalso|reflexivity].
    apply isDeleteCandidate_true in Hcand. cbn [Targets] in Hcand.
    destruct Hcand as (_ & _ & _ & [Hnil|[_ Hin]]); [contradiction|].
    apply (proj1 (cleanupTargets_In (first :: rest) (getRecordTarget r))) in Hin.
    destruct Hin as (_ & x & Hx & E).
    pose proof (suite_target_has_space x (Hkinds x Hx)) as Hs.
    rewrite E, Hspace in Hs. discriminate.
  - intros first' rest' E Hin Hkind Hn Ht Hc Htarget.
    inversion E; subst first' rest'.
    apply isDeleteCandidate_true. cbn [DNSName RecordType Targets].
    repeat split; auto. right. split; [exact Htarget|].
    apply (proj2 (cleanupTargets_In (first :: rest) (getRecordTarget r))).
    split; [exact Htarget|].
    exists r. split; [exact Hin | now apply suite_target_single_field].
Qed.

Lemma cleanupEndpoint_selection_witness :
  isDeleteCandidate testClient
    {| DNSName := "example.com"; Targets := ["10 mail.example.com"];
       RecordType := "MX"; RecordTTL := 0; ProviderSpecific := [] |}
    (mxRecord "*1" "example.com" "10" "mail.example.com" "external-dns")
  = false.
Proof.
  apply (proj1 (cleanupEndpoint_selection testClient
                  [mxRecord "*1" "example.com" "10" "mail.example.com"
                     "external-dns"] _ _ eq_refl)).
  - intros x [<-|[]]. now left.
  - reflexivity.
Defined.

Section SuiteFacts.

Variable World : Type.
Variable Do : Request -> World -> result Response * World.
Variable newRequestErr : string -> string -> option error.

Local Notation GetDNSRecordsByName' := (GetDNSRecordsByName Do newRequestErr).
Local Notation AssertRecordExists' := (RealDevice.AssertRecordExists Do newRequestErr).
Local Notation AssertRecordNotExists' :=
  (RealDevice.AssertRecordNotExists Do newRequestErr).

(** X15: on the same answer of the remote the two assertions of the suite are
    complementary: when the fetch fails both return its error; otherwise
    exactly one of them passes, [AssertRecordExists] when a fetched record
    has the kind and, rendered the suite's way, the target, and
    [AssertRecordNotExists] when none has; neither makes a request of its
    own beyond the fetch. *)
Theorem asserts_are_complementary :
  forall (c : MikrotikApiClient) (name recordType target : string)
         (w w1 : World) (r1 : result (list DNSRecord)) (t1 : list Request),
    GetDNSRecordsByName' c name w = (r1, w1, t1) ->
    match r1 with
    | Err err =>
        AssertRecordExists' c name recordType target w = (Err err, w1, t1)
        /\ AssertRecordNotExists' c name recordType target w = (Err err, w1, t1)
    | Ok records =>
        ((exists record,
             In record records /\ Type_ record = recordType
             /\ RealDevice.getRecordTarget record = target)
         /\ AssertRecordExists' c name recordType target w = (Ok tt, w1, t1)
         /\ AssertRecordNotExists' c name recordType target w
            = (Err ("record should not exist but found: " ++ name ++ " "
                    ++ recordType ++ " " ++ target), w1, t1))
        \/ ((forall record,
                In record records -> Type_ record = recordType ->
                RealDevice.getRecordTarget record <> target)
            /\ AssertRecordExists' c name recordType target w
               = (Err ("record not found: " ++ name ++ " " ++ recordType
                       ++ " " ++ target), w1, t1)
            /\ AssertRecordNotExists' c name recordType target w = (Ok tt, w1, t1))
    end.
Proof.
  intros c name recordType target w w1 r1 t1 Hget.
  unfold RealDevice.AssertRecordExists, RealDevice.AssertRecordNotExists, bind.
  rewrite Hget. destruct r1 as [records|err]; [|split; reflexivity].
  destruct (RealDevice.hasRecord recordType target records) eqn:Hhas;
    unfold ret, fail; rewrite app_nil_r.
  - left. split; [|split; reflexivity].
    unfold RealDevice.hasRecord in Hhas. apply existsb_exists in Hhas.
    destruct Hhas as (record & Hin & Hboth).
    apply andb_true_iff in Hboth. destruct Hboth as [Ht Htarget].
    exists record. split; [exact Hin|].
    split; now apply String.eqb_eq.
  - right. split; [|split; reflexivity].
    intros record Hin Ht Htarget.
    assert (E : RealDevice.hasRecord recordType target records = true).
    { unfold RealDevice.hasRecord. apply existsb_exists. exists record.
      split; [exact Hin|]. rewrite Ht, Htarget, !String.eqb_refl. reflexivity. }
    congruence.
Qed.

End SuiteFacts.

Lemma asserts_are_complementary_witness :
  RealDevice.AssertRecordExists (UnitTestServer.Do serverURL twoOwned)
    noRequestErr testClient "multi.example.com" "A" "9.9.9.9" 0%nat
  = (Err "record not found: multi.example.com A 9.9.9.9", 0%nat,
     [fetchRequest testClient "multi.example.com"])
  /\ RealDevice.AssertRecordNotExists (UnitTestServer.Do serverURL twoOwned)
       noRequestErr testClient "multi.example.com" "A" "9.9.9.9" 0%nat
     = (Ok tt, 0%nat, [fetchRequest testClient "multi.example.com"]).
Proof.
  destruct (asserts_are_complementary
              UnitTestServer.World (UnitTestServer.Do serverURL twoOwned)
              noRequestErr testClient "multi.example.com" "A" "9.9.9.9"
              0%nat 0%nat (Ok twoOwned)
              [fetchRequest testClient "multi.example.com"] eq_refl)
    as [(_ & E & _) | (_ & E1 & E2)].
  - discriminate E.
  - split; [exact E1 | exact E2].
Defined.

(** ** Test names *)

Lemma length_substring_le (s : string) :
  forall n m, (String.length (substring n m s) <= String.length s)%nat.
Proof.
  induction s as [|a s IH]; intros n m.
  - destruct n, m; cbn; lia.
  - destruct n as [|n].
    + destruct m as [|m]; cbn [substring String.length]; [lia|].
      specialize (IH 0%nat m). lia.
    + cbn [substring String.length]. specialize (IH n m). lia.
Qed.

Lemma substring_step (s : string) :
  forall n k a t,
    substring n (S k) s = String a t -> substring (S n) k s = t.
Proof.
  induction s as [|b s IH]; intros n k a t H.
  - destruct n; discriminate H.
  - destruct n as [|n]; cbn [substring] in H |- *.
    + now inversion H.
    + destruct s as [|b' s'].
      * destruct n; discriminate H.
      * now apply IH with (a := a).
Qed.

Lemma substring_prefix_app (p s : string) :
  substring 0 (String.length p) (p ++ s) = p.
Proof.
  induction p as [|a p IH]; cbn [String.length append substring].
  - destruct s; reflexivity.
  - now rewrite IH.
Qed.

Lemma Contains_of_substring (s p : string) (n : nat) :
  substring n (String.length p) s = p -> RealDevice.Contains s p = true.
Proof.
  intros H. unfold RealDevice.Contains.
  destruct (index 0 p s) as [k|] eqn:Hi; [reflexivity|exfalso].
  destruct p as [|a p].
  - apply index_correct4 in Hi. lia.
  - apply (index_correct3 0 n (String a p) s Hi); [discriminate | lia | exact H].
Qed.

Lemma Contains_substring (s p : string) :
  RealDevice.Contains s p = true ->
  exists n, substring n (String.length p) s = p.
Proof.
  unfold RealDevice.Contains.
  destruct (index 0 p s) as [k|] eqn:Hi; [|discriminate].
  intros _. exists k. now apply index_correct1 with (n := 0%nat).
Qed.

(** X16: of the three tests [isTestRecord] makes, only the last decides: a
    name is a test record exactly when the test prefix occurs somewhere in
    it, so that the prefix test and the subdomain test add nothing and no
    name is ever too short to be looked at; every name that
    [GenerateTestDomainName] makes is a test record, and with an empty
    prefix every name is one. *)
Theorem isTestRecord_is_containment :
  (forall TestDomainPrefix name,
      RealDevice.isTestRecord TestDomainPrefix name
      = RealDevice.Contains name TestDomainPrefix)
  /\ (forall TestDomainPrefix suffix,
        RealDevice.isTestRecord TestDomainPrefix
          (RealDevice.GenerateTestDomainName TestDomainPrefix suffix)
        = true)
  /\ (forall name, RealDevice.isTestRecord EmptyString name = true).
Proof.
  assert (H : forall p name,
             RealDevice.isTestRecord p name = RealDevice.Contains name p).
  { intros p name. unfold RealDevice.isTestRecord.
    destruct (RealDevice.Contains name p) eqn:Hc.
    - rewrite orb_true_r, andb_true_r.
      apply Nat.leb_le.
      apply Contains_substring in Hc. destruct Hc as [n Hn].
      rewrite <- Hn at 1. apply length_substring_le.
    - rewrite orb_false_r.
      destruct (String.eqb_spec (substring 0 (String.length p) name) p)
        as [E|_].
      + apply Contains_of_substring in E. congruence.
      + cbn [orb].
        destruct (RealDevice.Contains name ("." ++ p)) eqn:Hdot;
          [|apply andb_false_r].
        apply Contains_substring in Hdot. destruct Hdot as [n Hn].
        cbn [append String.length] in Hn. apply substring_step in Hn.
        apply Contains_of_substring in Hn. congruence. }
  split; [exact H|]. split.
  - intros p suffix. rewrite H.
    apply Contains_of_substring with (n := 0%nat).
    unfold RealDevice.GenerateTestDomainName. apply substring_prefix_app.
  - intros name. rewrite H.
    apply Contains_of_substring with (n := 0%nat).
    destruct name; reflexivity.
Qed.

(** ** The record methods of the mock server *)

Lemma find_put_same (id : string) (record : DNSRecord) (rs : list DNSRecord) :
  ID record = id ->
  find (fun r => ID r =? id) (MockMikrotikServer.put id record rs) = Some record.
Proof.
  intros E. induction rs as [|r rs IH]; cbn [MockMikrotikServer.put find].
  - now rewrite E, String.eqb_refl.
  - destruct (ID r =? id) eqn:Hr; cbn [find].
    + now rewrite E, String.eqb_refl.
    + now rewrite Hr.
Qed.

Lemma find_put_other (id id' : string) (record : DNSRecord)
    (rs : list DNSRecord) :
  ID record = id -> id' <> id ->
  find (fun r => ID r =? id') (MockMikrotikServer.put id record rs)
  = find (fun r => ID r =? id') rs.
Proof.
  intros E Hne. assert (Hf : (id =? id') = false)
    by (apply String.eqb_neq; congruence).
  induction rs as [|r rs IH]; cbn [MockMikrotikServer.put find].
  - now rewrite E, Hf.
  - destruct (String.eqb_spec (ID r) id) as [Hr|Hr]; cbn [find].
    + now rewrite E, Hr, Hf.
    + now rewrite IH.
Qed.

Lemma filter_put_fresh (id : string) (record : DNSRecord) (rs : list DNSRecord) :
  ID record = id ->
  find (fun r => ID r =? id) rs = None ->
  filter (fun r => negb (ID r =? id)) (MockMikrotikServer.put id record rs) = rs.
Proof.
  intros E. induction rs as [|r rs IH]; cbn [MockMikrotikServer.put find filter].
  - intros _. now rewrite E, String.eqb_refl.
  - destruct (ID r =? id) eqn:Hr; [discriminate|].
    intros Hnone. cbn [filter]. rewrite Hr. cbn [negb]. now rewrite IH.
Qed.

Lemma find_filter_deleted (id : string) (rs : list DNSRecord) :
  find (fun r => ID r =? id) (filter (fun r => negb (ID r =? id)) rs) = None.
Proof.
  induction rs as [|r rs IH]; [reflexivity|].
  cbn [filter]. destruct (ID r =? id) eqn:Hr; cbn [negb]; [exact IH|].
  cbn [find]. now rewrite Hr.
Qed.

(** X17: on the mock server a record added with [AddRecord] is found by
    [GetRecord] under the identifier returned, [*<nextID>], and carries
    it; the records under other identifiers are untouched; after
    [DeleteRecord] of that identifier it is found no more, and when the
    identifier was unused before, the records are those held before the
    addition. *)
Theorem AddRecord_round_trip :
  forall (record : DNSRecord) (m : MockMikrotikServer.World),
    fst (MockMethods.AddRecord record m)
    = "*" ++ itoa (MockMikrotikServer.nextID m)
    /\ MockMethods.GetRecord (fst (MockMethods.AddRecord record m))
         (snd (MockMethods.AddRecord record m))
       = Some (set_ID (fst (MockMethods.AddRecord record m)) record)
    /\ (forall id',
          id' <> fst (MockMethods.AddRecord record m) ->
          MockMethods.GetRecord id' (snd (MockMethods.AddRecord record m))
          = MockMethods.GetRecord id' m)
    /\ MockMethods.GetRecord (fst (MockMethods.AddRecord record m))
         (MockMethods.DeleteRecord (fst (MockMethods.AddRecord record m))
            (snd (MockMethods.AddRecord record m)))
       = None
    /\ (MockMethods.GetRecord (fst (MockMethods.AddRecord record m)) m = None ->
        MockMikrotikServer.records
          (MockMethods.DeleteRecord (fst (MockMethods.AddRecord record m))
             (snd (MockMethods.AddRecord record m)))
        = MockMikrotikServer.records m).
Proof.
  intros record m.
  unfold MockMethods.AddRecord, MockMethods.GetRecord, MockMethods.DeleteRecord.
  cbn [fst snd MockMikrotikServer.records].
  split; [reflexivity|].
  split; [now apply find_put_same|].
  split; [intros id' Hne; now apply find_put_other|].
  split; [apply find_filter_deleted|].
  intros Hnone. now apply filter_put_fresh.
Qed.

Lemma AddRecord_round_trip_witness :
  MockMikrotikServer.records
    (MockMethods.DeleteRecord "*3"
       (snd (MockMethods.AddRecord (created EmptyString "10.0.0.1")
               twoRecordStore)))
  = MockMikrotikServer.records twoRecordStore.
Proof.
  apply (proj2 (proj2 (proj2 (proj2 (AddRecord_round_trip
                                       (created EmptyString "10.0.0.1")
                                       twoRecordStore))))).
  reflexivity.
Defined.

(** ** The variant of the client *)

Section VariantFacts.

Variable World : Type.
Variable Do : Request -> World -> result Response * World.
Variable newRequestErr : string -> string -> option error.

Local Notation GetAllDNSRecords' := (Variant.GetAllDNSRecords Do newRequestErr).
Local Notation deleteAll' := (Variant.deleteAll Do newRequestErr).
Local Notation VariantDelete := (Variant.DeleteDNSRecords Do newRequestErr).

Lemma deleteAll_requests (c : MikrotikApiClient) :
  forall (records : list DNSRecord) (w w' : World) (r : result unit)
         (t : list Request),
    deleteAll' c records w = (r, w', t) ->
    exists n,
      t = map (deleteRequest c) (firstn n (map ID records))
      /\ (is_ok r = true -> n = length records).
Proof.
  induction records as [|record rest IH]; intros w w' r t H.
  - inversion H; subst. exists 0%nat. auto.
  - cbn [Variant.deleteAll] in H. unfold bind, Variant.doRequest in H.
    destruct (doRequest Do newRequestErr c "DELETE"
                ("ip/dns/static/" ++ ID record) [] None w)
      as [[[resp|err] w1] t1] eqn:Hdel;
      destruct (doRequest_calls _ _ _ _ _ _ _ _ _ _ _ _ Hdel) as [Ht1 Hok].
    + specialize (Hok eq_refl). subst t1.
      destruct (deleteAll' c rest w1) as [[r2 w2] t2] eqn:Hrest.
      destruct (IH _ _ _ _ Hrest) as (n & -> & Hn).
      inversion H; subst. exists (S n). cbn [map firstn app length].
      split; [reflexivity|]. intros Hr. now rewrite (Hn Hr).
    + inversion H; subst. destruct Ht1 as [->| ->].
      * exists 0%nat. split; [reflexivity | discriminate].
      * exists 1%nat. split; [reflexivity | discriminate].
Qed.

(** X18: the variant's [DeleteDNSRecords] never fetches again: after its one
    fetch of all records its requests are DELETEs of the identifiers that
    fetch gave the candidates, in order, up to the first failure, and of
    every candidate when it returns without error. *)
Theorem Variant_deletes_by_captured_IDs :
  forall (c : MikrotikApiClient) (ep : Endpoint) (w w1 : World)
         (allRecords : list DNSRecord) (t1 : list Request),
    GetAllDNSRecords' c w = (Ok allRecords, w1, t1) ->
    exists n,
      snd (VariantDelete c ep w)
      = (t1 ++ map (deleteRequest c)
                 (firstn n (map ID (filter (Variant.isDeleteCandidate c ep)
                                      allRecords))))%list
      /\ (is_ok (fst (fst (VariantDelete c ep w))) = true ->
          n = length (filter (Variant.isDeleteCandidate c ep) allRecords)).
Proof.
  intros c ep w w1 allRecords t1 Hget.
  unfold Variant.DeleteDNSRecords, bind, wrap. rewrite Hget. cbv zeta.
  destruct (filter (Variant.isDeleteCandidate c ep) allRecords)
    as [|record rest] eqn:Hcand.
  - cbn [length Nat.eqb]. unfold ret. exists 0%nat. cbn. auto.
  - cbn [length Nat.eqb].
    destruct (deleteAll' c (record :: rest) w1) as [[r w2] t2] eqn:Hloop.
    destruct (deleteAll_requests c _ _ _ _ _ Hloop) as (n & -> & Hn).
    exists n. cbn [fst snd]. auto.
Qed.

(** X19: the variant selects by name, kind and ownership tag alone: the
    targets of the endpoint play no part; every candidate of [client.go]
    is one of the variant, and for an endpoint without targets the two
    select the same records. *)
Theorem Variant_selection :
  forall (c : MikrotikApiClient) (ep : Endpoint) (r : DNSRecord),
    (forall ep',
        DNSName ep' = DNSName ep -> RecordType ep' = RecordType ep ->
        Variant.isDeleteCandidate c ep' r = Variant.isDeleteCandidate c ep r)
    /\ (isDeleteCandidate c ep r = true ->
        Variant.isDeleteCandidate c ep r = true)
    /\ (Targets ep = [] ->
        forall allRecords,
          recordsToDelete c ep allRecords
          = filter (Variant.isDeleteCandidate c ep) allRecords).
Proof.
  intros c ep r. split; [|split].
  - intros ep' Hn Ht. unfold Variant.isDeleteCandidate. now rewrite Hn, Ht.
  - unfold isDeleteCandidate, Variant.isDeleteCandidate.
    destruct ((Name r =? DNSName ep) && (Type_ r =? RecordType ep));
      [|discriminate].
    destruct (Comment r =? DefaultComment (defaults c)); [reflexivity|discriminate].
  - intros Hts allRecords. unfold recordsToDelete. apply filter_ext.
    intros x. unfold isDeleteCandidate, Variant.isDeleteCandidate.
    rewrite Hts. reflexivity.
Qed.

End VariantFacts.

Lemma Variant_deletes_by_captured_IDs_witness :
  exists n,
    snd (Variant.DeleteDNSRecords ScriptedServer.Do noRequestErr testClient
           twoTargets allSucceed)
    = (snd (Variant.GetAllDNSRecords ScriptedServer.Do noRequestErr testClient
              allSucceed)
       ++ map (deleteRequest testClient)
            (firstn n
               (map ID (filter (Variant.isDeleteCandidate testClient twoTargets)
                          twoOwned))))%list
    /\ (is_ok (fst (fst (Variant.DeleteDNSRecords ScriptedServer.Do noRequestErr
                           testClient twoTargets allSucceed))) = true ->
        n = length (filter (Variant.isDeleteCandidate testClient twoTargets)
                      twoOwned)).
Proof.
  exact (Variant_deletes_by_captured_IDs
           ScriptedServer.World ScriptedServer.Do noRequestErr testClient
           twoTargets allSucceed
           [Ok (respond 200 (JOther EmptyString));
            Ok (respond 200 (JOther EmptyString))]
           twoOwned
           (snd (Variant.GetAllDNSRecords ScriptedServer.Do noRequestErr
                   testClient allSucceed))
           eq_refl).
Defined.

Lemma Variant_selection_witness :
  Variant.isDeleteCandidate testClient oneTarget
    (aRecord "*2" "multi.example.com" "5.6.7.8" "external-dns")
  = Variant.isDeleteCandidate testClient twoTargets
      (aRecord "*2" "multi.example.com" "5.6.7.8" "external-dns")
  /\ recordsToDelete testClient (anEndpoint "multi.example.com" "A" []) twoOwned
     = filter (Variant.isDeleteCandidate testClient
                 (anEndpoint "multi.example.com" "A" [])) twoOwned.
Proof.
  split.
  - apply (proj1 (Variant_selection testClient twoTargets
                    (aRecord "*2" "multi.example.com" "5.6.7.8" "external-dns")));
      reflexivity.
  - apply (proj2 (proj2 (Variant_selection testClient
                           (anEndpoint "multi.example.com" "A" [])
                           (aRecord "*2" "multi.example.com" "5.6.7.8"
                              "external-dns")))).
    reflexivity.
Defined.
